(** * Message-broker-backed dataset subsystem of the Cognitive Framework

    A shallow embedding of [app/services/dataset_service.py] (the broker,
    topic, dataset-topic link and stream-reading operations of
    [DatasetService]) together with the ORM models, pydantic schemas,
    exceptions and constants they use.

    The service is stateful Python: it talks to a SQLAlchemy [Session] and
    to a [KafkaConsumer], and signals errors with exceptions.  It is
    embedded as programs of a state-and-exception monad [M] over a [World]
    holding the committed database, the session of the current request, a
    schedule of operational database failures, the clock and the Kafka
    environment. *)

From Stdlib Require Import ZArith List String Bool Lia DecimalString.
Import ListNotations.

Open Scope string_scope.
Open Scope list_scope.
Open Scope Z_scope.

(** ** config/constants.py *)

Module const.
Definition DATA_SOURCE_TYPE_FILE : Z := 0.
Definition DATA_SOURCE_TYPE_TABLE : Z := 1.
Definition BROKER_DATA_SOURCE_TYPE : Z := 2.
Definition USER_ID : Z := 0.
Definition DEFAULT_STREAM_DATA_COUNT : Z := 200.
Definition STREAM_TIMEOUT : Z := 10000.
Definition EARLIEST : string := "earliest".
Definition LATEST : string := "latest".
End const.

(** Python's [str] on an [int], as used by the f-strings of the service. *)
Definition str (z : Z) : string := NilZero.string_of_int (Z.to_int z).

(** ** Exceptions

    One constructor per exception class that the modelled code can see.
    [NoRowFound], [DBIntegrityError], [MultipleResultsFound],
    [OperationalError] and [PendingRollbackError] are SQLAlchemy's;
    [NoResultFound], [IntegrityError] and [NoMessagesFound] are the
    application's own (app/utils/exceptions.py). *)

Inductive exn : Type :=
| NoRowFound                                   (* sqlalchemy.exc.NoResultFound *)
| MultipleResultsFound                         (* sqlalchemy.exc.MultipleResultsFound *)
| DBIntegrityError (constraint : string)       (* sqlalchemy.exc.IntegrityError *)
| OperationalError                             (* sqlalchemy.exc.OperationalError *)
| PendingRollbackError                         (* sqlalchemy.exc.PendingRollbackError *)
| ObjectDeletedError                           (* sqlalchemy.orm.exc.ObjectDeletedError *)
| NoResultFound (message : string)             (* class NoResultFound(SQLAlchemyNoResultFound) *)
| IntegrityError (message : string) (orig : exn) (* class IntegrityError(DatabaseError) *)
| NoMessagesFound (message : string)           (* class NoMessagesFound(Exception) *)
| NoBrokersAvailable                           (* kafka.errors.NoBrokersAvailable *)
| KafkaError                                   (* kafka.errors.KafkaError, the base of NoBrokersAvailable *)
| DeserializeError                             (* json.loads / bytes.decode failure *)
| AssertionError (message : string).

(** [isinstance] against the classes named in the [except] clauses.
    The application's [NoResultFound] derives from SQLAlchemy's, and the
    application's [IntegrityError] derives from [DatabaseError], a sibling
    of SQLAlchemy's [IntegrityError]. *)

Definition is_DBIntegrityError (e : exn) : bool :=
  match e with DBIntegrityError _ => true | _ => false end.

Definition is_NoRowFound (e : exn) : bool :=
  match e with NoRowFound | NoResultFound _ => true | _ => false end.

Definition is_SQLAlchemyError (e : exn) : bool :=
  match e with
  | NoRowFound | MultipleResultsFound | DBIntegrityError _ | OperationalError
  | PendingRollbackError | ObjectDeletedError | NoResultFound _
  | IntegrityError _ _ => true
  | _ => false
  end.

Definition is_NoResultFound (e : exn) : bool :=
  match e with NoResultFound _ => true | _ => false end.

Definition is_NoMessagesFound (e : exn) : bool :=
  match e with NoMessagesFound _ => true | _ => false end.

(** ** ORM models (app/models) *)

(** pydantic's [IPvAnyAddress]: an [ipaddress.IPv4Address] or
    [ipaddress.IPv6Address], each a wrapper around the address as an
    integer.  [BrokerDetails.validate_broker_ip] stores its canonical text;
    the row keeps the address value here. *)
Inductive IPvAnyAddress : Type :=
| IPv4Address (packed : Z)
| IPv6Address (packed : Z).

(** A JSON column or request body, kept as its serialised text. *)
Definition JSONDoc : Type := string.

Module BrokerDetails.
Record t : Type := mk {
  id : Z;
  broker_name : string;
  broker_ip : IPvAnyAddress;
  broker_port : Z;
  creation_date : Z
}.
End BrokerDetails.

Module TopicDetails.
Record t : Type := mk {
  id : Z;
  topic_name : string;
  topic_schema : JSONDoc;
  broker_id : Z;
  creation_date : Z
}.
End TopicDetails.

Module DatasetInfo.
Record t : Type := mk {
  id : Z;
  train_and_inference_type : Z;
  data_source_type : Z;
  dataset_name : string;
  description : string;
  user_id : Z;
  register_date_time : Z;
  last_modified_time : Z;
  last_modified_user_id : Z
}.
End DatasetInfo.

Module DatasetTopicDetails.
Record t : Type := mk {
  id : Z;
  topic_id : Z;
  dataset_id : Z;
  creation_date : Z
}.
End DatasetTopicDetails.

(** ** The metadata store

    The four tables of this subsystem, each a list of rows in insertion
    order.  (The other child tables of [dataset_info] hold no row of a
    broker-sourced dataset and are left out.) *)

Record DB : Type := mkDB {
  broker_details_rows : list BrokerDetails.t;
  topic_details_rows : list TopicDetails.t;
  dataset_info_rows : list DatasetInfo.t;
  dataset_topic_details_rows : list DatasetTopicDetails.t
}.

Definition set_broker_details (v : list BrokerDetails.t) (db : DB) : DB :=
  mkDB v (topic_details_rows db) (dataset_info_rows db) (dataset_topic_details_rows db).
Definition set_topic_details (v : list TopicDetails.t) (db : DB) : DB :=
  mkDB (broker_details_rows db) v (dataset_info_rows db) (dataset_topic_details_rows db).
Definition set_dataset_info (v : list DatasetInfo.t) (db : DB) : DB :=
  mkDB (broker_details_rows db) (topic_details_rows db) v (dataset_topic_details_rows db).
Definition set_dataset_topic_details (v : list DatasetTopicDetails.t) (db : DB) : DB :=
  mkDB (broker_details_rows db) (topic_details_rows db) (dataset_info_rows db) v.

(** The identity the store gives a new row: one more than the largest
    identity in the table. *)
Definition next_id (ids : list Z) : Z := 1 + fold_right Z.max 0 ids.

(** *** INSERT, with the constraints of the models

    [unique_broker_per_dataset] on [broker_name];
    [unique_topic_per_broker] on [(topic_name, broker_id)] and the foreign
    key [topic_details.broker_id];
    the two CHECK constraints of [dataset_info];
    the foreign keys of [dataset_topic_details]. *)

Definition insert_broker (mk : Z -> BrokerDetails.t) (db : DB)
  : exn + (BrokerDetails.t * DB) :=
  let row := mk (next_id (map BrokerDetails.id (broker_details_rows db))) in
  if existsb (fun b => BrokerDetails.broker_name b =? BrokerDetails.broker_name row)%string
       (broker_details_rows db)
  then inl (DBIntegrityError "unique_broker_per_dataset")
  else inr (row, set_broker_details (broker_details_rows db ++ [row]) db).

Definition insert_topic (mk : Z -> TopicDetails.t) (db : DB)
  : exn + (TopicDetails.t * DB) :=
  let row := mk (next_id (map TopicDetails.id (topic_details_rows db))) in
  if existsb (fun t => (TopicDetails.topic_name t =? TopicDetails.topic_name row)%string
                       && (TopicDetails.broker_id t =? TopicDetails.broker_id row))
       (topic_details_rows db)
  then inl (DBIntegrityError "unique_topic_per_broker")
  else if negb (existsb (fun b => BrokerDetails.id b =? TopicDetails.broker_id row)
                  (broker_details_rows db))
  then inl (DBIntegrityError "topic_details_broker_id_fkey")
  else inr (row, set_topic_details (topic_details_rows db ++ [row]) db).

Definition in_0_1_2 (z : Z) : bool := (z =? 0) || (z =? 1) || (z =? 2).

Definition insert_dataset (mk : Z -> DatasetInfo.t) (db : DB)
  : exn + (DatasetInfo.t * DB) :=
  let row := mk (next_id (map DatasetInfo.id (dataset_info_rows db))) in
  if negb (in_0_1_2 (DatasetInfo.train_and_inference_type row))
  then inl (DBIntegrityError "dataset_info_train_and_inference_type_check")
  else if negb (in_0_1_2 (DatasetInfo.data_source_type row))
  then inl (DBIntegrityError "dataset_info_data_source_type_check")
  else inr (row, set_dataset_info (dataset_info_rows db ++ [row]) db).

Definition insert_link (mk : Z -> DatasetTopicDetails.t) (db : DB)
  : exn + (DatasetTopicDetails.t * DB) :=
  let row := mk (next_id (map DatasetTopicDetails.id (dataset_topic_details_rows db))) in
  if negb (existsb (fun t => TopicDetails.id t =? DatasetTopicDetails.topic_id row)
             (topic_details_rows db))
  then inl (DBIntegrityError "dataset_topic_details_topic_id_fkey")
  else if negb (existsb (fun d => DatasetInfo.id d =? DatasetTopicDetails.dataset_id row)
                  (dataset_info_rows db))
  then inl (DBIntegrityError "dataset_topic_details_dataset_id_fkey")
  else inr (row, set_dataset_topic_details (dataset_topic_details_rows db ++ [row]) db).

(** *** UPDATE of a row, by primary key *)

Definition update_broker_row (row : BrokerDetails.t) (db : DB) : exn + DB :=
  if existsb (fun b => negb (BrokerDetails.id b =? BrokerDetails.id row)
                       && (BrokerDetails.broker_name b =? BrokerDetails.broker_name row)%string)
       (broker_details_rows db)
  then inl (DBIntegrityError "unique_broker_per_dataset")
  else inr (set_broker_details
              (map (fun b => if BrokerDetails.id b =? BrokerDetails.id row then row else b)
                 (broker_details_rows db)) db).

Definition update_topic_row (row : TopicDetails.t) (db : DB) : exn + DB :=
  if existsb (fun t => negb (TopicDetails.id t =? TopicDetails.id row)
                       && (TopicDetails.topic_name t =? TopicDetails.topic_name row)%string
                       && (TopicDetails.broker_id t =? TopicDetails.broker_id row))
       (topic_details_rows db)
  then inl (DBIntegrityError "unique_topic_per_broker")
  else inr (set_topic_details
              (map (fun t => if TopicDetails.id t =? TopicDetails.id row then row else t)
                 (topic_details_rows db)) db).

(** *** DELETE through the ORM, following the [cascade="all, delete"]
    relationships of the models:
    [BrokerDetails.broker_topic], [TopicDetails.dataset_topic_info] and
    [DatasetInfo.dataset_topic_mapping]. *)

Definition delete_link (link_id : Z) (db : DB) : DB :=
  set_dataset_topic_details
    (filter (fun l => negb (DatasetTopicDetails.id l =? link_id))
       (dataset_topic_details_rows db)) db.

Definition delete_topic (topic_id : Z) (db : DB) : DB :=
  set_topic_details
    (filter (fun t => negb (TopicDetails.id t =? topic_id)) (topic_details_rows db))
    (set_dataset_topic_details
       (filter (fun l => negb (DatasetTopicDetails.topic_id l =? topic_id))
          (dataset_topic_details_rows db)) db).

Definition delete_broker (broker_id : Z) (db : DB) : DB :=
  let owned := filter (fun t => TopicDetails.broker_id t =? broker_id) (topic_details_rows db) in
  set_broker_details
    (filter (fun b => negb (BrokerDetails.id b =? broker_id)) (broker_details_rows db))
    (fold_left (fun acc t => delete_topic (TopicDetails.id t) acc) owned db).

Definition delete_dataset (dataset_id : Z) (db : DB) : DB :=
  set_dataset_info
    (filter (fun d => negb (DatasetInfo.id d =? dataset_id)) (dataset_info_rows db))
    (set_dataset_topic_details
       (filter (fun l => negb (DatasetTopicDetails.dataset_id l =? dataset_id))
          (dataset_topic_details_rows db)) db).

(** ** The SQLAlchemy session of one request

    [SessionLocal = sessionmaker(autocommit=False, autoflush=False)]: the
    session opens a transaction on first use, sends pending work at
    [flush()] or [commit()], and never flushes on its own before a query. *)

(** An object built by a model constructor and not yet inserted: the row
    it will be, once the store has given it its identity. *)
Inductive Pending : Type :=
| NewBroker (mk : Z -> BrokerDetails.t)
| NewTopic (mk : Z -> TopicDetails.t)
| NewDataset (mk : Z -> DatasetInfo.t)
| NewLink (mk : Z -> DatasetTopicDetails.t).

Inductive Row : Type :=
| RBroker (b : BrokerDetails.t)
| RTopic (t : TopicDetails.t)
| RDataset (d : DatasetInfo.t)
| RLink (l : DatasetTopicDetails.t).

Inductive Obj : Type :=
| Transient (p : Pending)
| Persistent (r : Row).

Record Session : Type := mkSession {
  txn : DB;             (* the store as seen from inside the open transaction *)
  objs : list Obj;      (* objects passed to add(); a handle is a position *)
  dirty : list Row;     (* loaded objects changed through setattr *)
  deleted : list Row;   (* objects passed to delete() *)
  active : bool         (* false between a failed flush and rollback() *)
}.

(** The Kafka side of the world: whether the bootstrap server answers,
    whether fetch requests are answered within the poll timeout (the
    client retries a fetch that fails and reports nothing), the consumer's
    configured [max_poll_records] (the constructor is called without it,
    so this is the client library's default), and for a topic and an
    [auto_offset_reset] policy the batches of raw payloads that the
    broker sends within the poll timeout, one batch per partition. *)
Record KafkaEnv : Type := mkKafkaEnv {
  bootstrap_ok : bool;
  fetch_ok : bool;
  max_poll_records : Z;
  arrivals : string -> string -> list (Z * list string)
}.

Inductive KafkaEvent : Type :=
| Opened (topic : string) (ip : IPvAnyAddress) (port : Z) (auto_offset_reset : string)
| Polled (timeout_ms : Z) (max_records : option Z)
| Closed.

Record World : Type := mkWorld {
  committed : DB;               (* what every other connection can read *)
  session : Session;
  faults : list bool;           (* per SQL round trip: does it fail? *)
  clock : Z;                    (* datetime.utcnow() *)
  kafka : KafkaEnv;
  kafka_log : list KafkaEvent   (* consumer sessions opened, polled, closed *)
}.

Definition set_session (s : Session) (w : World) : World :=
  mkWorld (committed w) s (faults w) (clock w) (kafka w) (kafka_log w).
Definition set_committed (db : DB) (w : World) : World :=
  mkWorld db (session w) (faults w) (clock w) (kafka w) (kafka_log w).
Definition set_faults (fs : list bool) (w : World) : World :=
  mkWorld (committed w) (session w) fs (clock w) (kafka w) (kafka_log w).
Definition log_event (ev : KafkaEvent) (w : World) : World :=
  mkWorld (committed w) (session w) (faults w) (clock w) (kafka w) (kafka_log w ++ [ev]).

(** [get_db]: a new session per request, on the committed store. *)
Definition SessionLocal (db : DB) : Session := mkSession db [] [] [] true.

Definition request (db : DB) (fs : list bool) (now : Z) (k : KafkaEnv) : World :=
  mkWorld db (SessionLocal db) fs now k [].

(** ** The monad of service code: state and exceptions *)

Inductive Result (A : Type) : Type :=
| Ok (a : A)
| Raise (e : exn).
Arguments Ok {A} a.
Arguments Raise {A} e.

Definition M (A : Type) : Type := World -> Result A * World.

Definition ret {A} (a : A) : M A := fun w => (Ok a, w).

Definition bind {A B} (m : M A) (k : A -> M B) : M B :=
  fun w => match m w with
           | (Ok a, w') => k a w'
           | (Raise e, w') => (Raise e, w')
           end.

Definition raise {A} (e : exn) : M A := fun w => (Raise e, w).

(** [try: m  except Exception as exp: handler exp]; an exception raised
    by the handler itself is not caught again. *)
Definition try_except {A} (m : M A) (handler : exn -> M A) : M A :=
  fun w => match m w with
           | (Ok a, w') => (Ok a, w')
           | (Raise e, w') => handler e w'
           end.

(** [try: m  finally: fin]. *)
Definition try_finally {A} (m : M A) (fin : M unit) : M A :=
  fun w => match m w with
           | (r, w') => match fin w' with
                        | (Ok _, w'') => (r, w'')
                        | (Raise e, w'') => (Raise e, w'')
                        end
           end.

Declare Scope monad_scope.
Delimit Scope monad_scope with monad.
Notation "x <- m ;; k" := (bind m (fun x => k))
  (at level 61, m at next level, right associativity) : monad_scope.
Notation "m ;; k" := (bind m (fun _ => k))
  (at level 61, right associativity) : monad_scope.
Open Scope monad_scope.

Definition gets {A} (f : World -> A) : M A := fun w => (Ok (f w), w).
Definition modify (f : World -> World) : M unit := fun w => (Ok tt, f w).

Definition utcnow : M Z := gets clock.

(** *** Session primitives *)

(** One round trip to the store. *)
Definition sql_roundtrip : M unit :=
  fun w =>
    if negb (active (session w)) then (Raise PendingRollbackError, w)
    else match faults w with
         | true :: fs => (Raise OperationalError, set_faults fs w)
         | false :: fs => (Ok tt, set_faults fs w)
         | [] => (Ok tt, w)
         end.

(** The transaction is lost: the store discards its work. *)
Definition abort_txn (w : World) : World :=
  let s := session w in
  set_session (mkSession (committed w) (objs s) (dirty s) (deleted s) false) w.

Definition select {R} (table : DB -> list R) (criterion : R -> bool) : M (list R) :=
  sql_roundtrip ;;
  gets (fun w => filter criterion (table (txn (session w)))).

(** [Query.all()] *)
Definition all {R} (q : M (list R)) : M (list R) := q.

(** [Query.one()] and [Query.one_or_none()]. *)
Definition one {R} (q : M (list R)) : M R :=
  rows <- q ;;
  match rows with
  | [] => raise NoRowFound
  | [r] => ret r
  | _ => raise MultipleResultsFound
  end.

Definition one_or_none {R} (q : M (list R)) : M (option R) :=
  rows <- q ;;
  match rows with
  | [] => ret None
  | [r] => ret (Some r)
  | _ => raise MultipleResultsFound
  end.

(** [session.add(obj)]; the handle names the object afterwards. *)
Definition db_add (p : Pending) : M nat :=
  fun w =>
    let s := session w in
    (Ok (List.length (objs s)),
     set_session (mkSession (txn s) (objs s ++ [Transient p]) (dirty s) (deleted s) (active s)) w).

(** A column of a loaded object was assigned. *)
Definition db_modified (r : Row) : M unit :=
  modify (fun w =>
    let s := session w in
    set_session (mkSession (txn s) (objs s) (dirty s ++ [r]) (deleted s) (active s)) w).

(** [session.delete(obj)]. *)
Definition db_delete (r : Row) : M unit :=
  modify (fun w =>
    let s := session w in
    set_session (mkSession (txn s) (objs s) (dirty s) (deleted s ++ [r]) (active s)) w).

Definition insert_pending (p : Pending) (db : DB) : exn + (Row * DB) :=
  match p with
  | NewBroker mk =>
      match insert_broker mk db with inl e => inl e | inr (b, db') => inr (RBroker b, db') end
  | NewTopic mk =>
      match insert_topic mk db with inl e => inl e | inr (t, db') => inr (RTopic t, db') end
  | NewDataset mk =>
      match insert_dataset mk db with inl e => inl e | inr (d, db') => inr (RDataset d, db') end
  | NewLink mk =>
      match insert_link mk db with inl e => inl e | inr (l, db') => inr (RLink l, db') end
  end.

Fixpoint flush_new (os : list Obj) (db : DB) : exn + (list Obj * DB) :=
  match os with
  | [] => inr ([], db)
  | Persistent r :: rest =>
      match flush_new rest db with
      | inl e => inl e
      | inr (rest', db') => inr (Persistent r :: rest', db')
      end
  | Transient p :: rest =>
      match insert_pending p db with
      | inl e => inl e
      | inr (r, db1) =>
          match flush_new rest db1 with
          | inl e => inl e
          | inr (rest', db') => inr (Persistent r :: rest', db')
          end
      end
  end.

Definition update_row (r : Row) (db : DB) : exn + DB :=
  match r with
  | RBroker b => update_broker_row b db
  | RTopic t => update_topic_row t db
  | RDataset _ | RLink _ => inr db   (* no modelled operation changes these rows *)
  end.

Fixpoint flush_dirty (rs : list Row) (db : DB) : exn + DB :=
  match rs with
  | [] => inr db
  | r :: rest =>
      match update_row r db with
      | inl e => inl e
      | inr db' => flush_dirty rest db'
      end
  end.

Definition delete_row (r : Row) (db : DB) : DB :=
  match r with
  | RBroker b => delete_broker (BrokerDetails.id b) db
  | RTopic t => delete_topic (TopicDetails.id t) db
  | RDataset d => delete_dataset (DatasetInfo.id d) db
  | RLink l => delete_link (DatasetTopicDetails.id l) db
  end.

Definition flush_deleted (rs : list Row) (db : DB) : DB :=
  fold_left (fun acc r => delete_row r acc) rs db.

Definition is_transient (o : Obj) : bool :=
  match o with Transient _ => true | Persistent _ => false end.

Definition nothing_to_flush (s : Session) : bool :=
  negb (existsb is_transient (objs s))
  && match dirty s with [] => true | _ => false end
  && match deleted s with [] => true | _ => false end.

(** [session.flush()]: inserts, then updates, then deletes, in one round
    trip; on any error the transaction is rolled back by the store and
    the session stays unusable until [rollback()]. *)
Definition db_flush : M unit :=
  fun w =>
    let s := session w in
    if nothing_to_flush s then (Ok tt, w)
    else match sql_roundtrip w with
         | (Raise e, w1) => (Raise e, abort_txn w1)
         | (Ok _, w1) =>
             match flush_new (objs s) (txn s) with
             | inl e => (Raise e, abort_txn w1)
             | inr (os, db1) =>
                 match flush_dirty (dirty s) db1 with
                 | inl e => (Raise e, abort_txn w1)
                 | inr db2 =>
                     (Ok tt,
                      set_session
                        (mkSession (flush_deleted (deleted s) db2) os [] [] true) w1)
                 end
             end
         end.

(** [session.commit()]: flush, then COMMIT. *)
Definition db_commit : M unit :=
  db_flush ;;
  fun w =>
    match sql_roundtrip w with
    | (Raise e, w1) => (Raise e, abort_txn w1)
    | (Ok _, w1) => (Ok tt, set_committed (txn (session w1)) w1)
    end.

(** [session.rollback()]: back to the committed store, pending work and
    the objects of the abandoned transaction dropped. *)
Definition db_rollback : M unit :=
  modify (fun w => set_session (SessionLocal (committed w)) w).

(** The object behind a handle, once flushed. *)
Definition db_obj (h : nat) : M Row :=
  fun w =>
    match nth_error (objs (session w)) h with
    | Some (Persistent r) => (Ok r, w)
    | _ => (Raise (AssertionError "object is not persistent"), w)
    end.

(** Reload of an object whose attributes have expired ([commit()] expires
    every object of the session; [session.refresh(obj)] does it on
    request): SELECT by primary key. *)
Definition reload {R} (table : DB -> list R) (pk : R -> Z) (r : R) : M R :=
  sql_roundtrip ;;
  rows <- gets (fun w => filter (fun x => pk x =? pk r) (table (txn (session w)))) ;;
  match rows with
  | x :: _ => ret x
  | [] => raise ObjectDeletedError
  end.

(** ** pydantic schemas (app/schemas) *)

(** A Python value as it sits in the [dict()] of an update schema. *)
Inductive pyval : Type :=
| VStr (s : string)
| VInt (z : Z)
| VAddr (a : IPvAnyAddress)
| VJson (j : JSONDoc).

Module BrokerBase.
Record t : Type := mk {
  name : string;
  ip : IPvAnyAddress;
  port : Z                      (* Field(gt=0) *)
}.
End BrokerBase.

Module BrokerUpdate.
Record t : Type := mk {
  broker_name : option string;          (* alias "name" *)
  broker_ip : option IPvAnyAddress;     (* alias "ip" *)
  broker_port : option Z                (* alias "port", gt=0 *)
}.
(** [update_data.dict(by_alias=False)] *)
Definition dict (u : t) : list (string * option pyval) :=
  [ ("broker_name", option_map VStr (broker_name u));
    ("broker_ip", option_map VAddr (broker_ip u));
    ("broker_port", option_map VInt (broker_port u)) ].
End BrokerUpdate.

Module BrokerResponse.
Record t : Type := mk {
  id : Z;
  broker_name : string;
  broker_ip : IPvAnyAddress;
  broker_port : Z;
  creation_date : Z
}.
Definition from_orm (b : BrokerDetails.t) : t :=
  mk (BrokerDetails.id b) (BrokerDetails.broker_name b) (BrokerDetails.broker_ip b)
     (BrokerDetails.broker_port b) (BrokerDetails.creation_date b).
End BrokerResponse.

Module TopicBase.
Record t : Type := mk {
  name : string;
  schema_definition : JSONDoc           (* alias "schema" *)
}.
End TopicBase.

Module TopicUpdate.
Record t : Type := mk {
  topic_name : option string;           (* alias "name" *)
  topic_schema : option JSONDoc         (* alias "schema" *)
}.
Definition dict (u : t) : list (string * option pyval) :=
  [ ("topic_name", option_map VStr (topic_name u));
    ("topic_schema", option_map VJson (topic_schema u)) ].
End TopicUpdate.

Module TopicResponse.
Record t : Type := mk {
  id : Z;
  topic_name : string;
  topic_schema : JSONDoc;
  broker_id : Z;
  creation_date : Z
}.
Definition from_orm (x : TopicDetails.t) : t :=
  mk (TopicDetails.id x) (TopicDetails.topic_name x) (TopicDetails.topic_schema x)
     (TopicDetails.broker_id x) (TopicDetails.creation_date x).
End TopicResponse.

(** [class DatasetTypeEnum(IntEnum)] *)
Inductive DatasetTypeEnum : Type := TRAIN | INFERENCE | BOTH.

Definition DatasetTypeEnum_value (e : DatasetTypeEnum) : Z :=
  match e with TRAIN => 0 | INFERENCE => 1 | BOTH => 2 end.

Module DatasetBrokerTopicBase.
Record t : Type := mk {
  dataset_type : DatasetTypeEnum;
  name : string;
  description : string;
  broker_id : Z;                        (* Field(gt=0) *)
  topic_id : Z                          (* Field(gt=0) *)
}.
End DatasetBrokerTopicBase.

Module DatasetInfoDetails.
Record t : Type := mk {
  id : option Z;
  dataset_name : string;
  description : option string;
  train_and_inference_type : Z;         (* alias "dataset_type" *)
  data_source_type : Z
}.
End DatasetInfoDetails.

Module DatasetBrokerTopicResponse.
Record t : Type := mk {
  dataset : DatasetInfoDetails.t;
  broker_details : BrokerResponse.t;
  topic_details : TopicResponse.t
}.
End DatasetBrokerTopicResponse.

Module BrokerTopicDetails.
Record t : Type := mk {
  topic_name : string;
  broker_ip : IPvAnyAddress;
  broker_port : Z
}.
End BrokerTopicDetails.

(** ** Attribute assignment on ORM objects

    [setattr(record, key, value)] on a mapped class: a column of that
    name takes the value ([BrokerDetails.validate_broker_ip] keeps an
    address as it is); any other name is a plain Python attribute and
    reaches no column. *)

Definition BrokerDetails_setattr (record : BrokerDetails.t) (key : string) (value : pyval)
  : BrokerDetails.t :=
  match value with
  | VStr s =>
      if (key =? "broker_name")%string
      then BrokerDetails.mk (BrokerDetails.id record) s (BrokerDetails.broker_ip record)
             (BrokerDetails.broker_port record) (BrokerDetails.creation_date record)
      else record
  | VAddr a =>
      if (key =? "broker_ip")%string
      then BrokerDetails.mk (BrokerDetails.id record) (BrokerDetails.broker_name record) a
             (BrokerDetails.broker_port record) (BrokerDetails.creation_date record)
      else record
  | VInt z =>
      if (key =? "broker_port")%string
      then BrokerDetails.mk (BrokerDetails.id record) (BrokerDetails.broker_name record)
             (BrokerDetails.broker_ip record) z (BrokerDetails.creation_date record)
      else record
  | VJson _ => record
  end.

Definition TopicDetails_setattr (record : TopicDetails.t) (key : string) (value : pyval)
  : TopicDetails.t :=
  match value with
  | VStr s =>
      if (key =? "topic_name")%string
      then TopicDetails.mk (TopicDetails.id record) s (TopicDetails.topic_schema record)
             (TopicDetails.broker_id record) (TopicDetails.creation_date record)
      else record
  | VJson j =>
      if (key =? "topic_schema")%string
      then TopicDetails.mk (TopicDetails.id record) (TopicDetails.topic_name record) j
             (TopicDetails.broker_id record) (TopicDetails.creation_date record)
      else record
  | VInt _ | VAddr _ => record
  end.

(** What [_update_record] needs of a mapped class. *)
Class Entity (R : Type) : Type := {
  __name__ : string;
  table : DB -> list R;
  pk : R -> Z;
  setattr : R -> string -> pyval -> R;
  as_row : R -> Row
}.

#[export] Instance BrokerDetails_entity : Entity BrokerDetails.t := {
  __name__ := "BrokerDetails";
  table := broker_details_rows;
  pk := BrokerDetails.id;
  setattr := BrokerDetails_setattr;
  as_row := RBroker
}.

#[export] Instance TopicDetails_entity : Entity TopicDetails.t := {
  __name__ := "TopicDetails";
  table := topic_details_rows;
  pk := TopicDetails.id;
  setattr := TopicDetails_setattr;
  as_row := RTopic
}.

Definition same_object (a b : Row) : bool :=
  match a, b with
  | RBroker x, RBroker y => BrokerDetails.id x =? BrokerDetails.id y
  | RTopic x, RTopic y => TopicDetails.id x =? TopicDetails.id y
  | RDataset x, RDataset y => DatasetInfo.id x =? DatasetInfo.id y
  | RLink x, RLink y => DatasetTopicDetails.id x =? DatasetTopicDetails.id y
  | _, _ => false
  end.

(** [setattr] on an object of the session: the object changes and the
    session remembers it as modified. *)
Definition db_setattr {R} `{Entity R} (record : R) (key : string) (value : pyval) : M R :=
  let record' := setattr record key value in
  modify (fun w =>
    let s := session w in
    set_session
      (mkSession (txn s) (objs s)
         (filter (fun r => negb (same_object r (as_row record'))) (dirty s) ++ [as_row record'])
         (deleted s) (active s)) w) ;;
  ret record'.

(** Handles of freshly added objects, read back with their class. *)
Definition broker_obj (h : nat) : M BrokerDetails.t :=
  r <- db_obj h ;;
  match r with RBroker b => ret b | _ => raise (AssertionError "not a BrokerDetails") end.
Definition topic_obj (h : nat) : M TopicDetails.t :=
  r <- db_obj h ;;
  match r with RTopic t => ret t | _ => raise (AssertionError "not a TopicDetails") end.
Definition dataset_obj (h : nat) : M DatasetInfo.t :=
  r <- db_obj h ;;
  match r with RDataset d => ret d | _ => raise (AssertionError "not a DatasetInfo") end.

(** ** app/services/dataset_service.py: [class DatasetService] *)

Module DatasetService.

(** [register_broker(self, data: BrokerBase) -> BrokerResponse] *)
Definition register_broker (data : BrokerBase.t) : M BrokerResponse.t :=
  try_except
    (now <- utcnow ;;
     broker_details <- db_add (NewBroker (fun id =>
       BrokerDetails.mk id (BrokerBase.name data) (BrokerBase.ip data)
         (BrokerBase.port data) now)) ;;
     db_commit ;;
     (* from_orm reads the attributes expired by the commit *)
     row <- broker_obj broker_details ;;
     row <- reload broker_details_rows BrokerDetails.id row ;;
     let broker_info := BrokerResponse.from_orm row in
     ret broker_info)
    (fun exp =>
       if is_DBIntegrityError exp then
         db_rollback ;;
         existing_broker <-
           one (select broker_details_rows
                  (fun b => (BrokerDetails.broker_name b =? BrokerBase.name data)%string)) ;;
         let broker_id := BrokerDetails.id existing_broker in
         raise (IntegrityError ("Broker id " ++ str broker_id ++ " already exists.")%string exp)
       else if is_SQLAlchemyError exp then
         db_rollback ;; raise exp
       else
         db_rollback ;; raise exp).

(** [register_topic(self, broker_id: int, data: TopicBase) -> TopicResponse] *)
Definition register_topic (broker_id : Z) (data : TopicBase.t) : M TopicResponse.t :=
  try_except
    (broker_info <-
       one_or_none (select broker_details_rows
                      (fun b => BrokerDetails.id b =? broker_id)) ;;
     match broker_info with
     | None =>
         raise (NoResultFound ("Broker with name " ++ str broker_id ++ " not found.")%string)
     | Some _ =>
         now <- utcnow ;;
         topic_details <- db_add (NewTopic (fun id =>
           TopicDetails.mk id (TopicBase.name data) (TopicBase.schema_definition data)
             broker_id now)) ;;
         db_commit ;;
         row <- topic_obj topic_details ;;
         row <- reload topic_details_rows TopicDetails.id row ;;
         let topic_info := TopicResponse.from_orm row in
         ret topic_info
     end)
    (fun exp =>
       if is_DBIntegrityError exp then
         db_rollback ;;
         existing_topic <-
           one (select topic_details_rows
                  (fun t => (TopicDetails.topic_name t =? TopicBase.name data)%string)) ;;
         let topic_id := TopicDetails.id existing_topic in
         raise (IntegrityError ("Topic id " ++ str topic_id ++ " already exists.")%string exp)
       else if is_NoRowFound exp then
         raise (NoResultFound ("Broker Id " ++ str broker_id ++ " not found.")%string)
       else if is_SQLAlchemyError exp then
         db_rollback ;; raise exp
       else
         db_rollback ;; raise exp).

(** [dataset_message_response(self, dataset_detail, broker_detail, topic_detail)].
    It reads only attributes, so it serves ORM rows and schema objects
    alike; the callers below hand it the attribute values. *)
Definition dataset_message_response
    (dataset_detail : DatasetInfoDetails.t) (broker_detail : BrokerResponse.t)
    (topic_detail : TopicResponse.t) : DatasetBrokerTopicResponse.t :=
  DatasetBrokerTopicResponse.mk
    (DatasetInfoDetails.mk
       (DatasetInfoDetails.id dataset_detail)
       (DatasetInfoDetails.dataset_name dataset_detail)
       (DatasetInfoDetails.description dataset_detail)
       (DatasetInfoDetails.train_and_inference_type dataset_detail)
       (DatasetInfoDetails.data_source_type dataset_detail))
    (BrokerResponse.mk
       (BrokerResponse.id broker_detail)
       (BrokerResponse.broker_name broker_detail)
       (BrokerResponse.broker_ip broker_detail)
       (BrokerResponse.broker_port broker_detail)
       (BrokerResponse.creation_date broker_detail))
    (TopicResponse.mk
       (TopicResponse.id topic_detail)
       (TopicResponse.topic_name topic_detail)
       (TopicResponse.topic_schema topic_detail)
       (TopicResponse.broker_id topic_detail)
       (TopicResponse.creation_date topic_detail)).

(** The attributes of a [DatasetInfo] row that the response reads. *)
Definition dataset_attrs (d : DatasetInfo.t) : DatasetInfoDetails.t :=
  DatasetInfoDetails.mk
    (Some (DatasetInfo.id d))
    (DatasetInfo.dataset_name d)
    (Some (DatasetInfo.description d))
    (DatasetInfo.train_and_inference_type d)
    (DatasetInfo.data_source_type d).

(** [register_dataset_message_details(self, data: DatasetBrokerTopicBase)] *)
Definition register_dataset_message_details (data : DatasetBrokerTopicBase.t)
  : M DatasetBrokerTopicResponse.t :=
  try_except
    (broker_info <-
       one_or_none (select broker_details_rows
                      (fun b => BrokerDetails.id b =? DatasetBrokerTopicBase.broker_id data)) ;;
     match broker_info with
     | None =>
         raise (NoResultFound ("Broker with name "
                  ++ str (DatasetBrokerTopicBase.broker_id data) ++ " not found.")%string)
     | Some broker_info =>
     topic_info <-
       one_or_none (select topic_details_rows
                      (fun t => TopicDetails.id t =? DatasetBrokerTopicBase.topic_id data)) ;;
     match topic_info with
     | None =>
         raise (NoResultFound ("Topic with name "
                  ++ str (DatasetBrokerTopicBase.topic_id data) ++ " not found.")%string)
     | Some topic_info =>
     now <- utcnow ;;
     dataset_info <- db_add (NewDataset (fun id =>
       DatasetInfo.mk id
         (DatasetTypeEnum_value (DatasetBrokerTopicBase.dataset_type data))
         const.BROKER_DATA_SOURCE_TYPE
         (DatasetBrokerTopicBase.name data)
         (DatasetBrokerTopicBase.description data)
         const.USER_ID now now const.USER_ID)) ;;
     db_flush ;;
     flushed <- dataset_obj dataset_info ;;
     now <- utcnow ;;
     _ <- db_add (NewLink (fun id =>
       DatasetTopicDetails.mk id (DatasetBrokerTopicBase.topic_id data)
         (DatasetInfo.id flushed) now)) ;;
     db_commit ;;
     (* the commit expired every object of the session; each is
        reloaded when its attributes are read *)
     dataset_row <- reload dataset_info_rows DatasetInfo.id flushed ;;
     let dataset_detail := dataset_attrs dataset_row in
     broker_row <- reload broker_details_rows BrokerDetails.id broker_info ;;
     let broker_detail := BrokerResponse.from_orm broker_row in
     topic_row <- reload topic_details_rows TopicDetails.id topic_info ;;
     let topic_detail := TopicResponse.from_orm topic_row in
     let response := dataset_message_response dataset_detail broker_detail topic_detail in
     ret response
     end end)
    (fun exp =>
       if is_DBIntegrityError exp then
         db_rollback ;;
         raise (IntegrityError "Broker already Exists." exp)
       else if is_SQLAlchemyError exp then
         db_rollback ;; raise exp
       else
         db_rollback ;; raise exp).

(** The join of [fetch_dataset_message_details]:
    [query(DatasetInfo, BrokerDetails, TopicDetails)
       .join(DatasetTopicDetails, DatasetInfo.id == DatasetTopicDetails.dataset_id)
       .join(TopicDetails, DatasetTopicDetails.topic_id == TopicDetails.id)
       .join(BrokerDetails, TopicDetails.broker_id == BrokerDetails.id)
       .filter(DatasetInfo.id == dataset_id)]. *)
Definition join_dataset_broker_topic (dataset_id : Z) (db : DB)
  : list (DatasetInfo.t * BrokerDetails.t * TopicDetails.t) :=
  flat_map (fun d =>
    flat_map (fun l =>
      flat_map (fun t =>
        flat_map (fun b => [(d, b, t)])
          (filter (fun b => TopicDetails.broker_id t =? BrokerDetails.id b)
             (broker_details_rows db)))
        (filter (fun t => DatasetTopicDetails.topic_id l =? TopicDetails.id t)
           (topic_details_rows db)))
      (filter (fun l => DatasetInfo.id d =? DatasetTopicDetails.dataset_id l)
         (dataset_topic_details_rows db)))
    (filter (fun d => DatasetInfo.id d =? dataset_id) (dataset_info_rows db)).

(** A [Query] over mapped entities hands out each combination of
    objects once: rows that name the same objects (the same primary
    keys, entity by entity) as an earlier row are dropped before
    [one()] counts them. *)
Definition same_entities (x y : DatasetInfo.t * BrokerDetails.t * TopicDetails.t) : bool :=
  let '(d, b, t) := x in
  let '(d', b', t') := y in
  (DatasetInfo.id d =? DatasetInfo.id d')
  && (BrokerDetails.id b =? BrokerDetails.id b')
  && (TopicDetails.id t =? TopicDetails.id t').

Fixpoint unique_entities (rows : list (DatasetInfo.t * BrokerDetails.t * TopicDetails.t))
  : list (DatasetInfo.t * BrokerDetails.t * TopicDetails.t) :=
  match rows with
  | [] => []
  | row :: rest =>
      row :: filter (fun other => negb (same_entities row other)) (unique_entities rest)
  end.

(** [fetch_dataset_message_details(self, dataset_id: int)] *)
Definition fetch_dataset_message_details (dataset_id : Z)
  : M DatasetBrokerTopicResponse.t :=
  try_except
    (response <-
       one (sql_roundtrip ;;
            gets (fun w => unique_entities
                             (join_dataset_broker_topic dataset_id (txn (session w))))) ;;
     let '(r0, r1, r2) := response in
     let response_data :=
       dataset_message_response (dataset_attrs r0) (BrokerResponse.from_orm r1)
         (TopicResponse.from_orm r2) in
     ret response_data)
    (fun exp =>
       if is_NoRowFound exp then
         raise (NoResultFound ("Dataset not found for the id " ++ str dataset_id)%string)
       else if is_DBIntegrityError exp then
         db_rollback ;;
         raise (IntegrityError "Broker already Exists." exp)
       else
         db_rollback ;; raise exp).

(** The loop of [_update_record]:
    [for key, value in update_data.dict(by_alias=False).items():
         if value is not None: setattr(record, key, value)]. *)
Fixpoint setattr_items {R} `{Entity R} (items : list (string * option pyval)) (record : R)
  : M R :=
  match items with
  | [] => ret record
  | (key, Some value) :: rest =>
      record' <- db_setattr record key value ;;
      setattr_items rest record'
  | (_, None) :: rest => setattr_items rest record
  end.

(** [_update_record(self, entity_obj, record_id, update_data, response_model)] *)
Definition _update_record {R U Resp} `{Entity R}
    (dict : U -> list (string * option pyval)) (from_orm : R -> Resp)
    (record_id : Z) (update_data : U) : M Resp :=
  try_except
    (record <- one (select table (fun r => pk r =? record_id)) ;;
     record <- setattr_items (dict update_data) record ;;
     db_commit ;;
     record <- reload table pk record ;;
     ret (from_orm record))
    (fun exp =>
       if is_DBIntegrityError exp then
         raise (IntegrityError
                  ("No " ++ __name__ ++ " found for ID: " ++ str record_id)%string exp)
       else if is_NoRowFound exp then
         raise (NoResultFound
                  ("No " ++ __name__ ++ " found for ID: " ++ str record_id)%string)
       else
         raise exp).

(** [update_broker(self, broker_id, broker_data: BrokerUpdate)] *)
Definition update_broker (broker_id : Z) (broker_data : BrokerUpdate.t)
  : M BrokerResponse.t :=
  _update_record BrokerUpdate.dict BrokerResponse.from_orm broker_id broker_data.

(** [update_topic(self, topic_id, topic_data: TopicUpdate)] *)
Definition update_topic (topic_id : Z) (topic_data : TopicUpdate.t)
  : M TopicResponse.t :=
  _update_record TopicUpdate.dict TopicResponse.from_orm topic_id topic_data.

(** [broker_deregister(self, broker_id: int)] *)
Definition broker_deregister (broker_id : Z) : M unit :=
  try_except
    (broker_details <-
       one (select broker_details_rows (fun b => BrokerDetails.id b =? broker_id)) ;;
     db_delete (RBroker broker_details) ;;
     db_commit)
    (fun exp =>
       if is_NoRowFound exp then
         raise (NoResultFound ("Broker not found for the id " ++ str broker_id)%string)
       else
         raise exp).

(** [topic_deregister(self, topic_id: int)] *)
Definition topic_deregister (topic_id : Z) : M unit :=
  try_except
    (topic_details <-
       one (select topic_details_rows (fun t => TopicDetails.id t =? topic_id)) ;;
     db_delete (RTopic topic_details) ;;
     db_commit)
    (fun exp =>
       if is_NoRowFound exp then
         raise (NoResultFound ("Topic not found for the id " ++ str topic_id)%string)
       else
         raise exp).

(** [dataset_message_deregister(self, dataset_id: int)] *)
Definition dataset_message_deregister (dataset_id : Z) : M unit :=
  try_except
    (dataset_details <-
       one (select dataset_info_rows
              (fun d => (DatasetInfo.id d =? dataset_id)
                        && (DatasetInfo.data_source_type d =? const.BROKER_DATA_SOURCE_TYPE))) ;;
     topic_details <-
       one_or_none (select dataset_topic_details_rows
                      (fun l => DatasetTopicDetails.dataset_id l
                                =? DatasetInfo.id dataset_details)) ;;
     match topic_details with
     | Some link => db_delete (RLink link)
     | None => ret tt
     end ;;
     db_delete (RDataset dataset_details) ;;
     db_commit)
    (fun exp =>
       if is_NoRowFound exp then
         raise (NoResultFound ("Dataset not found for id " ++ str dataset_id)%string)
       else
         db_rollback ;; raise exp).

(** [_get_topic_and_broker_details(self, dataset_id) -> BrokerTopicDetails] *)
Definition _get_topic_and_broker_details (dataset_id : Z) : M BrokerTopicDetails.t :=
  dataset_topic_detail <-
    one_or_none (select dataset_topic_details_rows
                   (fun l => DatasetTopicDetails.dataset_id l =? dataset_id)) ;;
  match dataset_topic_detail with
  | None =>
      raise (NoResultFound ("No topic association for dataset ID: " ++ str dataset_id)%string)
  | Some dataset_topic_detail =>
  topic_detail <-
    one_or_none (select topic_details_rows
                   (fun t => TopicDetails.id t
                             =? DatasetTopicDetails.topic_id dataset_topic_detail)) ;;
  match topic_detail with
  | None =>
      raise (NoResultFound ("Topic not found for ID: "
               ++ str (DatasetTopicDetails.topic_id dataset_topic_detail))%string)
  | Some topic_detail =>
  broker_detail <-
    one_or_none (select broker_details_rows
                   (fun b => BrokerDetails.id b =? TopicDetails.broker_id topic_detail)) ;;
  match broker_detail with
  | None =>
      raise (NoResultFound ("Broker not found for ID: "
               ++ str (TopicDetails.broker_id topic_detail))%string)
  | Some broker_detail =>
      ret (BrokerTopicDetails.mk
             (TopicDetails.topic_name topic_detail)
             (BrokerDetails.broker_ip broker_detail)
             (BrokerDetails.broker_port broker_detail))
  end end end.

(** [fetch_broker_details(self) -> List[BrokerResponse]] *)
Definition fetch_broker_details : M (list BrokerResponse.t) :=
  try_except
    (result <- all (select broker_details_rows (fun _ => true)) ;;
     match result with
     | [] => raise (NoResultFound "No Broker defined")
     | _ =>
         let broker_info := map BrokerResponse.from_orm result in
         ret broker_info
     end)
    (fun exp => raise exp).

(** [fetch_topic_details(self) -> List[TopicResponse]] *)
Definition fetch_topic_details : M (list TopicResponse.t) :=
  try_except
    (result <- all (select topic_details_rows (fun _ => true)) ;;
     match result with
     | [] => raise (NoResultFound "No topics defined")
     | _ =>
         let topic_info := map TopicResponse.from_orm result in
         ret topic_info
     end)
    (fun exp => raise exp).

End DatasetService.

(** ** Validation of path and query parameters

    FastAPI checks the parameters of a route against their declarations
    before it calls the route function.  When a check fails the function
    is not called and the answer is 422, its detail listing one error for
    each failing parameter, those of the path before those of the query.
    For [gt] the error names where the parameter stands and the bound
    ("ensure this value is greater than <limit_value>"). *)

Inductive ParamError : Type :=
| not_gt (loc : list string) (limit_value : Z).   (* value_error.number.not_gt *)

(** [name: int = Path(..., gt=limit_value)] *)
Definition Path_gt (limit_value : Z) (name : string) (v : Z) : list ParamError :=
  if limit_value <? v then [] else [not_gt ["path"; name] limit_value].

(** [name: Optional[int] = Query(None, gt=limit_value)] *)
Definition Query_gt (limit_value : Z) (name : string) (v : option Z) : list ParamError :=
  match v with
  | None => []
  | Some v => if limit_value <? v then [] else [not_gt ["query"; name] limit_value]
  end.

(** ** The stream reader

    [KafkaConsumer] is the client library's; what the service relies on is
    modelled here: the constructor connects to the bootstrap server,
    [poll] waits up to [timeout_ms] and hands back at most [max_records]
    records (the consumer's [max_poll_records] when [max_records] is
    [None]) as a dictionary from partition to a non-empty list of records,
    and [close] ends the session.  The client runs [value_deserializer]
    over the whole batch of a partition when it starts handing out that
    batch, so a payload that does not decode fails the poll also when it
    lies beyond [max_records]; a fetch that is not answered is retried in
    silence and the poll comes back empty. *)

Section Stream.

(** A decoded message: what [json.loads] returns. *)
Variable Json : Type.

(** [lambda x: json.loads(x.decode("utf-8"))], [None] when it raises. *)
Variable value_deserializer : string -> option Json.

Record ConsumerRecord : Type := mkConsumerRecord {
  partition : Z;
  value : Json
}.

Record KafkaConsumer : Type := mkKafkaConsumer {
  subscription : string;
  auto_offset_reset : string
}.

(** [KafkaConsumer(topic_name, bootstrap_servers=[f"{ip}:{port}"],
                   auto_offset_reset=offset_reset, value_deserializer=...)] *)
Definition KafkaConsumer_init (topic_name : string) (broker_ip : IPvAnyAddress)
    (broker_port : Z) (offset_reset : string) : M KafkaConsumer :=
  fun w =>
    if bootstrap_ok (kafka w)
    then (Ok (mkKafkaConsumer topic_name offset_reset),
          log_event (Opened topic_name broker_ip broker_port offset_reset) w)
    else (Raise NoBrokersAvailable, w).

(** [Fetcher._unpack_message_set] over one batch: every payload of the
    batch is decoded, [None] when one of them makes the deserializer
    raise. *)
Fixpoint deserialize_all (tp : Z) (payloads : list string) : option (list ConsumerRecord) :=
  match payloads with
  | [] => Some []
  | x :: rest =>
      match value_deserializer x, deserialize_all tp rest with
      | Some v, Some rs => Some (mkConsumerRecord tp v :: rs)
      | _, _ => None
      end
  end.

(** [Fetcher.fetched_records(max_records)]: while records are still
    wanted the next batch is unpacked whole and up to [remaining] of its
    records are handed out; batches in arrival order, no partition
    without a record, [None] when a batch does not decode. *)
Fixpoint fetched_records (remaining : nat) (parts : list (Z * list string))
  : option (list (Z * list ConsumerRecord)) :=
  match parts with
  | [] => Some []
  | (tp, payloads) :: rest =>
      match remaining with
      | O => Some []
      | _ =>
          match deserialize_all tp payloads with
          | None => None
          | Some unpacked =>
              match firstn remaining unpacked with
              | [] => fetched_records remaining rest
              | taken =>
                  match fetched_records (remaining - List.length taken) rest with
                  | Some drained => Some ((tp, taken) :: drained)
                  | None => None
                  end
              end
          end
      end
  end.

(** [consumer.poll(timeout_ms=..., max_records=...)] *)
Definition poll (consumer : KafkaConsumer) (timeout_ms : Z) (max_records : option Z)
  : M (list (Z * list ConsumerRecord)) :=
  fun w0 =>
    let w := log_event (Polled timeout_ms max_records) w0 in
    let max_records :=
      match max_records with
      | None => max_poll_records (kafka w)
      | Some n => n
      end in
    if negb (0 <=? timeout_ms)
    then (Raise (AssertionError "Timeout must not be negative"), w)
    else if negb (0 <? max_records)
    then (Raise (AssertionError "max_records must be positive"), w)
    else
      let batches :=
        if fetch_ok (kafka w)
        then arrivals (kafka w) (subscription consumer) (auto_offset_reset consumer)
        else [] in
      match fetched_records (Z.to_nat max_records) batches with
      | None => (Raise DeserializeError, w)
      | Some messages => (Ok messages, w)
      end.

(** [consumer.close()] *)
Definition close (consumer : KafkaConsumer) : M unit :=
  modify (log_event Closed).

Record DatasetTopicData : Type := mkDatasetTopicData {
  dataset_id : Z;
  records : list Json;
  record_count : Z;
  topic_name : string
}.

(** [__fetch_stream_data(self, topic_details, offset_reset,
                         no_of_records=const.DEFAULT_STREAM_DATA_COUNT)].
    The third argument is [None] when the caller leaves it out, and then
    takes the default of the signature. *)
Definition __fetch_stream_data (topic_details : BrokerTopicDetails.t)
    (offset_reset : string) (no_of_records_arg : option (option Z)) : M (list Json) :=
  let no_of_records :=
    match no_of_records_arg with
    | None => Some const.DEFAULT_STREAM_DATA_COUNT
    | Some given => given
    end in
  let topic_name := BrokerTopicDetails.topic_name topic_details in
  let broker_ip := BrokerTopicDetails.broker_ip topic_details in
  let broker_port := BrokerTopicDetails.broker_port topic_details in
  consumer <- KafkaConsumer_init topic_name broker_ip broker_port offset_reset ;;
  try_finally
    (try_except
       (messages <- poll consumer const.STREAM_TIMEOUT no_of_records ;;
        match messages with
        | [] => raise (NoMessagesFound ("No messages in stream topic: " ++ topic_name)%string)
        | _ =>
            ret (flat_map (fun partition_messages => map value (snd partition_messages))
                   messages)
        end)
       (fun exp => raise exp))
    (close consumer).

(** [fetch_dataset_topic_data(self, dataset_id, no_of_records, offset_reset)] *)
Definition fetch_dataset_topic_data (dataset_id : Z) (no_of_records : option Z)
    (offset_reset : string) : M DatasetTopicData :=
  try_except
    (topic_details <- DatasetService._get_topic_and_broker_details dataset_id ;;
     records <- __fetch_stream_data topic_details offset_reset (Some no_of_records) ;;
     ret (mkDatasetTopicData dataset_id records (Z.of_nat (List.length records))
            (BrokerTopicDetails.topic_name topic_details)))
    (fun exp =>
       if is_NoRowFound exp then
         raise (NoResultFound ("Dataset not found for ID " ++ str dataset_id)%string)
       else if is_NoMessagesFound exp then
         raise exp
       else
         raise exp).

(** *** app/api/dataset.py: [GET /datasets/{id}/topic/data] *)

Inductive HTTPException : Type :=
| HTTP_404_NOT_FOUND (detail : string)
| HTTP_500_INTERNAL_SERVER_ERROR (cause : exn)    (* f"Internal Exception:{str(exp)}" *)
| HTTP_422_UNPROCESSABLE_ENTITY (detail : list ParamError).

Record StandardResponse : Type := mkStandardResponse {
  status_code : Z;
  message : string;
  data : DatasetTopicData
}.

(** [class OffsetReset(str, Enum)] of app/schemas/topic_details.py *)
Inductive OffsetReset : Type := earliest | latest.

Definition OffsetReset_value (o : OffsetReset) : string :=
  match o with earliest => const.EARLIEST | latest => const.LATEST end.

(** [fetch_datasets_topic_data(id=Path(gt=0),
                               no_of_records=Query(None, gt=0),
                               offset_reset=Query(const.LATEST), db_app)].
    The parameters are validated before the function is called; a query
    parameter that the request leaves out takes the default of its
    [Query]; [NoResultFound], [NoMessagesFound] and [Exception] in the
    [except] clauses are the application's classes and Python's. *)
Definition fetch_datasets_topic_data (id : Z) (no_of_records : option Z)
    (offset_reset : option OffsetReset)
  : World -> (HTTPException + StandardResponse) * World :=
  fun w =>
    match Path_gt 0 "id" id ++ Query_gt 0 "no_of_records" no_of_records with
    | (_ :: _) as errors => (inl (HTTP_422_UNPROCESSABLE_ENTITY errors), w)
    | [] =>
    let offset_reset := match offset_reset with None => latest | Some o => o end in
    match fetch_dataset_topic_data id no_of_records (OffsetReset_value offset_reset) w with
    | (Ok result, w') => (inr (mkStandardResponse 200 "Topic Data" result), w')
    | (Raise exp, w') =>
        if is_NoResultFound exp then (inl (HTTP_404_NOT_FOUND "Dataset not found."), w')
        else match exp with
             | NoMessagesFound msg => (inl (HTTP_404_NOT_FOUND msg), w')
             | _ => (inl (HTTP_500_INTERNAL_SERVER_ERROR exp), w')
             end
    end
    end.

End Stream.

Arguments value {Json} _.
Arguments records {Json} _.
Arguments record_count {Json} _.
Arguments dataset_id {Json} _.
Arguments topic_name {Json} _.
Arguments status_code {Json} _.
Arguments message {Json} _.
Arguments data {Json} _.

(** ** app/middleware/pagination.py *)

Module pagination.

(** [request.state.pagination] *)
Record State : Type := mkState {
  page : Z;
  limit : Z;
  start_index : Z;
  end_index : Z
}.

(** A query parameter as [int(request.query_params.get(name, default))]
    sees it: left out, text that [int] accepts, or text that makes
    [int] raise [ValueError]. *)
Inductive QueryParam : Type :=
| Absent
| Int (z : Z)
| NotInt.

Definition int_param (p : QueryParam) (default : Z) : option Z :=
  match p with
  | Absent => Some default
  | Int z => Some z
  | NotInt => None
  end.

(** [PaginationMiddleware.dispatch], up to [call_next]: the pagination
    state it stores, or [None] when a parameter makes [int] raise. *)
Definition dispatch (default_limit : Z) (page_param limit_param : QueryParam)
  : option State :=
  match int_param page_param 1 with
  | None => None
  | Some page =>
      match int_param limit_param default_limit with
      | None => None
      | Some limit =>
          let page := Z.max page 1 in
          let limit := Z.max limit 1 in
          let start_index := (page - 1) * limit in
          let end_index := start_index + limit in
          Some (mkState page limit start_index end_index)
      end
  end.

(** [PaginationMiddleware(app)] as app/main.py adds it. *)
Definition default_limit : Z := 10.

End pagination.

(** ** app/utils/response_utils.py *)

Module response_utils.

(** The [data] argument: a list, one pydantic model, or [None]. *)
Inductive Data (A : Type) : Type :=
| DList (items : list A)
| DModel (a : A)
| DNone.
Arguments DList {A} items.
Arguments DModel {A} a.
Arguments DNone {A}.

(** What [standard_response] reads of a [Request]. *)
Record Request : Type := mkRequest {
  method : string;
  state_pagination : option pagination.State   (* hasattr(request.state, "pagination") *)
}.

Record PageInfo : Type := mkPageInfo {
  page : Z;
  limit : Z;
  total_items : Z
}.

Record Response (A : Type) : Type := mkResponse {
  status_code : Z;
  message : string;
  data : Data A;
  pagination_details : option PageInfo        (* the key "pagination" *)
}.
Arguments mkResponse {A} _ _ _ _.
Arguments status_code {A} _.
Arguments message {A} _.
Arguments data {A} _.
Arguments pagination_details {A} _.

(** A bound of a Python slice, brought into [0, len]. *)
Definition slice_bound (len i : Z) : Z :=
  if i <? 0 then Z.max 0 (i + len) else Z.min i len.

(** [items[start:stop]] *)
Definition slice {A} (items : list A) (start stop : Z) : list A :=
  let len := Z.of_nat (List.length items) in
  let lo := slice_bound len start in
  let hi := slice_bound len stop in
  firstn (Z.to_nat (hi - lo)) (skipn (Z.to_nat lo) items).

(** [standard_response(status_code, message, data, request=None)] *)
Definition standard_response {A} (status_code : Z) (message : string) (data : Data A)
    (request : option Request) : Response A :=
  match data, request with
  | DList items, Some req =>
      match (method req =? "GET")%string, state_pagination req with
      | true, Some pagination_details =>
          let total_items := Z.of_nat (List.length items) in
          let start_index := pagination.start_index pagination_details in
          let end_index := pagination.end_index pagination_details in
          let data := slice items start_index end_index in
          mkResponse status_code message (DList data)
            (Some (mkPageInfo (pagination.page pagination_details)
                     (pagination.limit pagination_details) total_items))
      | _, _ => mkResponse status_code message data None
      end
  | _, _ => mkResponse status_code message data None
  end.

End response_utils.

(** ** app/api/dataset.py: the broker, topic and dataset-message routes *)

Module api.

Import response_utils.

(** The [detail] of an error response: a text, a text ending in
    [str(exp)] for the exception caught, a dictionary with the message
    and the original error of an [IntegrityError], or the errors of the
    parameters that did not pass validation. *)
Inductive Detail : Type :=
| Text (s : string)
| TextStr (prefix : string) (exp : exn)
| Conflict (message : string) (orig : exn) (broker_id : option string)
| Invalid (errors : list ParamError).

Record HTTPException : Type := mkHTTPException {
  status : Z;
  detail : Detail
}.

Definition Endpoint (A : Type) : Type := World -> (HTTPException + A) * World.

(** A route whose parameters are validated: with no error the route
    function runs, otherwise the answer is 422 and nothing has run. *)
Definition validated {A} (errors : list ParamError) (route : Endpoint A) : Endpoint A :=
  fun w =>
    match errors with
    | [] => route w
    | _ :: _ => (inl (mkHTTPException 422 (Invalid errors)), w)
    end.

Definition is_digit (c : Ascii.ascii) : bool :=
  (48 <=? Z.of_nat (Ascii.nat_of_ascii c)) && (Z.of_nat (Ascii.nat_of_ascii c) <=? 57).

(** The longest run of digits that [s] starts with: [\d+] at the
    start of [s], empty when it does not match. *)
Fixpoint leading_digits (s : string) : string :=
  match s with
  | String c rest => if is_digit c then String c (leading_digits rest) else EmptyString
  | EmptyString => EmptyString
  end.

(** [s] without the prefix [p], when it starts with it. *)
Fixpoint strip_prefix (p s : string) : option string :=
  match p, s with
  | EmptyString, _ => Some s
  | String a p', String b s' => if Ascii.eqb a b then strip_prefix p' s' else None
  | String _ _, EmptyString => None
  end.

(** [re.search(label + r"(\d+)", s)] and [match.group(1)]: the digits
    after the leftmost place where [label] is followed by a digit. *)
Fixpoint search_id (label s : string) : option string :=
  let here :=
    match strip_prefix label s with
    | Some rest => leading_digits rest
    | None => EmptyString
    end in
  match here, s with
  | String _ _, _ => Some here
  | EmptyString, String _ rest => search_id label rest
  | EmptyString, EmptyString => None
  end.

(** [POST /datasets/broker].  When the message of the [IntegrityError]
    does not match, the handler ends without [raise] or [return] and the
    route function returns [None]. *)
Definition dataset_broker_register (data : BrokerBase.t)
  : Endpoint (option (Response BrokerResponse.t)) :=
  fun w =>
    match DatasetService.register_broker data w with
    | (Ok result, w') =>
        (inr (Some (standard_response 201 "Broker created successfully."
                      (DModel result) None)), w')
    | (Raise exp, w') =>
        match exp with
        | IntegrityError message orig =>
            match search_id "Broker id " message with
            | Some broker_id =>
                (inl (mkHTTPException 409 (Conflict message orig (Some broker_id))), w')
            | None => (inr None, w')
            end
        | _ => (inl (mkHTTPException 500 (TextStr "Internal Exception: " exp)), w')
        end
    end.

(** [PATCH /datasets/broker/{id}], [id: int = Path(..., gt=0)] *)
Definition dataset_broker_update (data : BrokerUpdate.t) (id : Z)
  : Endpoint (Response BrokerResponse.t) :=
  validated (Path_gt 0 "id" id) (fun w =>
    match DatasetService.update_broker id data w with
    | (Ok result, w') =>
        (inr (standard_response 200 "Broker updated successfully." (DModel result) None), w')
    | (Raise exp, w') =>
        if is_NoResultFound exp
        then (inl (mkHTTPException 404 (TextStr "" exp)), w')
        else match exp with
             | IntegrityError _ _ => (inl (mkHTTPException 409 (TextStr "" exp)), w')
             | _ => (inl (mkHTTPException 500 (TextStr "Internal Exception: " exp)), w')
             end
    end).

(** [GET /datasets/broker/details] *)
Definition fetch_broker_details (request : Request)
  : Endpoint (Response BrokerResponse.t) :=
  fun w =>
    match DatasetService.fetch_broker_details w with
    | (Ok result, w') =>
        (inr (standard_response 200 "Broker Details." (DList result) (Some request)), w')
    | (Raise exp, w') =>
        if is_NoResultFound exp
        then (inl (mkHTTPException 404 (Text "No Broker defined.")), w')
        else (inl (mkHTTPException 500 (TextStr "Internal Exception: " exp)), w')
    end.

(** [GET /datasets/topic/details] *)
Definition fetch_topic_details (request : Request)
  : Endpoint (Response TopicResponse.t) :=
  fun w =>
    match DatasetService.fetch_topic_details w with
    | (Ok result, w') =>
        (inr (standard_response 200 "Topic Details." (DList result) (Some request)), w')
    | (Raise exp, w') =>
        if is_NoResultFound exp
        then (inl (mkHTTPException 404 (Text "No Topic defined.")), w')
        else (inl (mkHTTPException 500 (TextStr "Internal Exception: " exp)), w')
    end.

(** [GET /datasets/{id}/message/details], [id: int = Path(gt=0)] *)
Definition fetch_dataset_message_details (request : Request) (id : Z)
  : Endpoint (Response DatasetBrokerTopicResponse.t) :=
  validated (Path_gt 0 "id" id) (fun w =>
    match DatasetService.fetch_dataset_message_details id w with
    | (Ok result, w') =>
        (inr (standard_response 200 "Dataset message details." (DModel result)
                (Some request)), w')
    | (Raise exp, w') =>
        if is_NoResultFound exp
        then (inl (mkHTTPException 404 (TextStr "" exp)), w')
        else match exp with
             | IntegrityError message orig =>
                 (inl (mkHTTPException 409 (Conflict message orig None)), w')
             | _ => (inl (mkHTTPException 500 (TextStr "Internal Exception: " exp)), w')
             end
    end).

(** [DELETE /datasets/broker/{id}], [id: int = Path(..., gt=0)]; the route
    function returns nothing. *)
Definition delete_broker (id : Z) : Endpoint unit :=
  validated (Path_gt 0 "id" id) (fun w =>
    match DatasetService.broker_deregister id w with
    | (Ok _, w') => (inr tt, w')
    | (Raise exp, w') =>
        if is_NoResultFound exp
        then (inl (mkHTTPException 404
                     (Text ("Broker not found for the id " ++ str id)%string)), w')
        else (inl (mkHTTPException 500
                     (TextStr ("Internal Exception occurred while retrieving broker for the id "
                               ++ str id ++ " : ")%string exp)), w')
    end).

(** [DELETE /datasets/topic/{id}], [id: int = Path(..., gt=0)] *)
Definition delete_topic (id : Z) : Endpoint unit :=
  validated (Path_gt 0 "id" id) (fun w =>
    match DatasetService.topic_deregister id w with
    | (Ok _, w') => (inr tt, w')
    | (Raise exp, w') =>
        if is_NoResultFound exp
        then (inl (mkHTTPException 404
                     (Text ("Topic not found for the id " ++ str id)%string)), w')
        else (inl (mkHTTPException 500
                     (TextStr ("Internal Exception occurred while retrieving topic for the id "
                               ++ str id ++ " : ")%string exp)), w')
    end).

(** [DELETE /datasets/message/{id}], [id: int = Path(..., gt=0)] *)
Definition delete_dataset_message (id : Z) : Endpoint (Response unit) :=
  validated (Path_gt 0 "id" id) (fun w =>
    match DatasetService.dataset_message_deregister id w with
    | (Ok _, w') =>
        (inr (standard_response 200 "Dataset Message deleted successfully" DNone None), w')
    | (Raise exp, w') =>
        if is_NoResultFound exp
        then (inl (mkHTTPException 404
                     (Text ("Dataset not found for the id " ++ str id)%string)), w')
        else (inl (mkHTTPException 500
                     (TextStr ("Internal Exception occurred while retrieving dataset for the id "
                               ++ str id ++ " : ")%string exp)), w')
    end).

End api.

(** * Vocabulary of the properties

    Definitions that the statements below use: the rows an operation is
    expected to write, predicates on payloads and stores, and the stores
    and Kafka environments of the worked examples. *)

Definition new_broker_row (db : DB) (data : BrokerBase.t) (now : Z) : BrokerDetails.t :=
  BrokerDetails.mk (next_id (map BrokerDetails.id (broker_details_rows db)))
    (BrokerBase.name data) (BrokerBase.ip data) (BrokerBase.port data) now.

Definition named (n : string) (b : BrokerDetails.t) : bool :=
  (BrokerDetails.broker_name b =? n)%string.

Definition after_register_broker (k : KafkaEnv) (db : DB)
    (req : BrokerBase.t * list bool * Z) : DB :=
  let '(data, fs, now) := req in
  committed (snd (DatasetService.register_broker data (request db fs now k))).

Definition broker_1 : BrokerBase.t := BrokerBase.mk "broker-1" (IPv4Address 2130706433) 9092.
Definition empty_db : DB := mkDB [] [] [] [].
Definition quiet_kafka : KafkaEnv := mkKafkaEnv true true 500 (fun _ _ => []).

Definition same_topic (n : string) (broker_id : Z) (t : TopicDetails.t) : bool :=
  (TopicDetails.topic_name t =? n)%string && (TopicDetails.broker_id t =? broker_id).

(** Two brokers, each hosting a topic called "telemetry". *)
Definition telemetry_twice : DB :=
  mkDB
    [ BrokerDetails.mk 1 "broker-1" (IPv4Address 2130706433) 9092 100;
      BrokerDetails.mk 2 "broker-2" (IPv4Address 167772162) 9092 101 ]
    [ TopicDetails.mk 1 "telemetry" "{}" 1 102;
      TopicDetails.mk 2 "telemetry" "{}" 2 103 ]
    [] [].

(** Every link of the store points at a topic of the store. *)
Definition no_dangling_link (db : DB) : Prop :=
  forall l, In l (dataset_topic_details_rows db) ->
    exists t, In t (topic_details_rows db)
              /\ TopicDetails.id t = DatasetTopicDetails.topic_id l.

(** One broker, one topic, one broker-sourced dataset linked to it, and a
    file-sourced dataset. *)
Definition linked_db : DB :=
  mkDB
    [ BrokerDetails.mk 1 "broker-1" (IPv4Address 2130706433) 9092 100 ]
    [ TopicDetails.mk 1 "telemetry" "{}" 1 101 ]
    [ DatasetInfo.mk 4 0 0 "file-ds" "uploaded" 0 90 90 0;
      DatasetInfo.mk 5 0 2 "sensor-ds" "desc" 0 102 102 0 ]
    [ DatasetTopicDetails.mk 1 1 5 102 ].

Definition broker_sourced (dataset_id : Z) (d : DatasetInfo.t) : bool :=
  (DatasetInfo.id d =? dataset_id)
  && (DatasetInfo.data_source_type d =? const.BROKER_DATA_SOURCE_TYPE).

(** "Applies only supplied fields": the row with the fields of the patch
    replaced and every other field kept. *)
Definition patch_broker (p : BrokerUpdate.t) (b : BrokerDetails.t) : BrokerDetails.t :=
  BrokerDetails.mk
    (BrokerDetails.id b)
    (match BrokerUpdate.broker_name p with Some n => n | None => BrokerDetails.broker_name b end)
    (match BrokerUpdate.broker_ip p with Some a => a | None => BrokerDetails.broker_ip b end)
    (match BrokerUpdate.broker_port p with Some z => z | None => BrokerDetails.broker_port b end)
    (BrokerDetails.creation_date b).

Definition patched_store (broker_id : Z) (p : BrokerUpdate.t) (db : DB) : DB :=
  set_broker_details
    (map (fun b => if BrokerDetails.id b =? broker_id then patch_broker p b else b)
       (broker_details_rows db)) db.

Definition supplies_nothing (p : BrokerUpdate.t) : bool :=
  match BrokerUpdate.broker_name p, BrokerUpdate.broker_ip p, BrokerUpdate.broker_port p with
  | None, None, None => true
  | _, _, _ => false
  end.

(** Another broker of the store already has the name of [row]. *)
Definition name_taken (row : BrokerDetails.t) (db : DB) : bool :=
  existsb (fun b => negb (BrokerDetails.id b =? BrokerDetails.id row)
                    && (BrokerDetails.broker_name b =? BrokerDetails.broker_name row)%string)
    (broker_details_rows db).

(** The rows that [register_dataset_message_details] writes. *)
Definition new_dataset_row (db : DB) (data : DatasetBrokerTopicBase.t) (now : Z)
  : DatasetInfo.t :=
  DatasetInfo.mk (next_id (map DatasetInfo.id (dataset_info_rows db)))
    (DatasetTypeEnum_value (DatasetBrokerTopicBase.dataset_type data))
    const.BROKER_DATA_SOURCE_TYPE
    (DatasetBrokerTopicBase.name data) (DatasetBrokerTopicBase.description data)
    const.USER_ID now now const.USER_ID.

Definition new_link_row (db : DB) (data : DatasetBrokerTopicBase.t) (now : Z)
  : DatasetTopicDetails.t :=
  DatasetTopicDetails.mk (next_id (map DatasetTopicDetails.id (dataset_topic_details_rows db)))
    (DatasetBrokerTopicBase.topic_id data)
    (DatasetInfo.id (new_dataset_row db data now)) now.

Definition with_dataset_and_link (db : DB) (d : DatasetInfo.t) (l : DatasetTopicDetails.t)
  : DB :=
  mkDB (broker_details_rows db) (topic_details_rows db)
    (dataset_info_rows db ++ [d]) (dataset_topic_details_rows db ++ [l]).

(** The round trips of the two-row write: the two lookups, the flush of
    the dataset, the flush of the link, and COMMIT. *)
Definition write_round_trips : nat := 5.

Definition fails_within (n : nat) (fs : list bool) : bool :=
  existsb (fun f => f) (firstn n fs).

(** Consumer sessions opened and not yet closed, read off the log. *)
Fixpoint open_consumers (log : list KafkaEvent) : Z :=
  match log with
  | [] => 0
  | Opened _ _ _ _ :: rest => 1 + open_consumers rest
  | Closed :: rest => open_consumers rest - 1
  | Polled _ _ :: rest => open_consumers rest
  end.

(** The cap that one poll works with. *)
Definition poll_cap (k : KafkaEnv) (no_of_records : option Z) : Z :=
  match no_of_records with
  | Some n => n
  | None => max_poll_records k
  end.

(** A topic with 201 messages waiting, read with the client's default
    [max_poll_records] of 500. *)
Definition busy_kafka : KafkaEnv :=
  mkKafkaEnv true true 500 (fun _ _ => [(0, repeat "{}" 201)]).

(** For concrete runs: payloads are passed on undecoded. *)
Definition raw_payload (x : string) : option string := Some x.

(** A dataset registered on broker 2 with topic 1, which broker 1 hosts. *)
Definition mismatched_registration : DatasetBrokerTopicBase.t :=
  DatasetBrokerTopicBase.mk TRAIN "sensor-ds" "desc" 2 1.

Definition matched_registration : DatasetBrokerTopicBase.t :=
  DatasetBrokerTopicBase.mk TRAIN "sensor-ds" "desc" 1 1.

(** A broker that answers the bootstrap and then leaves the fetch
    unanswered, and one that does not answer at all. *)
Definition failing_kafka : KafkaEnv :=
  mkKafkaEnv true false 500 (fun _ _ => [(0, ["{}"])]).

Definition unreachable_kafka : KafkaEnv :=
  mkKafkaEnv false true 500 (fun _ _ => [(0, ["{}"])]).

(** For concrete runs: every payload is malformed. *)
Definition malformed_payload (x : string) : option string := None.

(** The row that [register_topic] writes. *)
Definition new_topic_row (db : DB) (broker_id : Z) (data : TopicBase.t) (now : Z)
  : TopicDetails.t :=
  TopicDetails.mk (next_id (map TopicDetails.id (topic_details_rows db)))
    (TopicBase.name data) (TopicBase.schema_definition data) broker_id now.

(** Every topic of the store belongs to a broker of the store. *)
Definition no_orphan_topic (db : DB) : Prop :=
  forall t, In t (topic_details_rows db) ->
    exists b, In b (broker_details_rows db)
              /\ BrokerDetails.id b = TopicDetails.broker_id t.

(** The topic of link [l] is hosted by broker [broker_id]. *)
Definition link_on_broker (db : DB) (broker_id : Z) (l : DatasetTopicDetails.t) : Prop :=
  exists t, In t (topic_details_rows db)
            /\ TopicDetails.broker_id t = broker_id
            /\ TopicDetails.id t = DatasetTopicDetails.topic_id l.

(** The topic row with the supplied fields of the patch replaced. *)
Definition patch_topic (p : TopicUpdate.t) (t : TopicDetails.t) : TopicDetails.t :=
  TopicDetails.mk
    (TopicDetails.id t)
    (match TopicUpdate.topic_name p with Some n => n | None => TopicDetails.topic_name t end)
    (match TopicUpdate.topic_schema p with Some j => j | None => TopicDetails.topic_schema t end)
    (TopicDetails.broker_id t)
    (TopicDetails.creation_date t).

Definition patched_topic_store (topic_id : Z) (p : TopicUpdate.t) (db : DB) : DB :=
  set_topic_details
    (map (fun t => if TopicDetails.id t =? topic_id then patch_topic p t else t)
       (topic_details_rows db)) db.

Definition topic_patch_empty (p : TopicUpdate.t) : bool :=
  match TopicUpdate.topic_name p, TopicUpdate.topic_schema p with
  | None, None => true
  | _, _ => false
  end.

(** Another topic of the same broker already has the name of [row]. *)
Definition topic_name_taken (row : TopicDetails.t) (db : DB) : bool :=
  existsb (fun t => negb (TopicDetails.id t =? TopicDetails.id row)
                    && (TopicDetails.topic_name t =? TopicDetails.topic_name row)%string
                    && (TopicDetails.broker_id t =? TopicDetails.broker_id row))
    (topic_details_rows db).

(** A GET request as it reaches a route after [PaginationMiddleware]. *)
Definition paginated_get (st : pagination.State) : response_utils.Request :=
  response_utils.mkRequest "GET" (Some st).

(** The items of a response, when its data is a list. *)
Definition listed {A} (r : response_utils.Response A) : list A :=
  match response_utils.data r with
  | response_utils.DList items => items
  | _ => []
  end.

(** Page [page] of [items], [limit] to a page, as a paginated GET serves it. *)
Definition served_page {A} (items : list A) (page limit : Z) : list A :=
  match pagination.dispatch pagination.default_limit (pagination.Int page)
          (pagination.Int limit) with
  | Some st =>
      listed (response_utils.standard_response 200 "" (response_utils.DList items)
                (Some (paginated_get st)))
  | None => []
  end.

(** Every link of the store points at a dataset of the store. *)
Definition no_orphan_link (db : DB) : Prop :=
  forall l, In l (dataset_topic_details_rows db) ->
    exists d, In d (dataset_info_rows db)
              /\ DatasetInfo.id d = DatasetTopicDetails.dataset_id l.

(** A count of records that passes [Query(None, gt=0)]. *)
Definition positive_if_given (n : option Z) : Prop :=
  match n with
  | Some v => 0 < v
  | None => True
  end.

(** * Proofs

    Service code is run symbolically: the monad and the session
    primitives unfold under [cbn], and the proof splits on what is left,
    the failure schedule and the results of the queries. *)

Arguments str : simpl never.
Arguments next_id : simpl never.
Arguments bind {A B} m k w /.
Arguments ret {A} a w /.
Arguments raise {A} e w /.
Arguments try_except {A} m handler w /.
Arguments try_finally {A} m fin w /.
Arguments gets {A} f w /.
Arguments modify f w /.
Arguments utcnow /.
Arguments one {R} q /.
Arguments one_or_none {R} q /.
Arguments select {R} table criterion /.
Arguments db_add p w /.
Arguments db_modified r /.
Arguments db_delete r /.
Arguments db_setattr {R _} record key value /.
Arguments db_commit /.
Arguments db_flush w /.
Arguments db_rollback /.
Arguments db_obj h w /.
Arguments broker_obj h /.
Arguments topic_obj h /.
Arguments dataset_obj h /.
Arguments reload {R} table pk r /.
Arguments sql_roundtrip w /.
Arguments abort_txn w /.
Arguments request db fs now k /.
Arguments SessionLocal db /.
Arguments nothing_to_flush s /.
Arguments set_session s w /.
Arguments set_committed db w /.
Arguments set_faults fs w /.
Arguments log_event ev w /.
Arguments insert_pending p db /.
Arguments update_row r db /.
Arguments delete_row r db /.
Arguments flush_deleted rs db /.
Arguments DatasetService.setattr_items : simpl never.
Arguments String.append : simpl never.
Arguments patch_broker : simpl never.
Arguments DatasetService._get_topic_and_broker_details : simpl never.
Arguments __fetch_stream_data : simpl never.
Arguments delete_link : simpl never.
Arguments delete_topic : simpl never.
Arguments delete_broker : simpl never.
Arguments delete_dataset : simpl never.
Arguments all {R} q /.



(** A route reached with a valid identity runs its function. *)
Lemma validated_gt {A} (route : api.Endpoint A) (id : Z) (w : World) :
  0 < id -> api.validated (Path_gt 0 "id" id) route w = route w.
Proof.
  intros Hid. unfold api.validated, Path_gt.
  apply Z.ltb_lt in Hid. rewrite Hid. reflexivity.
Qed.

Ltac fault_step :=
  match goal with
  | |- context [match ?fs with [] => _ | _ :: _ => _ end] =>
      is_var fs; destruct fs as [|[|] ?]; cbn
  end.

Ltac filter_step :=
  match goal with
  | |- context [match filter ?p ?l with _ => _ end] =>
      destruct (filter p l) as [|? [|? ?]]; cbn
  end.

(** ** Facts about the store *)

Lemma fold_max_upper (ids : list Z) (i : Z) :
  In i ids -> i <= fold_right Z.max 0 ids.
Proof.
  induction ids as [|x ids IH]; cbn; [tauto|].
  intros [->|Hin]; [lia|]. specialize (IH Hin). lia.
Qed.

Lemma next_id_fresh {R} (pk : R -> Z) (rows : list R) :
  filter (fun x => pk x =? next_id (map pk rows)) rows = [].
Proof.
  assert (H : forall x, In x rows -> (pk x =? next_id (map pk rows)) = false).
  { intros x Hx. apply Z.eqb_neq. unfold next_id.
    pose proof (fold_max_upper (map pk rows) (pk x) (in_map pk rows x Hx)). lia. }
  revert H. generalize (next_id (map pk rows)) as n.
  induction rows as [|r rows IH]; intros n H; cbn; [reflexivity|].
  rewrite (H r (or_introl eq_refl)). apply IH. intros x Hx. apply H. now right.
Qed.

Lemma existsb_false_filter {R} (p : R -> bool) (rows : list R) :
  existsb p rows = false -> filter p rows = [].
Proof.
  induction rows as [|r rows IH]; cbn; [reflexivity|].
  destruct (p r); cbn; [discriminate|exact IH].
Qed.

Lemma filter_nil_existsb {R} (p : R -> bool) (rows : list R) :
  filter p rows = [] -> existsb p rows = false.
Proof.
  induction rows as [|r rows IH]; cbn; [reflexivity|].
  destruct (p r); cbn; [discriminate|exact IH].
Qed.

Lemma filter_cons_existsb {R} (p : R -> bool) (rows : list R) x xs :
  filter p rows = x :: xs -> existsb p rows = true.
Proof.
  intros H. destruct (existsb p rows) eqn:E; [reflexivity|].
  rewrite (existsb_false_filter _ _ E) in H. discriminate.
Qed.

Lemma filter_singleton_In {R} (p : R -> bool) (rows : list R) x :
  filter p rows = [x] -> In x rows /\ p x = true.
Proof.
  intros H. apply filter_In. rewrite H. now left.
Qed.

(** ** Broker registry *)

Lemma register_broker_fresh db now k data :
  existsb (named (BrokerBase.name data)) (broker_details_rows db) = false ->
  fst (DatasetService.register_broker data (request db [] now k))
    = Ok (BrokerResponse.from_orm (new_broker_row db data now))
  /\ committed (snd (DatasetService.register_broker data (request db [] now k)))
     = set_broker_details (broker_details_rows db ++ [new_broker_row db data now]) db.
Proof.
  intros Hfresh. unfold DatasetService.register_broker, named in *. cbn.
  unfold insert_broker. cbn. rewrite Hfresh. cbn.
  rewrite filter_app, next_id_fresh. cbn. rewrite Z.eqb_refl. cbn.
  split; reflexivity.
Qed.

Lemma register_broker_conflict db now k data b :
  filter (named (BrokerBase.name data)) (broker_details_rows db) = [b] ->
  fst (DatasetService.register_broker data (request db [] now k))
    = Raise (IntegrityError ("Broker id " ++ str (BrokerDetails.id b) ++ " already exists.")%string
               (DBIntegrityError "unique_broker_per_dataset"))
  /\ committed (snd (DatasetService.register_broker data (request db [] now k))) = db.
Proof.
  intros Hone. pose proof (filter_cons_existsb _ _ _ _ Hone) as Hex.
  unfold DatasetService.register_broker, named in *. cbn.
  unfold insert_broker. cbn. rewrite Hex. cbn. rewrite Hone. cbn.
  split; reflexivity.
Qed.

Lemma register_broker_frame db fs now k data :
  let db' := committed (snd (DatasetService.register_broker data (request db fs now k))) in
  db' = db
  \/ (existsb (named (BrokerBase.name data)) (broker_details_rows db) = false
      /\ db' = set_broker_details (broker_details_rows db ++ [new_broker_row db data now]) db).
Proof.
  unfold DatasetService.register_broker, named. cbn.
  fault_step; try (left; reflexivity).
  all: unfold insert_broker; cbn.
  all: destruct (existsb _ (broker_details_rows db)) eqn:Hex; cbn.
  all: repeat (try fault_step;
    try match goal with
      | |- context [match filter ?p ?l with _ => _ end] => destruct (filter p l) as [|? [|? ?]]; cbn
      end).
  all: try (left; reflexivity).
  all: try (right; split; reflexivity).
Qed.

Lemma after_register_broker_keeps k n row reqs : forall db,
  filter (named n) (broker_details_rows db) = [row] ->
  filter (named n) (broker_details_rows (fold_left (after_register_broker k) reqs db)) = [row].
Proof.
  induction reqs as [|[[data fs] now] reqs IH]; intros db Hinv; cbn [fold_left]; [exact Hinv|].
  apply IH. unfold after_register_broker.
  pose proof (register_broker_frame db fs now k data) as Hframe. cbv zeta in Hframe.
  destruct Hframe as [->|[Hfresh ->]]; [exact Hinv|].
  cbn. rewrite filter_app, Hinv. cbn.
  destruct (String.eqb_spec (BrokerBase.name data) n) as [Heq|Hne]; [|reflexivity].
  rewrite Heq, (filter_cons_existsb _ _ _ _ Hinv) in Hfresh. discriminate.
Qed.

(** C5.  A broker name registers once.  The first [register_broker] with a
    name that no broker of the store has succeeds and adds exactly one
    row, carrying the payload's name, address and port under a new
    identity.  After that, and after any number of further
    [register_broker] requests (whatever their payloads and whatever
    fails in them), a request with the same name and no database failure
    raises the application's [IntegrityError] whose message names the
    identity of that first row, leaves the store as it found it, and the
    store still holds that one row under the name. *)
Theorem register_broker_once_per_name db now k data :
  existsb (named (BrokerBase.name data)) (broker_details_rows db) = false ->
  let first := DatasetService.register_broker data (request db [] now k) in
  let row := new_broker_row db data now in
  fst first = Ok (BrokerResponse.from_orm row)
  /\ committed (snd first) = set_broker_details (broker_details_rows db ++ [row]) db
  /\ forall (between : list (BrokerBase.t * list bool * Z)) (again : BrokerBase.t) (now' : Z),
       BrokerBase.name again = BrokerBase.name data ->
       let db' := fold_left (after_register_broker k) between (committed (snd first)) in
       let second := DatasetService.register_broker again (request db' [] now' k) in
       fst second
         = Raise (IntegrityError
                    ("Broker id " ++ str (BrokerDetails.id row) ++ " already exists.")%string
                    (DBIntegrityError "unique_broker_per_dataset"))
       /\ committed (snd second) = db'
       /\ filter (named (BrokerBase.name data)) (broker_details_rows db') = [row].
Proof.
  intros Hfresh first row.
  destruct (register_broker_fresh db now k data Hfresh) as [Hres Hdb].
  split; [exact Hres|]. split; [exact Hdb|].
  intros between again now' Hname db' second.
  assert (Hinv : filter (named (BrokerBase.name data)) (broker_details_rows db') = [row]).
  { apply after_register_broker_keeps. subst first. rewrite Hdb. cbn.
    rewrite filter_app, (existsb_false_filter _ _ Hfresh). cbn.
    unfold named. cbn. now rewrite String.eqb_refl. }
  rewrite <- Hname in Hinv at 1.
  destruct (register_broker_conflict db' now' k again row Hinv) as [H1 H2].
  rewrite Hname in Hinv. auto.
Qed.

Lemma register_broker_once_per_name_witness :
  fst (DatasetService.register_broker (BrokerBase.mk "broker-1" (IPv4Address 167772162) 9093)
         (request (committed (snd (DatasetService.register_broker broker_1
                                      (request empty_db [] 100 quiet_kafka))))
            [] 101 quiet_kafka))
  = Raise (IntegrityError "Broker id 1 already exists."
             (DBIntegrityError "unique_broker_per_dataset")).
Proof.
  pose proof (register_broker_once_per_name empty_db 100 quiet_kafka broker_1 eq_refl) as H.
  cbv zeta in H. destruct H as (_ & _ & H).
  destruct (H [] (BrokerBase.mk "broker-1" (IPv4Address 167772162) 9093) 101 eq_refl)
    as (H1 & _ & _).
  exact H1.
Defined.

Lemma patch_broker_nothing p b : supplies_nothing p = true -> patch_broker p b = b.
Proof.
  destruct p as [[n|] [a|] [z|]], b; cbv; intros H; try discriminate; reflexivity.
Qed.

Lemma setattr_items_broker (p : BrokerUpdate.t) (record : BrokerDetails.t)
    db0 db1 os del act fs now k log :
  DatasetService.setattr_items (BrokerUpdate.dict p) record
    (mkWorld db0 (mkSession db1 os [] del act) fs now k log)
  = (Ok (patch_broker p record),
     mkWorld db0
       (mkSession db1 os
          (if supplies_nothing p then [] else [RBroker (patch_broker p record)]) del act)
       fs now k log).
Proof.
  destruct p as [[n|] [a|] [z|]], record;
    unfold DatasetService.setattr_items, BrokerUpdate.dict, patch_broker;
    repeat (progress (cbn; rewrite ?Z.eqb_refl)); reflexivity.
Qed.

Lemma update_by_pk_as_patch (f : BrokerDetails.t -> BrokerDetails.t) k r rows :
  (forall b, BrokerDetails.id (f b) = BrokerDetails.id b) ->
  filter (fun b => BrokerDetails.id b =? k) rows = [r] ->
  map (fun b => if BrokerDetails.id b =? BrokerDetails.id (f r) then f r else b) rows
  = map (fun b => if BrokerDetails.id b =? k then f b else b) rows.
Proof.
  intros Hid Hone. destruct (filter_singleton_In _ _ _ Hone) as [_ Hk].
  apply Z.eqb_eq in Hk. rewrite Hid, Hk.
  apply map_ext_in. intros b Hb.
  destruct (BrokerDetails.id b =? k) eqn:E; [|reflexivity].
  assert (Hin : In b (filter (fun b => BrokerDetails.id b =? k) rows))
    by (apply filter_In; auto).
  rewrite Hone in Hin. destruct Hin as [->|[]]. reflexivity.
Qed.

Lemma reload_patched (f : BrokerDetails.t -> BrokerDetails.t) k r rows :
  (forall b, BrokerDetails.id (f b) = BrokerDetails.id b) ->
  filter (fun b => BrokerDetails.id b =? k) rows = [r] ->
  filter (fun b => BrokerDetails.id b =? BrokerDetails.id (f r))
    (map (fun b => if BrokerDetails.id b =? BrokerDetails.id (f r) then f r else b) rows)
  = [f r].
Proof.
  intros Hid Hone. destruct (filter_singleton_In _ _ _ Hone) as [_ Hk].
  apply Z.eqb_eq in Hk. rewrite Hid, Hk.
  revert Hone. induction rows as [|b rows IH]; cbn; [discriminate|].
  destruct (BrokerDetails.id b =? k) eqn:E; cbn.
  - intros Hone. injection Hone as -> Hrest. rewrite Hid, Hk, Z.eqb_refl. f_equal.
    clear IH. induction rows as [|c rows IH]; cbn in *; [reflexivity|].
    destruct (BrokerDetails.id c =? k) eqn:E'; [discriminate|]. cbn. rewrite E'. auto.
  - rewrite E. exact IH.
Qed.

Lemma patched_store_nothing broker_id p db :
  supplies_nothing p = true -> patched_store broker_id p db = db.
Proof.
  intros H. unfold patched_store.
  replace (map _ (broker_details_rows db)) with (broker_details_rows db).
  - now destruct db.
  - rewrite <- (map_id (broker_details_rows db)) at 1. apply map_ext.
    intros b. destruct (_ =? _); [now rewrite patch_broker_nothing|reflexivity].
Qed.

Lemma patch_broker_id p b : BrokerDetails.id (patch_broker p b) = BrokerDetails.id b.
Proof. reflexivity. Qed.

(** C9.  [update_broker] under any schedule of database failures.  The
    committed store afterwards is either unchanged or the old one in
    which the broker with the given identity has the supplied fields of
    the patch and keeps every other field, all other rows being as they
    were.  If the call succeeds, the broker existed, the store is the
    patched one and the response shows the patched row.  With no failure:
    a nonexistent identity raises [NoResultFound] and changes nothing;
    an existing one whose new name no other broker holds succeeds. *)
Theorem update_broker_only_supplied_fields db fs now k broker_id patch :
  let out := DatasetService.update_broker broker_id patch (request db fs now k) in
  let db' := committed (snd out) in
  (db' = db \/ db' = patched_store broker_id patch db)
  /\ (forall resp, fst out = Ok resp ->
        exists b,
          filter (fun b => BrokerDetails.id b =? broker_id) (broker_details_rows db) = [b]
          /\ db' = patched_store broker_id patch db
          /\ resp = BrokerResponse.from_orm (patch_broker patch b))
  /\ (fs = [] ->
      filter (fun b => BrokerDetails.id b =? broker_id) (broker_details_rows db) = [] ->
      fst out = Raise (NoResultFound ("No BrokerDetails found for ID: " ++ str broker_id)%string)
      /\ db' = db)
  /\ (fs = [] ->
      forall b,
        filter (fun b => BrokerDetails.id b =? broker_id) (broker_details_rows db) = [b] ->
        name_taken (patch_broker patch b) db = false ->
        fst out = Ok (BrokerResponse.from_orm (patch_broker patch b))).
Proof.
  intros out db'. subst out db'.
  unfold DatasetService.update_broker, DatasetService._update_record.
  destruct (filter (fun b => BrokerDetails.id b =? broker_id) (broker_details_rows db))
    as [|b [|b' bs]] eqn:Hb.
  - cbn. fault_step; rewrite ?Hb; cbn.
    all: repeat split; try (left; reflexivity); try discriminate; try reflexivity.
    all: intros; congruence.
  - pose proof (update_by_pk_as_patch (patch_broker patch) broker_id b _
                  (patch_broker_id patch) Hb) as Hmap.
    pose proof (reload_patched (patch_broker patch) broker_id b _
                  (patch_broker_id patch) Hb) as Hreload.
    destruct (filter_singleton_In _ _ _ Hb) as [_ Hk]. apply Z.eqb_eq in Hk.
    rewrite patch_broker_id, Hk in Hmap, Hreload. unfold name_taken.
    cbn. fault_step; rewrite ?Hb; cbn; rewrite ?setattr_items_broker; cbn.
    all: destruct (supplies_nothing patch) eqn:Hnone; cbn.
    all: rewrite ?(patched_store_nothing broker_id patch db Hnone).
    all: try fault_step; rewrite ?patch_broker_id, ?Hk, ?Hb; cbn.
    all: try fault_step; rewrite ?patch_broker_id, ?Hk, ?Hb; cbn.
    all: unfold update_broker_row; cbn; rewrite ?patch_broker_id.
    all: try match goal with
         | |- context [if existsb ?p ?l then _ else _] => destruct (existsb p l) eqn:Hclash; cbn
         end.
    all: try fault_step; rewrite ?patch_broker_id, ?Hk, ?Hb, ?Hreload; cbn.
    all: try fault_step; rewrite ?patch_broker_id, ?Hk, ?Hb, ?Hreload; cbn.
    all: unfold patched_store; rewrite <- ?Hmap.
    all: repeat split; try (left; reflexivity); try (right; reflexivity);
      try discriminate; try reflexivity.
    all: try (intros; congruence).
    all: try (intros resp Hresp; injection Hresp as <-; exists b;
              rewrite ?(patch_broker_nothing patch b Hnone); repeat split; congruence).
    all: try (intros _ b0 Hb0 Hf; injection Hb0 as <-;
              rewrite ?patch_broker_id, ?Hk in *;
              rewrite ?(patch_broker_nothing patch b Hnone); congruence).
  - cbn. fault_step; rewrite ?Hb; cbn.
    all: repeat split; try (left; reflexivity); try discriminate; try reflexivity.
    all: intros; congruence.
Qed.

Lemma update_broker_only_supplied_fields_witness :
  fst (DatasetService.update_broker 1 (BrokerUpdate.mk None None (Some 9093))
         (request linked_db [] 200 quiet_kafka))
  = Ok (BrokerResponse.mk 1 "broker-1" (IPv4Address 2130706433) 9093 100)
  /\ committed (snd (DatasetService.update_broker 7 (BrokerUpdate.mk None None (Some 9093))
                       (request linked_db [] 200 quiet_kafka)))
     = linked_db.
Proof.
  split.
  - pose proof (update_broker_only_supplied_fields linked_db [] 200 quiet_kafka 1
                  (BrokerUpdate.mk None None (Some 9093))) as H.
    cbv zeta in H. destruct H as (_ & _ & _ & H).
    exact (H eq_refl _ eq_refl eq_refl).
  - pose proof (update_broker_only_supplied_fields linked_db [] 200 quiet_kafka 7
                  (BrokerUpdate.mk None None (Some 9093))) as H.
    cbv zeta in H. destruct H as (_ & _ & H & _).
    exact (proj2 (H eq_refl eq_refl)).
Defined.

(** ** Topic registry *)

(** When the pair (name, broker) is taken, no schedule of failures lets
    [register_topic] add a row. *)
Lemma register_topic_duplicate_adds_no_row db fs now k broker_id data :
  existsb (same_topic (TopicBase.name data) broker_id) (topic_details_rows db) = true ->
  committed (snd (DatasetService.register_topic broker_id data (request db fs now k))) = db.
Proof.
  intros Hdup. unfold DatasetService.register_topic, same_topic in *. cbn.
  fault_step; try reflexivity.
  all: destruct (filter _ (broker_details_rows db)) as [|b [|b' bs]]; cbn; try reflexivity.
  all: try fault_step; try reflexivity.
  all: unfold insert_topic; cbn; rewrite Hdup; cbn.
  all: repeat (first [fault_step | filter_step]); reflexivity.
Qed.

(** Where the name is in use under one broker only, the conflict names
    the existing topic. *)
Lemma register_topic_conflict_single_name db now k broker_id data b t :
  filter (fun b => BrokerDetails.id b =? broker_id) (broker_details_rows db) = [b] ->
  filter (fun t => (TopicDetails.topic_name t =? TopicBase.name data)%string)
    (topic_details_rows db) = [t] ->
  TopicDetails.broker_id t = broker_id ->
  fst (DatasetService.register_topic broker_id data (request db [] now k))
    = Raise (IntegrityError ("Topic id " ++ str (TopicDetails.id t) ++ " already exists.")%string
               (DBIntegrityError "unique_topic_per_broker")).
Proof.
  intros Hb Ht Hown.
  assert (Hdup : existsb (same_topic (TopicBase.name data) broker_id)
                   (topic_details_rows db) = true).
  { apply existsb_exists. exists t. destruct (filter_singleton_In _ _ _ Ht) as [Hin Hn].
    split; [exact Hin|]. unfold same_topic. rewrite Hn, Hown, Z.eqb_refl. reflexivity. }
  unfold DatasetService.register_topic, same_topic in *. cbn.
  rewrite Hb. cbn. unfold insert_topic. cbn. rewrite Hdup. cbn. rewrite Ht. cbn.
  reflexivity.
Qed.

(** Where the name is in use under several brokers, the lookup of the
    handler finds several rows and the conflict is never reported. *)
Lemma register_topic_conflict_shared_name db now k broker_id data b t1 t2 ts :
  filter (fun b => BrokerDetails.id b =? broker_id) (broker_details_rows db) = [b] ->
  existsb (same_topic (TopicBase.name data) broker_id) (topic_details_rows db) = true ->
  filter (fun t => (TopicDetails.topic_name t =? TopicBase.name data)%string)
    (topic_details_rows db) = t1 :: t2 :: ts ->
  DatasetService.register_topic broker_id data (request db [] now k)
  = (Raise MultipleResultsFound, request db [] now k).
Proof.
  intros Hb Hdup Ht.
  unfold DatasetService.register_topic, same_topic in *. cbn.
  rewrite Hb. cbn. unfold insert_topic. cbn. rewrite Hdup. cbn. rewrite Ht. cbn.
  reflexivity.
Qed.

(** C4.  [register_topic] on an existing broker that already has a topic of
    the given name: here the name is also in use under another broker.
    The handler looks the existing topic up by name alone, finds two rows,
    and the call ends in SQLAlchemy's [MultipleResultsFound] instead of the
    application's [IntegrityError] with the identity of the existing
    topic.  (No row is added; the store and the session end as they
    began.) *)
Theorem register_topic_conflict_name_shared_across_brokers :
  existsb (same_topic "telemetry" 2) (topic_details_rows telemetry_twice) = true
  /\ DatasetService.register_topic 2 (TopicBase.mk "telemetry" "{}")
       (request telemetry_twice [] 104 quiet_kafka)
     = (Raise MultipleResultsFound, request telemetry_twice [] 104 quiet_kafka).
Proof.
  split; reflexivity.
Qed.

Lemma topic_deregister_found db now k topic_id t :
  filter (fun t => TopicDetails.id t =? topic_id) (topic_details_rows db) = [t] ->
  DatasetService.topic_deregister topic_id (request db [] now k)
  = (Ok tt, mkWorld (delete_topic topic_id db)
              (mkSession (delete_topic topic_id db) [] [] [] true) [] now k []).
Proof.
  intros Ht. destruct (filter_singleton_In _ _ _ Ht) as [_ Hid].
  apply Z.eqb_eq in Hid.
  unfold DatasetService.topic_deregister. cbn. rewrite Ht. cbn. rewrite Hid.
  reflexivity.
Qed.

Lemma topic_deregister_absent db now k topic_id :
  filter (fun t => TopicDetails.id t =? topic_id) (topic_details_rows db) = [] ->
  DatasetService.topic_deregister topic_id (request db [] now k)
  = (Raise (NoResultFound ("Topic not found for the id " ++ str topic_id)%string),
     request db [] now k).
Proof.
  intros Ht. unfold DatasetService.topic_deregister. cbn. rewrite Ht. reflexivity.
Qed.

(** C6.  [topic_deregister] on a store whose topic identities are distinct,
    with no database failure.  If a topic has the identity, the call
    succeeds; afterwards the topic table is the old one without that row
    and the link table is the old one without the links whose [topic_id]
    is that identity; brokers and datasets are untouched, and if no link
    dangled before, none dangles after.  If no topic has the identity,
    the call raises [NoResultFound] and the store is unchanged. *)
Theorem topic_deregister_cascades_to_links db now k topic_id :
  NoDup (map TopicDetails.id (topic_details_rows db)) ->
  let out := DatasetService.topic_deregister topic_id (request db [] now k) in
  let db' := committed (snd out) in
  if existsb (fun t => TopicDetails.id t =? topic_id) (topic_details_rows db)
  then fst out = Ok tt
       /\ (forall t, In t (topic_details_rows db') <->
                     In t (topic_details_rows db) /\ TopicDetails.id t <> topic_id)
       /\ (forall l, In l (dataset_topic_details_rows db') <->
                     In l (dataset_topic_details_rows db)
                     /\ DatasetTopicDetails.topic_id l <> topic_id)
       /\ broker_details_rows db' = broker_details_rows db
       /\ dataset_info_rows db' = dataset_info_rows db
       /\ (no_dangling_link db -> no_dangling_link db')
  else fst out = Raise (NoResultFound ("Topic not found for the id " ++ str topic_id)%string)
       /\ db' = db.
Proof.
  intros Hpk out db'.
  destruct (existsb _ (topic_details_rows db)) eqn:Hex.
  - assert (Hone : exists t, filter (fun t => TopicDetails.id t =? topic_id)
                               (topic_details_rows db) = [t]).
    { clear out db'. induction (topic_details_rows db) as [|x xs IH]; [discriminate|].
      cbn in *. inversion Hpk as [|? ? Hnotin Hpk']; subst.
      destruct (Z.eqb_spec (TopicDetails.id x) topic_id) as [Heq|Hne].
      - exists x. f_equal. apply existsb_false_filter.
        destruct (existsb _ xs) eqn:E; [|reflexivity].
        apply existsb_exists in E. destruct E as (y & Hy & Hyid).
        apply Z.eqb_eq in Hyid. exfalso. apply Hnotin. rewrite Heq, <- Hyid.
        now apply in_map.
      - cbn in Hex. exact (IH Hpk' Hex). }
    destruct Hone as [t Ht].
    subst out db'. rewrite (topic_deregister_found db now k topic_id t Ht). cbn.
    assert (Htopics : forall x, In x (topic_details_rows (delete_topic topic_id db)) <->
                         In x (topic_details_rows db) /\ TopicDetails.id x <> topic_id).
    { intros x. unfold delete_topic. cbn. rewrite filter_In, negb_true_iff, Z.eqb_neq. tauto. }
    assert (Hlinks : forall l, In l (dataset_topic_details_rows (delete_topic topic_id db)) <->
                        In l (dataset_topic_details_rows db)
                        /\ DatasetTopicDetails.topic_id l <> topic_id).
    { intros l. unfold delete_topic. cbn. rewrite filter_In, negb_true_iff, Z.eqb_neq. tauto. }
    repeat split; try apply Htopics; try apply Hlinks; auto.
    intros Hwf l Hl. apply Hlinks in Hl. destruct Hl as [Hl Hne].
    destruct (Hwf l Hl) as (x & Hx & Hxid). exists x. split; [|exact Hxid].
    apply Htopics. split; [exact Hx|]. now rewrite Hxid.
  - subst out db'.
    rewrite (topic_deregister_absent db now k topic_id
               (existsb_false_filter _ _ Hex)).
    split; reflexivity.
Qed.

Lemma topic_deregister_cascades_to_links_witness :
  fst (DatasetService.topic_deregister 1 (request linked_db [] 200 quiet_kafka)) = Ok tt
  /\ dataset_topic_details_rows
       (committed (snd (DatasetService.topic_deregister 1
                          (request linked_db [] 200 quiet_kafka)))) = [].
Proof.
  assert (Hpk : NoDup (map TopicDetails.id (topic_details_rows linked_db))).
  { cbn. constructor; [intros []|constructor]. }
  pose proof (topic_deregister_cascades_to_links linked_db 200 quiet_kafka 1 Hpk) as H.
  cbv zeta in H.
  change (existsb (fun t => TopicDetails.id t =? 1) (topic_details_rows linked_db))
    with true in H.
  destruct H as (H & _). split; [exact H|reflexivity].
Defined.

(** ** Dataset-topic linker *)

Lemma in_0_1_2_enum e : in_0_1_2 (DatasetTypeEnum_value e) = true.
Proof. now destruct e. Qed.

(** C1.  [register_dataset_message_details] with a [broker_id] and a
    [topic_id] that each resolve to one row, under any schedule of
    database failures.  If one of the five round trips of the write (the
    two lookups, the flush of the dataset, the flush of the link, COMMIT)
    fails, the committed store is unchanged and the call raises.
    Otherwise the committed store is the old one with exactly one more
    dataset row, of source type broker, and exactly one more link row,
    which references that dataset and the given topic; and if nothing
    fails at all the call returns the composite view of the new dataset,
    the broker and the topic. *)
Theorem register_dataset_message_details_atomic db fs now k data b t :
  filter (fun b => BrokerDetails.id b =? DatasetBrokerTopicBase.broker_id data)
    (broker_details_rows db) = [b] ->
  filter (fun t => TopicDetails.id t =? DatasetBrokerTopicBase.topic_id data)
    (topic_details_rows db) = [t] ->
  let out := DatasetService.register_dataset_message_details data (request db fs now k) in
  let db' := committed (snd out) in
  let d := new_dataset_row db data now in
  let l := new_link_row db data now in
  if fails_within write_round_trips fs
  then db' = db /\ exists e, fst out = Raise e
  else db' = with_dataset_and_link db d l
       /\ DatasetInfo.data_source_type d = const.BROKER_DATA_SOURCE_TYPE
       /\ DatasetTopicDetails.dataset_id l = DatasetInfo.id d
       /\ DatasetTopicDetails.topic_id l = DatasetBrokerTopicBase.topic_id data
       /\ (fails_within (List.length fs) fs = false ->
           fst out = Ok (DatasetService.dataset_message_response
                           (DatasetService.dataset_attrs d)
                           (BrokerResponse.from_orm b) (TopicResponse.from_orm t))).
Proof.
  intros Hb Ht out db' d l. subst out db' d l.
  destruct (filter_singleton_In _ _ _ Hb) as [_ Hbid]. apply Z.eqb_eq in Hbid.
  destruct (filter_singleton_In _ _ _ Ht) as [_ Htid]. apply Z.eqb_eq in Htid.
  pose proof (filter_cons_existsb _ _ _ _ Ht) as Htex.
  unfold DatasetService.register_dataset_message_details, fails_within, write_round_trips.
  repeat (progress (cbn; unfold insert_dataset, insert_link; cbn;
    rewrite ?Hbid, ?Htid, ?Hb, ?Ht, ?in_0_1_2_enum, ?Htex, ?existsb_app, ?filter_app,
      ?next_id_fresh, ?Z.eqb_refl, ?orb_true_r;
    try fault_step)).
  all: repeat split; try reflexivity; eauto; try discriminate.
Qed.

Lemma register_dataset_message_details_atomic_witness :
  committed (snd (DatasetService.register_dataset_message_details matched_registration
                    (request telemetry_twice [] 104 quiet_kafka)))
  = with_dataset_and_link telemetry_twice
      (new_dataset_row telemetry_twice matched_registration 104)
      (new_link_row telemetry_twice matched_registration 104)
  /\ committed (snd (DatasetService.register_dataset_message_details matched_registration
                       (request telemetry_twice [false; false; false; true] 104 quiet_kafka)))
     = telemetry_twice.
Proof.
  split.
  - pose proof (register_dataset_message_details_atomic telemetry_twice [] 104 quiet_kafka
                  matched_registration _ _ eq_refl eq_refl) as H.
    cbv zeta in H. change (fails_within write_round_trips []) with false in H.
    exact (proj1 H).
  - pose proof (register_dataset_message_details_atomic telemetry_twice
                  [false; false; false; true] 104 quiet_kafka
                  matched_registration _ _ eq_refl eq_refl) as H.
    cbv zeta in H.
    change (fails_within write_round_trips [false; false; false; true]) with true in H.
    exact (proj1 H).
Defined.

(** Whatever the payload and whatever fails, the call leaves the store
    as it was or with both rows added. *)
Lemma register_dataset_message_details_all_or_nothing db fs now k data :
  let db' :=
    committed (snd (DatasetService.register_dataset_message_details data
                      (request db fs now k))) in
  db' = db
  \/ db' = with_dataset_and_link db (new_dataset_row db data now) (new_link_row db data now).
Proof.
  unfold DatasetService.register_dataset_message_details.
  repeat (progress (cbn; unfold insert_dataset, insert_link; cbn;
    rewrite ?in_0_1_2_enum, ?existsb_app, ?Z.eqb_refl, ?orb_true_r;
    try first [fault_step | filter_step
              | match goal with
                | |- context [if negb (existsb ?p ?l) then _ else _] =>
                    destruct (existsb p l); cbn
                end])).
  all: try (left; reflexivity).
  all: try (right; reflexivity).
Qed.

Lemma filter_filter_and {R} (p q : R -> bool) (rows : list R) :
  filter q (filter p rows) = filter (fun x => p x && q x) rows.
Proof.
  induction rows as [|r rows IH]; cbn; [reflexivity|].
  destruct (p r); cbn; [destruct (q r)|]; now rewrite IH.
Qed.

Lemma NoDup_map_same_key {R} (pk : R -> Z) (rows : list R) x y :
  NoDup (map pk rows) -> In x rows -> In y rows -> pk x = pk y -> x = y.
Proof.
  induction rows as [|r rows IH]; cbn; [tauto|].
  intros Hnd Hx Hy Hk. inversion Hnd as [|? ? Hnotin Hnd']; subst.
  destruct Hx as [->|Hx], Hy as [->|Hy]; auto.
  - exfalso. apply Hnotin. rewrite Hk. now apply in_map.
  - exfalso. apply Hnotin. rewrite <- Hk. now apply in_map.
Qed.

(** Deleting the link first and the dataset next leaves what the
    dataset's own cascade leaves. *)
Lemma delete_link_then_dataset db l dataset_id :
  NoDup (map DatasetTopicDetails.id (dataset_topic_details_rows db)) ->
  In l (dataset_topic_details_rows db) ->
  DatasetTopicDetails.dataset_id l = dataset_id ->
  delete_dataset dataset_id (delete_link (DatasetTopicDetails.id l) db)
  = delete_dataset dataset_id db.
Proof.
  intros Hpk Hin Hl. unfold delete_dataset, delete_link. cbn.
  unfold set_dataset_info, set_dataset_topic_details. cbn. f_equal.
  rewrite filter_filter_and. apply filter_ext_in. intros x Hx.
  destruct (Z.eqb_spec (DatasetTopicDetails.id x) (DatasetTopicDetails.id l)) as [Hk|_];
    [|reflexivity].
  rewrite (NoDup_map_same_key _ _ x l Hpk Hx Hin Hk), Hl, Z.eqb_refl. reflexivity.
Qed.

Lemma delete_dataset_absent db dataset_id :
  (forall d, In d (dataset_info_rows (delete_dataset dataset_id db)) ->
             DatasetInfo.id d <> dataset_id)
  /\ (forall l, In l (dataset_topic_details_rows (delete_dataset dataset_id db)) ->
                DatasetTopicDetails.dataset_id l <> dataset_id).
Proof.
  split; intros x Hx; unfold delete_dataset in Hx; cbn in Hx; apply filter_In in Hx; destruct Hx as [_ Hx];
    now apply negb_true_iff, Z.eqb_neq in Hx.
Qed.

(** C7.  [dataset_message_deregister] on a store whose link identities are
    distinct, under any schedule of database failures.  The committed
    store afterwards is either unchanged or the old one without the
    dataset and without the links of the dataset, never one without the
    other.  If the call succeeds, a dataset with that identity and source
    type broker existed, and afterwards no dataset has the identity and
    no link references it.  With no failure: if no dataset has that
    identity and source type broker (none at all, or a file or table
    dataset), the call raises [NoResultFound] and deletes nothing; and
    if exactly one does and it has at most one link, the call succeeds. *)
Theorem dataset_message_deregister_atomic db fs now k dataset_id :
  NoDup (map DatasetTopicDetails.id (dataset_topic_details_rows db)) ->
  let out := DatasetService.dataset_message_deregister dataset_id (request db fs now k) in
  let db' := committed (snd out) in
  (db' = db \/ db' = delete_dataset dataset_id db)
  /\ (fst out = Ok tt ->
      existsb (broker_sourced dataset_id) (dataset_info_rows db) = true
      /\ db' = delete_dataset dataset_id db
      /\ (forall d, In d (dataset_info_rows db') -> DatasetInfo.id d <> dataset_id)
      /\ (forall l, In l (dataset_topic_details_rows db') ->
                    DatasetTopicDetails.dataset_id l <> dataset_id))
  /\ (fs = [] ->
      existsb (broker_sourced dataset_id) (dataset_info_rows db) = false ->
      fst out = Raise (NoResultFound ("Dataset not found for id " ++ str dataset_id)%string)
      /\ db' = db)
  /\ (fs = [] ->
      forall d, filter (broker_sourced dataset_id) (dataset_info_rows db) = [d] ->
      (List.length (filter (fun l => (DatasetTopicDetails.dataset_id l =? dataset_id)%Z)
                      (dataset_topic_details_rows db)) <= 1)%nat ->
      fst out = Ok tt).
Proof.
  intros Hpk out db'. subst out db'.
  unfold DatasetService.dataset_message_deregister.
  change (fun d => (DatasetInfo.id d =? dataset_id)
                   && (DatasetInfo.data_source_type d =? const.BROKER_DATA_SOURCE_TYPE))
    with (broker_sourced dataset_id).
  pose proof (delete_dataset_absent db dataset_id) as [Habs1 Habs2].
  destruct (filter (broker_sourced dataset_id) (dataset_info_rows db))
    as [|d [|d' ds]] eqn:Hd.
  - (* no such dataset *)
    pose proof (filter_nil_existsb _ _ Hd) as Hex.
    cbn. fault_step; rewrite ?Hd; cbn.
    all: repeat split; try (left; reflexivity); try discriminate; try reflexivity.
    all: try (intros; congruence).
  - (* the dataset is there *)
    pose proof (filter_cons_existsb _ _ _ _ Hd) as Hex.
    destruct (filter_singleton_In _ _ _ Hd) as [_ Hdid].
    unfold broker_sourced in Hdid. apply andb_prop in Hdid. destruct Hdid as [Hdid _].
    apply Z.eqb_eq in Hdid.
    destruct (filter (fun l => DatasetTopicDetails.dataset_id l =? dataset_id)
                (dataset_topic_details_rows db)) as [|l [|l' ls]] eqn:Hl.
    all: cbn.
    + fault_step; rewrite ?Hd; cbn; rewrite ?Hdid; try fault_step; rewrite ?Hl; cbn;
        try fault_step; try fault_step; rewrite ?Hdid.
      all: repeat split; try (left; reflexivity); try (right; reflexivity);
        try discriminate; try reflexivity; auto.
      all: try (intros; congruence).
    + destruct (filter_singleton_In _ _ _ Hl) as [Hlin Hlid]. apply Z.eqb_eq in Hlid.
      pose proof (delete_link_then_dataset db l dataset_id Hpk Hlin Hlid) as Heq.
      fault_step; rewrite ?Hd; cbn; rewrite ?Hdid; try fault_step; rewrite ?Hl; cbn;
        try fault_step; try fault_step; rewrite ?Hdid, ?Heq.
      all: repeat split; try (left; reflexivity); try (right; reflexivity);
        try discriminate; try reflexivity; auto.
      all: try (intros; congruence).
    + fault_step; rewrite ?Hd; cbn; rewrite ?Hdid; try fault_step; rewrite ?Hl; cbn;
        try fault_step; try fault_step; rewrite ?Hdid.
      all: repeat split; try (left; reflexivity); try (right; reflexivity);
        try discriminate; try reflexivity; auto.
      all: try (intros; congruence).
      all: try (intros; cbn in *; lia).
  - (* primary key of dataset_info broken: MultipleResultsFound *)
    pose proof (filter_cons_existsb _ _ _ _ Hd) as Hex.
    cbn. fault_step; rewrite ?Hd; cbn.
    all: repeat split; try (left; reflexivity); try discriminate; try reflexivity; auto.
    all: try (intros; congruence).
Qed.

Lemma dataset_message_deregister_atomic_witness :
  fst (DatasetService.dataset_message_deregister 5 (request linked_db [] 200 quiet_kafka))
  = Ok tt
  /\ fst (DatasetService.dataset_message_deregister 4 (request linked_db [] 200 quiet_kafka))
     = Raise (NoResultFound "Dataset not found for id 4").
Proof.
  assert (Hpk : NoDup (map DatasetTopicDetails.id (dataset_topic_details_rows linked_db))).
  { cbn. constructor; [intros []|constructor]. }
  split.
  - pose proof (dataset_message_deregister_atomic linked_db [] 200 quiet_kafka 5 Hpk) as H.
    cbv zeta in H. destruct H as (_ & _ & _ & H).
    apply (H eq_refl (DatasetInfo.mk 5 0 2 "sensor-ds" "desc" 0 102 102 0) eq_refl).
    cbn. lia.
  - pose proof (dataset_message_deregister_atomic linked_db [] 200 quiet_kafka 4 Hpk) as H.
    cbv zeta in H. destruct H as (_ & _ & H & _).
    exact (proj1 (H eq_refl eq_refl)).
Defined.

(** ** Stream reader *)

Lemma open_consumers_app log1 log2 :
  open_consumers (log1 ++ log2) = open_consumers log1 + open_consumers log2.
Proof.
  induction log1 as [|[| |] log1 IH]; cbn [app open_consumers]; lia.
Qed.

(** The lookups touch neither the Kafka environment nor its log. *)
Lemma get_topic_and_broker_details_kafka dataset_id w :
  kafka_log (snd (DatasetService._get_topic_and_broker_details dataset_id w)) = kafka_log w
  /\ kafka (snd (DatasetService._get_topic_and_broker_details dataset_id w)) = kafka w.
Proof.
  destruct w as [c [tx os di de [|]] fs clk k log];
    unfold DatasetService._get_topic_and_broker_details; cbn; [|split; reflexivity].
  repeat (first [fault_step | filter_step]); split; reflexivity.
Qed.

Lemma get_topic_and_broker_details_resolved db now k dataset_id l t b :
  filter (fun l => DatasetTopicDetails.dataset_id l =? dataset_id)
    (dataset_topic_details_rows db) = [l] ->
  filter (fun t => TopicDetails.id t =? DatasetTopicDetails.topic_id l)
    (topic_details_rows db) = [t] ->
  filter (fun b => BrokerDetails.id b =? TopicDetails.broker_id t)
    (broker_details_rows db) = [b] ->
  DatasetService._get_topic_and_broker_details dataset_id (request db [] now k)
  = (Ok (BrokerTopicDetails.mk (TopicDetails.topic_name t) (BrokerDetails.broker_ip b)
           (BrokerDetails.broker_port b)),
     request db [] now k).
Proof.
  intros Hl Ht Hb. unfold DatasetService._get_topic_and_broker_details. cbn.
  rewrite Hl. cbn. rewrite Ht. cbn. rewrite Hb. reflexivity.
Qed.

Section StreamFacts.

Variable Json : Type.
Variable value_deserializer : string -> option Json.


Lemma fetch_stream_data_log td offset arg w :
  let out := __fetch_stream_data Json value_deserializer td offset arg w in
  kafka_log (snd out) = kafka_log w
  \/ kafka_log (snd out)
     = kafka_log w
       ++ [Opened (BrokerTopicDetails.topic_name td) (BrokerTopicDetails.broker_ip td)
             (BrokerTopicDetails.broker_port td) offset;
           Polled const.STREAM_TIMEOUT
             (match arg with None => Some const.DEFAULT_STREAM_DATA_COUNT | Some n => n end);
           Closed].
Proof.
  destruct w as [c s fs clk k log]. unfold __fetch_stream_data, KafkaConsumer_init, poll, close.
  cbn. destruct (bootstrap_ok k); cbn; [right|left; reflexivity].
  rewrite <- !app_assoc. cbn.
  repeat match goal with
         | |- context [if ?b then _ else _] => destruct b; cbn
         | |- context [match fetched_records ?a ?b ?c ?d with _ => _ end] =>
             destruct (fetched_records a b c d) as [[|? ?]|]; cbn
         end; rewrite <- ?app_assoc; reflexivity.
Qed.

(** C2.  Every run of [fetch_dataset_topic_data], from any state of the
    world and whatever the outcome (records returned, no message, an
    exception while polling or decoding, a lookup that fails), either
    opens no consumer session or appends exactly an opening, one poll
    and a closing to the log of the Kafka client; so the number of open
    consumer sessions after the call is what it was before. *)
Theorem fetch_dataset_topic_data_closes_consumer dataset_id no_of_records offset w :
  let out :=
    fetch_dataset_topic_data Json value_deserializer dataset_id no_of_records offset w in
  (kafka_log (snd out) = kafka_log w
   \/ exists topic ip port,
        kafka_log (snd out)
        = kafka_log w
          ++ [Opened topic ip port offset;
              Polled const.STREAM_TIMEOUT no_of_records;
              Closed])
  /\ open_consumers (kafka_log (snd out)) = open_consumers (kafka_log w).
Proof.
  intros out.
  assert (Hshape :
    kafka_log (snd out) = kafka_log w
    \/ exists topic ip port,
         kafka_log (snd out)
         = kafka_log w
           ++ [Opened topic ip port offset;
               Polled const.STREAM_TIMEOUT no_of_records;
               Closed]).
  { subst out. unfold fetch_dataset_topic_data. cbn.
    destruct (get_topic_and_broker_details_kafka dataset_id w) as [Hlog _].
    destruct (DatasetService._get_topic_and_broker_details dataset_id w) as [[td|e] w1].
    - cbn in Hlog.
      pose proof (fetch_stream_data_log td offset (Some no_of_records) w1) as Hs.
      cbv zeta in Hs.
      destruct (__fetch_stream_data Json value_deserializer td offset
                  (Some no_of_records) w1) as [[rs|e] w2]; cbn in *.
      + rewrite Hlog in Hs. destruct Hs as [Hs|Hs]; [left|right]; eauto.
      + rewrite Hlog in Hs.
        destruct (is_NoRowFound e), (is_NoMessagesFound e); cbn;
          (destruct Hs as [Hs|Hs]; [left|right]; eauto).
    - cbn in Hlog. destruct (is_NoRowFound e), (is_NoMessagesFound e); cbn; left; exact Hlog. }
  split; [exact Hshape|].
  destruct Hshape as [->|(topic & ip & port & ->)]; [reflexivity|].
  rewrite open_consumers_app. cbn. lia.
Qed.


Lemma deserialize_all_length tp payloads rs :
  deserialize_all Json value_deserializer tp payloads = Some rs ->
  List.length rs = List.length payloads.
Proof.
  revert rs. induction payloads as [|x payloads IH]; intros rs; cbn.
  - intros [= <-]. reflexivity.
  - destruct (value_deserializer x); [|discriminate].
    destruct (deserialize_all _ _ tp payloads); [|discriminate].
    intros [= <-]. cbn. f_equal. now apply IH.
Qed.

Lemma fetched_records_nothing remaining parts :
  (forall p, In p parts -> snd p = []) ->
  fetched_records Json value_deserializer remaining parts = Some [].
Proof.
  induction parts as [|[tp payloads] parts IH]; intros Hempty; cbn; [reflexivity|].
  destruct remaining as [|n]; [reflexivity|].
  rewrite (Hempty (tp, payloads) (or_introl eq_refl) : payloads = []). cbn.
  apply IH. intros p Hp. apply Hempty. now right.
Qed.

(** Every partition that a poll hands out carries a record. *)
Lemma fetched_records_nonempty parts : forall remaining messages,
  fetched_records Json value_deserializer remaining parts = Some messages ->
  Forall (fun p => snd p <> []) messages.
Proof.
  induction parts as [|[tp payloads] parts IH]; intros remaining messages; cbn.
  - intros [= <-]. constructor.
  - destruct remaining as [|n]; [intros [= <-]; constructor|].
    destruct (deserialize_all _ _ tp payloads) as [unpacked|]; [|discriminate].
    destruct (firstn (S n) unpacked) as [|x xs] eqn:E; [apply IH|].
    destruct (fetched_records _ _ _ parts) as [drained|] eqn:F; [|discriminate].
    intros [= <-]. constructor; [discriminate|]. exact (IH _ _ F).
Qed.

(** One poll hands out no more records than its cap. *)
Lemma fetched_records_bound parts : forall remaining messages,
  fetched_records Json value_deserializer remaining parts = Some messages ->
  (List.length (flat_map snd messages) <= remaining)%nat.
Proof.
  induction parts as [|[tp payloads] parts IH]; intros remaining messages; cbn.
  - intros [= <-]. cbn. lia.
  - destruct remaining as [|n]; [intros [= <-]; cbn; lia|].
    destruct (deserialize_all _ _ tp payloads) as [unpacked|]; [|discriminate].
    destruct (firstn (S n) unpacked) as [|x xs] eqn:E; [apply IH|].
    destruct (fetched_records _ _ _ parts) as [drained|] eqn:F; [|discriminate].
    intros [= <-]. cbn [flat_map snd]. rewrite length_app.
    pose proof (firstn_le_length (S n) unpacked) as Hle. rewrite E in Hle.
    pose proof (IH _ _ F) as Hd. cbn in *. lia.
Qed.

Lemma consumer_records_length (messages : list (Z * list (ConsumerRecord Json))) :
  List.length (flat_map (fun pm => map value (snd pm)) messages)
  = List.length (flat_map snd messages).
Proof.
  induction messages as [|[tp rs] messages IH]; cbn; [reflexivity|].
  now rewrite !length_app, length_map, IH.
Qed.

(** What one read of the stream can return: at most the cap of its
    poll, and never an empty list. *)
Lemma fetch_stream_data_records td offset no_of_records w rs :
  fst (__fetch_stream_data Json value_deserializer td offset (Some no_of_records) w) = Ok rs ->
  rs <> [] /\ Z.of_nat (List.length rs) <= poll_cap (kafka w) no_of_records.
Proof.
  destruct w as [c s fs clk k log].
  unfold __fetch_stream_data, KafkaConsumer_init, poll, close, poll_cap. cbn.
  destruct (bootstrap_ok k); cbn; [|discriminate].
  destruct (0 <? _) eqn:Hpos; cbn; [|discriminate].
  set (cap := match no_of_records with Some n => n | None => max_poll_records k end) in *.
  set (parts := if fetch_ok k then _ else _).
  destruct (fetched_records _ _ (Z.to_nat cap) parts) as [messages|] eqn:E; cbn;
    [|discriminate].
  pose proof (fetched_records_bound _ _ _ E) as Hbound.
  pose proof (fetched_records_nonempty _ _ _ E) as Hne.
  destruct messages as [|[tp recs] messages]; cbn; [discriminate|].
  intros [= <-]. split.
  - inversion Hne as [|? ? Hp _]; subst. cbn in Hp.
    destruct recs; [contradiction|discriminate].
  - pose proof (consumer_records_length ((tp, recs) :: messages)) as Hlen.
    cbn in Hlen, Hbound. rewrite Hlen. apply Z.ltb_lt in Hpos. lia.
Qed.

(** A successful read returns a non-empty window, counted right and
    within the cap of its poll. *)
Lemma fetch_dataset_topic_data_window dataset_id no_of_records offset w result :
  fst (fetch_dataset_topic_data Json value_deserializer dataset_id no_of_records offset w)
    = Ok result ->
  records result <> []
  /\ record_count result = Z.of_nat (List.length (records result))
  /\ record_count result <= poll_cap (kafka w) no_of_records.
Proof.
  unfold fetch_dataset_topic_data. cbn.
  destruct (get_topic_and_broker_details_kafka dataset_id w) as [_ Hk].
  destruct (DatasetService._get_topic_and_broker_details dataset_id w) as [[td|e] w1];
    cbn in *.
  - pose proof (fetch_stream_data_records td offset no_of_records w1) as Hs.
    destruct (__fetch_stream_data Json value_deserializer td offset
                (Some no_of_records) w1) as [[rs|e] w2]; cbn in *.
    + intros [= <-]. cbn. destruct (Hs rs eq_refl) as [Hne Hcap].
      rewrite Hk in Hcap. auto.
    + destruct (is_NoRowFound e), (is_NoMessagesFound e); discriminate.
  - destruct (is_NoRowFound e), (is_NoMessagesFound e); discriminate.
Qed.

(** C8.  [fetch_dataset_topic_data] on a dataset whose link, topic and
    broker resolve, with the bootstrap server answering, the fetch not
    failing, a positive cap and no database failure: if no record
    arrives within the poll, the call raises [NoMessagesFound] for the
    topic, an exception that is not a [NoResultFound], and the consumer
    session is closed. *)
Theorem fetch_dataset_topic_data_no_messages
    db now k dataset_id no_of_records offset l t b :
  filter (fun l => DatasetTopicDetails.dataset_id l =? dataset_id)
    (dataset_topic_details_rows db) = [l] ->
  filter (fun t => TopicDetails.id t =? DatasetTopicDetails.topic_id l)
    (topic_details_rows db) = [t] ->
  filter (fun b => BrokerDetails.id b =? TopicDetails.broker_id t)
    (broker_details_rows db) = [b] ->
  bootstrap_ok k = true ->
  fetch_ok k = true ->
  0 < poll_cap k no_of_records ->
  (forall p, In p (arrivals k (TopicDetails.topic_name t) offset) -> snd p = []) ->
  let out :=
    fetch_dataset_topic_data Json value_deserializer dataset_id no_of_records offset
      (request db [] now k) in
  fst out = Raise (NoMessagesFound
                     ("No messages in stream topic: " ++ TopicDetails.topic_name t)%string)
  /\ is_NoRowFound (NoMessagesFound
                      ("No messages in stream topic: " ++ TopicDetails.topic_name t)%string)
     = false
  /\ kafka_log (snd out)
     = [Opened (TopicDetails.topic_name t) (BrokerDetails.broker_ip b)
          (BrokerDetails.broker_port b) offset;
        Polled const.STREAM_TIMEOUT no_of_records;
        Closed].
Proof.
  intros Hl Ht Hb Hboot Hfetch Hcap Hzero out. subst out.
  unfold fetch_dataset_topic_data, try_except, bind.
  rewrite (get_topic_and_broker_details_resolved db now k dataset_id l t b Hl Ht Hb).
  unfold __fetch_stream_data, KafkaConsumer_init, poll, close, poll_cap in *. cbn.
  rewrite Hboot. cbn. rewrite Hfetch.
  apply Z.ltb_lt in Hcap. rewrite Hcap. cbn.
  rewrite (fetched_records_nothing _ _ Hzero). cbn.
  repeat split; reflexivity.
Qed.

End StreamFacts.

(** The exit paths of one read, on dataset 5 of [linked_db]: records
    returned, no message, a payload that does not decode, a fetch that is
    not answered, and a broker that does not answer. *)
Lemma fetch_dataset_topic_data_exit_paths :
  let session_log :=
    [Opened "telemetry" (IPv4Address 2130706433) 9092 const.EARLIEST;
     Polled const.STREAM_TIMEOUT (Some 2);
     Closed] in
  let run (deserializer : string -> option string) (k : KafkaEnv) :=
    fetch_dataset_topic_data string deserializer 5 (Some 2) const.EARLIEST
      (request linked_db [] 200 k) in
  (fst (run raw_payload busy_kafka)
     = Ok (mkDatasetTopicData string 5 ["{}"; "{}"] 2 "telemetry")
   /\ kafka_log (snd (run raw_payload busy_kafka)) = session_log)
  /\ (fst (run raw_payload quiet_kafka)
        = Raise (NoMessagesFound "No messages in stream topic: telemetry")
      /\ kafka_log (snd (run raw_payload quiet_kafka)) = session_log)
  /\ (fst (run malformed_payload busy_kafka) = Raise DeserializeError
      /\ kafka_log (snd (run malformed_payload busy_kafka)) = session_log)
  /\ (fst (run raw_payload failing_kafka)
        = Raise (NoMessagesFound "No messages in stream topic: telemetry")
      /\ kafka_log (snd (run raw_payload failing_kafka)) = session_log)
  /\ (fst (run raw_payload unreachable_kafka) = Raise NoBrokersAvailable
      /\ kafka_log (snd (run raw_payload unreachable_kafka)) = []).
Proof.
  vm_compute. repeat split; reflexivity.
Qed.

Lemma fetch_dataset_topic_data_no_messages_witness :
  fst (fetch_dataset_topic_data string raw_payload 5 (Some 10) const.LATEST
         (request linked_db [] 200 quiet_kafka))
  = Raise (NoMessagesFound "No messages in stream topic: telemetry").
Proof.
  assert (Hcap : 0 < poll_cap quiet_kafka (Some 10)) by (cbn; lia).
  assert (Hzero : forall p : Z * list string,
             In p (arrivals quiet_kafka "telemetry" const.LATEST) -> snd p = [])
    by (intros p []).
  exact (proj1 (fetch_dataset_topic_data_no_messages string raw_payload
                  linked_db 200 quiet_kafka 5 (Some 10) const.LATEST
                  _ _ _ eq_refl eq_refl eq_refl eq_refl eq_refl Hcap Hzero)).
Defined.

(** C3.  [GET /datasets/5/topic/data] without [no_of_records], on a topic
    with 201 messages waiting and a client left at its default
    [max_poll_records] of 500.  The service passes [None] on to
    [__fetch_stream_data], whose default of 200 is therefore not used;
    the poll runs with [max_records=None] and the response carries 201
    records, more than [DEFAULT_STREAM_DATA_COUNT]. *)
Theorem fetch_datasets_topic_data_unspecified_count :
  let out :=
    fetch_datasets_topic_data string raw_payload 5 None None
      (request linked_db [] 200 busy_kafka) in
  exists resp,
    fst out = inr resp
    /\ status_code resp = 200
    /\ record_count (data resp) = 201
    /\ List.length (records (data resp)) = 201%nat
    /\ const.DEFAULT_STREAM_DATA_COUNT < record_count (data resp)
    /\ kafka_log (snd out)
       = [Opened "telemetry" (IPv4Address 2130706433) 9092 const.LATEST;
          Polled const.STREAM_TIMEOUT None;
          Closed].
Proof.
  vm_compute. eexists. repeat split; reflexivity.
Qed.

(** * Further properties of the registry, the listings and the stream reader *)

(** ** Topic registration *)

(** X1.  [register_topic] for a broker identity that no broker of the
    store has: under every schedule of database failures nothing is
    written, and with no failure the call raises the application's
    [NoResultFound] with the message of the [except NoRowFound] clause,
    "Broker Id <id> not found." (the application's exception raised in the
    body is a subclass of SQLAlchemy's and is caught by that clause, which
    replaces its message "Broker with name <id> not found."). *)
Theorem register_topic_unknown_broker db fs now k broker_id data :
  filter (fun b => BrokerDetails.id b =? broker_id) (broker_details_rows db) = [] ->
  let out := DatasetService.register_topic broker_id data (request db fs now k) in
  committed (snd out) = db
  /\ (fs = [] ->
      fst out = Raise (NoResultFound ("Broker Id " ++ str broker_id ++ " not found.")%string)).
Proof.
  intros Hb out. subst out. unfold DatasetService.register_topic. cbn.
  fault_step; rewrite ?Hb; cbn; split; try reflexivity; try discriminate.
Qed.

Lemma register_topic_unknown_broker_witness :
  fst (DatasetService.register_topic 111 (TopicBase.mk "topic2" "{}")
         (request linked_db [] 200 quiet_kafka))
  = Raise (NoResultFound "Broker Id 111 not found.").
Proof.
  exact (proj2 (register_topic_unknown_broker linked_db [] 200 quiet_kafka 111
                  (TopicBase.mk "topic2" "{}") eq_refl) eq_refl).
Defined.

(** X2.  [register_topic] on an existing broker with a name that no topic
    of that broker has, and no database failure: the call returns the new
    topic, which carries the payload's name and schema, the given broker
    and the next identity of the topic table, and the committed store is
    the old one with exactly that row appended. *)
Theorem register_topic_fresh_pair db now k broker_id data b :
  filter (fun b => BrokerDetails.id b =? broker_id) (broker_details_rows db) = [b] ->
  existsb (same_topic (TopicBase.name data) broker_id) (topic_details_rows db) = false ->
  let out := DatasetService.register_topic broker_id data (request db [] now k) in
  let row := new_topic_row db broker_id data now in
  fst out = Ok (TopicResponse.from_orm row)
  /\ committed (snd out) = set_topic_details (topic_details_rows db ++ [row]) db.
Proof.
  intros Hb Hfresh out row. subst out row.
  pose proof (filter_cons_existsb _ _ _ _ Hb) as Hbex.
  unfold DatasetService.register_topic, same_topic, new_topic_row in *. cbn.
  rewrite Hb. cbn. unfold insert_topic. cbn. rewrite Hfresh, Hbex. cbn.
  rewrite filter_app, next_id_fresh. cbn. rewrite Z.eqb_refl. cbn.
  split; reflexivity.
Qed.

Lemma register_topic_fresh_pair_witness :
  fst (DatasetService.register_topic 1 (TopicBase.mk "metrics" "{}")
         (request telemetry_twice [] 104 quiet_kafka))
  = Ok (TopicResponse.mk 3 "metrics" "{}" 1 104).
Proof.
  exact (proj1 (register_topic_fresh_pair telemetry_twice 104 quiet_kafka 1
                  (TopicBase.mk "metrics" "{}") _ eq_refl eq_refl)).
Defined.

(** ** Removing a broker *)

(** Deleting a list of topics one after the other, each with its links. *)
Lemma delete_topics_fold (owned : list TopicDetails.t) : forall db,
  let db' := fold_left (fun acc t => delete_topic (TopicDetails.id t) acc) owned db in
  broker_details_rows db' = broker_details_rows db
  /\ dataset_info_rows db' = dataset_info_rows db
  /\ topic_details_rows db'
     = filter (fun t => negb (existsb (fun o => TopicDetails.id o =? TopicDetails.id t) owned))
         (topic_details_rows db)
  /\ dataset_topic_details_rows db'
     = filter (fun l => negb (existsb (fun o => TopicDetails.id o
                                                =? DatasetTopicDetails.topic_id l) owned))
         (dataset_topic_details_rows db).
Proof.
  induction owned as [|o owned IH]; intros db; cbn [fold_left existsb].
  - cbn. rewrite !filter_true. auto.
  - specialize (IH (delete_topic (TopicDetails.id o) db)). cbv zeta in IH.
    destruct IH as (Hb & Hd & Ht & Hl). rewrite Hb, Hd, Ht, Hl.
    unfold delete_topic. cbn. rewrite !filter_filter_and.
    repeat split; apply filter_ext; intros x;
      rewrite negb_orb; f_equal; f_equal; apply Z.eqb_sym.
Qed.

Lemma existsb_owned (broker_id : Z) (topics : list TopicDetails.t) (i : Z) :
  existsb (fun o => TopicDetails.id o =? i)
    (filter (fun t => TopicDetails.broker_id t =? broker_id) topics) = true
  <-> exists t, In t topics /\ TopicDetails.broker_id t = broker_id /\ TopicDetails.id t = i.
Proof.
  rewrite existsb_exists. split.
  - intros (t & Hin & Hid). apply filter_In in Hin. destruct Hin as [Hin Hb].
    exists t. rewrite Z.eqb_eq in Hb, Hid. auto.
  - intros (t & Hin & Hb & Hid). exists t. rewrite filter_In, !Z.eqb_eq. auto.
Qed.

(** X3.  [broker_deregister] on a store whose broker and topic identities
    are distinct, with no database failure.  If a broker has the identity
    the call succeeds and the delete cascades: afterwards the brokers are
    the old ones without that broker, the topics are the old ones not
    hosted by it, the links are the old ones whose topic is not hosted by
    it, and the datasets are untouched; a store in which every topic had
    its broker and every link its topic is still such a store.  If no
    broker has the identity the call raises [NoResultFound] and the store
    is unchanged. *)
Theorem broker_deregister_cascades db now k broker_id :
  NoDup (map BrokerDetails.id (broker_details_rows db)) ->
  NoDup (map TopicDetails.id (topic_details_rows db)) ->
  let out := DatasetService.broker_deregister broker_id (request db [] now k) in
  let db' := committed (snd out) in
  if existsb (fun b => BrokerDetails.id b =? broker_id) (broker_details_rows db)
  then fst out = Ok tt
       /\ (forall b, In b (broker_details_rows db') <->
                     In b (broker_details_rows db) /\ BrokerDetails.id b <> broker_id)
       /\ (forall t, In t (topic_details_rows db') <->
                     In t (topic_details_rows db) /\ TopicDetails.broker_id t <> broker_id)
       /\ (forall l, In l (dataset_topic_details_rows db') <->
                     In l (dataset_topic_details_rows db) /\ ~ link_on_broker db broker_id l)
       /\ dataset_info_rows db' = dataset_info_rows db
       /\ (no_orphan_topic db -> no_orphan_topic db')
       /\ (no_dangling_link db -> no_dangling_link db')
  else fst out = Raise (NoResultFound ("Broker not found for the id " ++ str broker_id)%string)
       /\ db' = db.
Proof.
  intros Hpkb Hpkt out db'.
  destruct (existsb _ (broker_details_rows db)) eqn:Hex.
  - assert (Hone : exists b, filter (fun b => BrokerDetails.id b =? broker_id)
                               (broker_details_rows db) = [b]).
    { clear out db'. induction (broker_details_rows db) as [|x xs IH]; [discriminate|].
      cbn in *. inversion Hpkb as [|? ? Hnotin Hpk']; subst.
      destruct (Z.eqb_spec (BrokerDetails.id x) broker_id) as [Heq|Hne].
      - exists x. f_equal. apply existsb_false_filter.
        destruct (existsb _ xs) eqn:E; [|reflexivity].
        apply existsb_exists in E. destruct E as (y & Hy & Hyid).
        apply Z.eqb_eq in Hyid. exfalso. apply Hnotin. rewrite Heq, <- Hyid.
        now apply in_map.
      - cbn in Hex. exact (IH Hpk' Hex). }
    destruct Hone as [b Hb]. destruct (filter_singleton_In _ _ _ Hb) as [_ Hbid].
    apply Z.eqb_eq in Hbid.
    assert (Hrun : out = (Ok tt, mkWorld (delete_broker broker_id db)
                                   (mkSession (delete_broker broker_id db) [] [] [] true)
                                   [] now k [])).
    { subst out. unfold DatasetService.broker_deregister. cbn. rewrite Hb. cbn.
      rewrite Hbid. reflexivity. }
    subst db'. rewrite Hrun. cbn [fst snd committed]. clear Hrun out.
    unfold delete_broker.
    pose proof (delete_topics_fold
                  (filter (fun t => TopicDetails.broker_id t =? broker_id)
                     (topic_details_rows db)) db) as Hfold.
    cbv zeta in Hfold. destruct Hfold as (Hfb & Hfd & Hft & Hfl).
    set (db1 := fold_left _ _ db) in *.
    assert (Hbrokers : forall x, In x (filter (fun b => negb (BrokerDetails.id b =? broker_id))
                                         (broker_details_rows db)) <->
                         In x (broker_details_rows db) /\ BrokerDetails.id x <> broker_id).
    { intros x. rewrite filter_In, negb_true_iff, Z.eqb_neq. tauto. }
    assert (Htopics : forall t, In t (topic_details_rows db1) <->
                        In t (topic_details_rows db) /\ TopicDetails.broker_id t <> broker_id).
    { intros t. rewrite Hft, filter_In, negb_true_iff. split.
      - intros [Hin Hno]. split; [exact Hin|]. intros Hown.
        assert (Hyes : existsb (fun o => TopicDetails.id o =? TopicDetails.id t)
                         (filter (fun t => TopicDetails.broker_id t =? broker_id)
                            (topic_details_rows db)) = true)
          by (apply existsb_owned; eauto).
        congruence.
      - intros [Hin Hne]. split; [exact Hin|].
        apply not_true_is_false. intros E.
        apply existsb_owned in E. destruct E as (t' & Hin' & Hb' & Hid').
        rewrite (NoDup_map_same_key _ _ t' t Hpkt Hin' Hin Hid') in Hb'. contradiction. }
    assert (Hlinks : forall l, In l (dataset_topic_details_rows db1) <->
                       In l (dataset_topic_details_rows db) /\ ~ link_on_broker db broker_id l).
    { intros l. rewrite Hfl, filter_In, negb_true_iff. unfold link_on_broker.
      rewrite <- existsb_owned, not_true_iff_false. tauto. }
    cbn. rewrite Hfd.
    repeat split; try apply Hbrokers; try apply Htopics; try apply Hlinks; auto.
    + intros Hwf t Ht. apply Htopics in Ht. destruct Ht as [Ht Hne].
      destruct (Hwf t Ht) as (x & Hx & Hxid). exists x. split; [|exact Hxid].
      apply Hbrokers. split; [exact Hx|]. now rewrite Hxid.
    + intros Hwf l Hl. apply Hlinks in Hl. destruct Hl as [Hl Hno].
      destruct (Hwf l Hl) as (t & Ht & Htid). exists t. split; [|exact Htid].
      apply Htopics. split; [exact Ht|]. intros Hown. apply Hno. exists t. auto.
  - subst out db'. unfold DatasetService.broker_deregister. cbn.
    rewrite (existsb_false_filter _ _ Hex). cbn. split; reflexivity.
Qed.

Lemma broker_deregister_cascades_witness :
  fst (DatasetService.broker_deregister 1 (request linked_db [] 200 quiet_kafka)) = Ok tt
  /\ topic_details_rows
       (committed (snd (DatasetService.broker_deregister 1
                          (request linked_db [] 200 quiet_kafka)))) = []
  /\ dataset_topic_details_rows
       (committed (snd (DatasetService.broker_deregister 1
                          (request linked_db [] 200 quiet_kafka)))) = [].
Proof.
  assert (Hb : NoDup (map BrokerDetails.id (broker_details_rows linked_db)))
    by (cbn; constructor; [intros []|constructor]).
  assert (Ht : NoDup (map TopicDetails.id (topic_details_rows linked_db)))
    by (cbn; constructor; [intros []|constructor]).
  pose proof (broker_deregister_cascades linked_db 200 quiet_kafka 1 Hb Ht) as H.
  cbv zeta in H.
  change (existsb (fun b => BrokerDetails.id b =? 1) (broker_details_rows linked_db))
    with true in H.
  destruct H as (H & _). split; [exact H|]. split; reflexivity.
Defined.

(** ** Updating a topic or a broker *)

Arguments patch_topic : simpl never.

Lemma patch_topic_nothing p t : topic_patch_empty p = true -> patch_topic p t = t.
Proof.
  destruct p as [[n|] [j|]], t; cbv; intros H; try discriminate; reflexivity.
Qed.

Lemma patch_topic_id p t : TopicDetails.id (patch_topic p t) = TopicDetails.id t.
Proof. reflexivity. Qed.

Lemma setattr_items_topic (p : TopicUpdate.t) (record : TopicDetails.t)
    db0 db1 os del act fs now k log :
  DatasetService.setattr_items (TopicUpdate.dict p) record
    (mkWorld db0 (mkSession db1 os [] del act) fs now k log)
  = (Ok (patch_topic p record),
     mkWorld db0
       (mkSession db1 os
          (if topic_patch_empty p then [] else [RTopic (patch_topic p record)]) del act)
       fs now k log).
Proof.
  destruct p as [[n|] [j|]], record;
    unfold DatasetService.setattr_items, TopicUpdate.dict, patch_topic;
    repeat (progress (cbn; rewrite ?Z.eqb_refl)); reflexivity.
Qed.

Lemma update_by_pk_as_patch_gen {R} (pk : R -> Z) (f : R -> R) k r rows :
  (forall x, pk (f x) = pk x) ->
  filter (fun x => pk x =? k) rows = [r] ->
  map (fun x => if pk x =? pk (f r) then f r else x) rows
  = map (fun x => if pk x =? k then f x else x) rows.
Proof.
  intros Hid Hone. destruct (filter_singleton_In _ _ _ Hone) as [_ Hk].
  apply Z.eqb_eq in Hk. rewrite Hid, Hk.
  apply map_ext_in. intros b Hb.
  destruct (pk b =? k) eqn:E; [|reflexivity].
  assert (Hin : In b (filter (fun x => pk x =? k) rows)) by (apply filter_In; auto).
  rewrite Hone in Hin. destruct Hin as [->|[]]. reflexivity.
Qed.

Lemma reload_patched_gen {R} (pk : R -> Z) (f : R -> R) k r rows :
  (forall x, pk (f x) = pk x) ->
  filter (fun x => pk x =? k) rows = [r] ->
  filter (fun x => pk x =? pk (f r))
    (map (fun x => if pk x =? pk (f r) then f r else x) rows)
  = [f r].
Proof.
  intros Hid Hone. destruct (filter_singleton_In _ _ _ Hone) as [_ Hk].
  apply Z.eqb_eq in Hk. rewrite Hid, Hk.
  revert Hone. induction rows as [|b rows IH]; cbn; [discriminate|].
  destruct (pk b =? k) eqn:E; cbn.
  - intros Hone. injection Hone as -> Hrest. rewrite Hid, Hk, Z.eqb_refl. f_equal.
    clear IH. induction rows as [|c rows IH]; cbn in *; [reflexivity|].
    destruct (pk c =? k) eqn:E'; [discriminate|]. cbn. rewrite E'. auto.
  - rewrite E. exact IH.
Qed.

Lemma patched_topic_store_nothing topic_id p db :
  topic_patch_empty p = true -> patched_topic_store topic_id p db = db.
Proof.
  intros H. unfold patched_topic_store.
  replace (map _ (topic_details_rows db)) with (topic_details_rows db).
  - now destruct db.
  - rewrite <- (map_id (topic_details_rows db)) at 1. apply map_ext.
    intros b. destruct (_ =? _); [now rewrite patch_topic_nothing|reflexivity].
Qed.

(** X4.  [update_topic] under any schedule of database failures.  The
    committed store afterwards is either unchanged or the old one in
    which the topic with the given identity has the supplied fields of
    the patch (name, schema) and keeps its identity, broker and creation
    date, all other rows being as they were.  If the call succeeds the
    topic existed, the store is the patched one and the response shows
    the patched row.  With no failure: a nonexistent identity raises
    [NoResultFound] and changes nothing; an existing one raises the
    application's [IntegrityError] and changes nothing when the patch
    would give it the name of another topic of the same broker, and
    succeeds otherwise. *)
Theorem update_topic_only_supplied_fields db fs now k topic_id patch :
  let out := DatasetService.update_topic topic_id patch (request db fs now k) in
  let db' := committed (snd out) in
  (db' = db \/ db' = patched_topic_store topic_id patch db)
  /\ (forall resp, fst out = Ok resp ->
        exists t,
          filter (fun t => TopicDetails.id t =? topic_id) (topic_details_rows db) = [t]
          /\ db' = patched_topic_store topic_id patch db
          /\ resp = TopicResponse.from_orm (patch_topic patch t))
  /\ (fs = [] ->
      filter (fun t => TopicDetails.id t =? topic_id) (topic_details_rows db) = [] ->
      fst out = Raise (NoResultFound ("No TopicDetails found for ID: " ++ str topic_id)%string)
      /\ db' = db)
  /\ (fs = [] ->
      forall t,
        filter (fun t => TopicDetails.id t =? topic_id) (topic_details_rows db) = [t] ->
        if topic_name_taken (patch_topic patch t) db && negb (topic_patch_empty patch)
        then fst out
             = Raise (IntegrityError
                        ("No TopicDetails found for ID: " ++ str topic_id)%string
                        (DBIntegrityError "unique_topic_per_broker"))
             /\ db' = db
        else fst out = Ok (TopicResponse.from_orm (patch_topic patch t))).
Proof.
  intros out db'. subst out db'.
  unfold DatasetService.update_topic, DatasetService._update_record.
  destruct (filter (fun t => TopicDetails.id t =? topic_id) (topic_details_rows db))
    as [|t [|t' ts]] eqn:Ht.
  - cbn. fault_step; rewrite ?Ht; cbn.
    all: repeat split; try (left; reflexivity); try discriminate; try reflexivity.
    all: intros; congruence.
  - pose proof (update_by_pk_as_patch_gen TopicDetails.id (patch_topic patch) topic_id t _
                  (patch_topic_id patch) Ht) as Hmap.
    pose proof (reload_patched_gen TopicDetails.id (patch_topic patch) topic_id t _
                  (patch_topic_id patch) Ht) as Hreload.
    destruct (filter_singleton_In _ _ _ Ht) as [_ Hk]. apply Z.eqb_eq in Hk.
    rewrite patch_topic_id, Hk in Hmap, Hreload. unfold topic_name_taken.
    cbn. fault_step; rewrite ?Ht; cbn; rewrite ?setattr_items_topic; cbn.
    all: destruct (topic_patch_empty patch) eqn:Hnone; cbn.
    all: rewrite ?(patched_topic_store_nothing topic_id patch db Hnone).
    all: try fault_step; rewrite ?patch_topic_id, ?Hk, ?Ht; cbn.
    all: try fault_step; rewrite ?patch_topic_id, ?Hk, ?Ht; cbn.
    all: unfold update_topic_row; cbn; rewrite ?patch_topic_id.
    all: try match goal with
         | |- context [if existsb ?p ?l then _ else _] => destruct (existsb p l) eqn:Hclash; cbn
         end.
    all: try fault_step; rewrite ?patch_topic_id, ?Hk, ?Ht, ?Hreload; cbn.
    all: try fault_step; rewrite ?patch_topic_id, ?Hk, ?Ht, ?Hreload; cbn.
    all: unfold patched_topic_store; rewrite <- ?Hmap.
    all: repeat split; try (left; reflexivity); try (right; reflexivity);
      try discriminate; try reflexivity.
    all: try (intros; congruence).
    all: try (intros resp Hresp; injection Hresp as <-; exists t;
              rewrite ?(patch_topic_nothing patch t Hnone); repeat split; congruence).
    all: try (intros _ t0 Ht0; injection Ht0 as <-;
              rewrite ?patch_topic_id, ?Hk in *; rewrite ?andb_false_r;
              rewrite ?(patch_topic_nothing patch t Hnone);
              rewrite ?Hclash; cbn; repeat split; reflexivity).
  - cbn. fault_step; rewrite ?Ht; cbn.
    all: repeat split; try (left; reflexivity); try discriminate; try reflexivity.
    all: intros; congruence.
Qed.

Lemma update_topic_only_supplied_fields_witness :
  fst (DatasetService.update_topic 1 (TopicUpdate.mk (Some "metrics") None)
         (request telemetry_twice [] 200 quiet_kafka))
  = Ok (TopicResponse.mk 1 "metrics" "{}" 1 102)
  /\ committed (snd (DatasetService.update_topic 7 (TopicUpdate.mk (Some "metrics") None)
                       (request telemetry_twice [] 200 quiet_kafka)))
     = telemetry_twice.
Proof.
  split.
  - pose proof (update_topic_only_supplied_fields telemetry_twice [] 200 quiet_kafka 1
                  (TopicUpdate.mk (Some "metrics") None)) as H.
    cbv zeta in H. destruct H as (_ & _ & _ & H).
    exact (H eq_refl _ eq_refl).
  - pose proof (update_topic_only_supplied_fields telemetry_twice [] 200 quiet_kafka 7
                  (TopicUpdate.mk (Some "metrics") None)) as H.
    cbv zeta in H. destruct H as (_ & _ & H & _).
    exact (proj2 (H eq_refl eq_refl)).
Defined.

Lemma update_broker_outcome db now k broker_id patch b :
  filter (fun b => BrokerDetails.id b =? broker_id) (broker_details_rows db) = [b] ->
  let out := DatasetService.update_broker broker_id patch (request db [] now k) in
  if name_taken (patch_broker patch b) db && negb (supplies_nothing patch)
  then fst out = Raise (IntegrityError
                          ("No BrokerDetails found for ID: " ++ str broker_id)%string
                          (DBIntegrityError "unique_broker_per_dataset"))
       /\ committed (snd out) = db
  else fst out = Ok (BrokerResponse.from_orm (patch_broker patch b))
       /\ committed (snd out) = patched_store broker_id patch db.
Proof.
  intros Hb out. subst out.
  unfold DatasetService.update_broker, DatasetService._update_record.
  pose proof (update_by_pk_as_patch (patch_broker patch) broker_id b _
                (patch_broker_id patch) Hb) as Hmap.
  pose proof (reload_patched (patch_broker patch) broker_id b _
                (patch_broker_id patch) Hb) as Hreload.
  destruct (filter_singleton_In _ _ _ Hb) as [_ Hk]. apply Z.eqb_eq in Hk.
  rewrite patch_broker_id, Hk in Hmap, Hreload. unfold name_taken.
  cbn. rewrite Hb. cbn. rewrite setattr_items_broker. cbn.
  destruct (supplies_nothing patch) eqn:Hnone; cbn.
  - rewrite ?(patched_store_nothing broker_id patch db Hnone), ?andb_false_r,
      ?patch_broker_id, ?Hk, ?Hb. cbn.
    rewrite ?(patch_broker_nothing patch b Hnone). split; reflexivity.
  - unfold update_broker_row. cbn. rewrite ?patch_broker_id, ?Hk, ?andb_true_r.
    destruct (existsb _ (broker_details_rows db)) eqn:Hclash; cbn.
    + split; reflexivity.
    + rewrite ?patch_broker_id, ?Hk, ?Hreload. cbn. unfold patched_store.
      rewrite <- Hmap. split; reflexivity.
Qed.

(** X5.  [PATCH /datasets/broker/{id}] with an identity above 0 and no
    database failure answers 404 and writes nothing when no broker has
    the identity; 409 and writes nothing when the patch would give the
    broker the name of another broker; 200 with the patched broker, the
    store being the patched one, otherwise; and 500 with nothing written
    if the identity were shared by several rows. *)
Theorem dataset_broker_update_status db now k broker_id patch :
  0 < broker_id ->
  let out := api.dataset_broker_update patch broker_id (request db [] now k) in
  let db' := committed (snd out) in
  match filter (fun b => BrokerDetails.id b =? broker_id) (broker_details_rows db) with
  | [] =>
      fst out = inl (api.mkHTTPException 404
                       (api.TextStr ""
                          (NoResultFound
                             ("No BrokerDetails found for ID: " ++ str broker_id)%string)))
      /\ db' = db
  | [b] =>
      if name_taken (patch_broker patch b) db && negb (supplies_nothing patch)
      then fst out
           = inl (api.mkHTTPException 409
                    (api.TextStr ""
                       (IntegrityError
                          ("No BrokerDetails found for ID: " ++ str broker_id)%string
                          (DBIntegrityError "unique_broker_per_dataset"))))
           /\ db' = db
      else fst out
           = inr (response_utils.mkResponse 200 "Broker updated successfully."
                    (response_utils.DModel (BrokerResponse.from_orm (patch_broker patch b)))
                    None)
           /\ db' = patched_store broker_id patch db
  | _ :: _ :: _ =>
      fst out = inl (api.mkHTTPException 500
                       (api.TextStr "Internal Exception: " MultipleResultsFound))
      /\ db' = db
  end.
Proof.
  intros Hid out db'.
  destruct (filter (fun b => BrokerDetails.id b =? broker_id) (broker_details_rows db))
    as [|b [|b' rest]] eqn:Hb.
  - subst out db'. unfold api.dataset_broker_update. rewrite (validated_gt _ _ _ Hid).
    unfold DatasetService.update_broker,
      DatasetService._update_record. cbn. rewrite Hb. cbn. split; reflexivity.
  - pose proof (update_broker_outcome db now k broker_id patch b Hb) as Hout.
    cbv zeta in Hout. subst out db'. unfold api.dataset_broker_update.
    rewrite (validated_gt _ _ _ Hid).
    destruct (DatasetService.update_broker broker_id patch (request db [] now k))
      as [r w'].
    cbn [fst snd] in *.
    destruct (name_taken (patch_broker patch b) db && negb (supplies_nothing patch));
      destruct Hout as [-> Hc]; cbn; rewrite Hc; split; reflexivity.
  - subst out db'. unfold api.dataset_broker_update. rewrite (validated_gt _ _ _ Hid).
    unfold DatasetService.update_broker,
      DatasetService._update_record. cbn. rewrite Hb. cbn. split; reflexivity.
Qed.

Lemma dataset_broker_update_status_witness :
  fst (api.dataset_broker_update (BrokerUpdate.mk (Some "broker-2") None None) 1
         (request telemetry_twice [] 200 quiet_kafka))
  = inl (api.mkHTTPException 409
           (api.TextStr ""
              (IntegrityError "No BrokerDetails found for ID: 1"
                 (DBIntegrityError "unique_broker_per_dataset")))).
Proof.
  pose proof (dataset_broker_update_status telemetry_twice 200 quiet_kafka 1
                (BrokerUpdate.mk (Some "broker-2") None None) eq_refl) as H.
  cbv zeta in H.
  change (filter (fun b => BrokerDetails.id b =? 1) (broker_details_rows telemetry_twice))
    with [BrokerDetails.mk 1 "broker-1" (IPv4Address 2130706433) 9092 100] in H.
  exact (proj1 H).
Defined.

(** ** Pagination and the listing routes *)

Lemma slice_window {A} (items : list A) (start n : Z) :
  0 <= start -> 0 <= n ->
  response_utils.slice items start (start + n)
  = firstn (Z.to_nat n) (skipn (Z.to_nat start) items).
Proof.
  intros Hs Hn. unfold response_utils.slice, response_utils.slice_bound.
  set (len := Z.of_nat (List.length items)).
  assert (Hlen : 0 <= len) by (subst len; lia).
  destruct (Z.ltb_spec start 0) as [|_]; [lia|].
  destruct (Z.ltb_spec (start + n) 0) as [|_]; [lia|].
  destruct (Z.le_gt_cases start len) as [Hin|Hout].
  - rewrite (Z.min_l start len) by lia.
    assert (Hsk : List.length (skipn (Z.to_nat start) items)
                  = Z.to_nat (len - start)).
    { rewrite length_skipn. subst len. lia. }
    destruct (Z.le_gt_cases (start + n) len) as [Hfit|Hover].
    + rewrite Z.min_l by lia. f_equal. lia.
    + rewrite Z.min_r by lia.
      rewrite (firstn_all2 (n := Z.to_nat n)) by lia.
      apply firstn_all2. lia.
  - rewrite (Z.min_r start len), (Z.min_r (start + n) len) by lia.
    rewrite Z.sub_diag. cbn [Z.to_nat firstn].
    rewrite (skipn_all2 (n := Z.to_nat start)) by (subst len; lia).
    now rewrite firstn_nil.
Qed.

(** X6.  [standard_response] on a list, for a GET request whose pagination
    state [PaginationMiddleware.dispatch] has computed.  The page and the
    limit of the state are at least 1: a given value below 1 counts as 1,
    a page left out is page 1 and a limit left out is the default limit.
    The response lists the items from index [(page - 1) * limit] on, at
    most [limit] of them, and none when the page lies past the end; its
    pagination details carry the page, the limit and the length of the
    whole list. *)
Theorem standard_response_page {A} (items : list A) (default_limit : Z)
    (page_param limit_param : pagination.QueryParam) (st : pagination.State)
    (status_code : Z) (message : string) :
  pagination.dispatch default_limit page_param limit_param = Some st ->
  let r := response_utils.standard_response status_code message
             (response_utils.DList items) (Some (paginated_get st)) in
  1 <= pagination.page st
  /\ 1 <= pagination.limit st
  /\ (forall z, page_param = pagination.Int z -> pagination.page st = Z.max z 1)
  /\ (forall z, limit_param = pagination.Int z -> pagination.limit st = Z.max z 1)
  /\ (page_param = pagination.Absent -> pagination.page st = 1)
  /\ (limit_param = pagination.Absent -> pagination.limit st = Z.max default_limit 1)
  /\ listed r
     = firstn (Z.to_nat (pagination.limit st))
         (skipn (Z.to_nat ((pagination.page st - 1) * pagination.limit st)) items)
  /\ Z.of_nat (List.length (listed r)) <= pagination.limit st
  /\ response_utils.pagination_details r
     = Some (response_utils.mkPageInfo (pagination.page st) (pagination.limit st)
               (Z.of_nat (List.length items)))
  /\ (Z.of_nat (List.length items) <= (pagination.page st - 1) * pagination.limit st ->
      listed r = []).
Proof.
  intros Hst r. unfold pagination.dispatch in Hst.
  destruct (pagination.int_param page_param 1) as [p|] eqn:Hp; [|discriminate].
  destruct (pagination.int_param limit_param default_limit) as [l|] eqn:Hl; [|discriminate].
  injection Hst as <-. cbn [pagination.page pagination.limit] in *.
  assert (Hlisted : listed r
    = firstn (Z.to_nat (Z.max l 1)) (skipn (Z.to_nat ((Z.max p 1 - 1) * Z.max l 1)) items)).
  { subst r. unfold listed, response_utils.standard_response, paginated_get. cbn.
    apply slice_window; nia. }
  assert (Hpage : response_utils.pagination_details r
    = Some (response_utils.mkPageInfo (Z.max p 1) (Z.max l 1) (Z.of_nat (List.length items))))
    by reflexivity.
  repeat split; try lia; try assumption.
  - intros z ->. cbn in Hp. congruence.
  - intros z ->. cbn in Hl. congruence.
  - intros ->. cbn in Hp. injection Hp as <-. reflexivity.
  - intros ->. cbn in Hl. injection Hl as <-. reflexivity.
  - rewrite Hlisted. pose proof (firstn_le_length (Z.to_nat (Z.max l 1))
      (skipn (Z.to_nat ((Z.max p 1 - 1) * Z.max l 1)) items)). lia.
  - intros Hpast. rewrite Hlisted. rewrite skipn_all2 by lia. apply firstn_nil.
Qed.

Lemma standard_response_page_witness :
  listed (response_utils.standard_response 200 "Broker Details."
            (response_utils.DList [1; 2; 3; 4; 5])
            (Some (paginated_get (pagination.mkState 2 2 2 4))))
  = [3; 4].
Proof.
  pose proof (standard_response_page [1; 2; 3; 4; 5] 10 (pagination.Int 2) (pagination.Int 2)
                (pagination.mkState 2 2 2 4) 200 "Broker Details." eq_refl) as H.
  cbv zeta in H. destruct H as (_ & _ & _ & _ & _ & _ & H & _). exact H.
Defined.

Lemma served_page_window {A} (items : list A) (page limit : Z) :
  served_page items page limit
  = firstn (Z.to_nat (Z.max limit 1))
      (skipn (Z.to_nat ((Z.max page 1 - 1) * Z.max limit 1)) items).
Proof.
  unfold served_page. cbn.
  unfold listed, response_utils.standard_response, paginated_get. cbn.
  apply slice_window; nia.
Qed.

Lemma pages_concat {A} (limit : nat) (n : nat) : forall (items : list A),
  (0 < limit)%nat ->
  (List.length items <= n * limit)%nat ->
  flat_map (fun i => firstn limit (skipn (i * limit) items)) (seq 0 n) = items.
Proof.
  induction n as [|n IH]; intros items Hpos Hlen.
  - destruct items; [reflexivity|cbn in Hlen; lia].
  - cbn [seq flat_map]. rewrite Nat.mul_0_l. cbn [skipn].
    etransitivity; [|apply (firstn_skipn limit items)]. f_equal.
    rewrite <- seq_shift, flat_map_concat_map, map_map, <- flat_map_concat_map.
    etransitivity; [|apply (IH (skipn limit items)); [exact Hpos|rewrite length_skipn; lia]].
    apply flat_map_ext. intros i. f_equal. rewrite skipn_skipn. f_equal. lia.
Qed.

(** X7.  Paging loses and repeats nothing: for a limit of at least 1 and
    enough pages to hold the list, the pages 1, 2, ..., as
    [PaginationMiddleware.dispatch] and [standard_response] serve them,
    put one after the other are the list itself. *)
Theorem served_pages_cover {A} (items : list A) (limit : Z) (pages : nat) :
  1 <= limit ->
  Z.of_nat (List.length items) <= Z.of_nat pages * limit ->
  flat_map (fun p => served_page items (Z.of_nat p) limit) (seq 1 pages) = items.
Proof.
  intros Hlimit Hlen.
  etransitivity; [|apply (pages_concat (Z.to_nat limit) pages items); nia].
  rewrite <- seq_shift, flat_map_concat_map, map_map, <- flat_map_concat_map.
  apply flat_map_ext. intros i. rewrite served_page_window.
  rewrite (Z.max_l limit 1) by lia. f_equal. f_equal. nia.
Qed.

Lemma served_pages_cover_witness :
  flat_map (fun p => served_page ["a"; "b"; "c"; "d"; "e"] (Z.of_nat p) 2) (seq 1 3)
  = ["a"; "b"; "c"; "d"; "e"].
Proof.
  apply (served_pages_cover ["a"; "b"; "c"; "d"; "e"] 2 3); cbn; lia.
Defined.

Lemma filter_everything {A} (l : list A) : filter (fun _ => true) l = l.
Proof. induction l as [|a l IH]; cbn; [reflexivity|now rewrite IH]. Qed.

(** X8.  [GET /datasets/broker/details] and [GET /datasets/topic/details]
    behind the pagination middleware never change the committed store.
    When the query fails they answer 500; on an empty table they answer
    404 ("No Broker defined." and "No Topic defined."); otherwise they
    answer 200 with the rows of the requested page, in table order, from
    row [(page - 1) * limit] on and at most [limit] of them, and report
    the page, the limit and the number of all rows of the table. *)
Theorem registry_listing_page db fs now k default_limit page_param limit_param st :
  pagination.dispatch default_limit page_param limit_param = Some st ->
  let page {A} (items : list A) :=
    firstn (Z.to_nat (pagination.limit st))
      (skipn (Z.to_nat ((pagination.page st - 1) * pagination.limit st)) items) in
  let info {A} (rows : list A) :=
    Some (response_utils.mkPageInfo (pagination.page st) (pagination.limit st)
            (Z.of_nat (List.length rows))) in
  let brokers := api.fetch_broker_details (paginated_get st) (request db fs now k) in
  let topics := api.fetch_topic_details (paginated_get st) (request db fs now k) in
  committed (snd brokers) = db
  /\ committed (snd topics) = db
  /\ match fs, broker_details_rows db with
     | true :: _, _ =>
         fst brokers = inl (api.mkHTTPException 500
                              (api.TextStr "Internal Exception: " OperationalError))
     | _, [] =>
         fst brokers = inl (api.mkHTTPException 404 (api.Text "No Broker defined."))
     | _, rows =>
         fst brokers = inr (response_utils.mkResponse 200 "Broker Details."
                              (response_utils.DList
                                 (page (map BrokerResponse.from_orm rows)))
                              (info rows))
     end
  /\ match fs, topic_details_rows db with
     | true :: _, _ =>
         fst topics = inl (api.mkHTTPException 500
                             (api.TextStr "Internal Exception: " OperationalError))
     | _, [] =>
         fst topics = inl (api.mkHTTPException 404 (api.Text "No Topic defined."))
     | _, rows =>
         fst topics = inr (response_utils.mkResponse 200 "Topic Details."
                             (response_utils.DList
                                (page (map TopicResponse.from_orm rows)))
                             (info rows))
     end.
Proof.
  intros Hst page info brokers topics.
  assert (Hslice : forall A (items : list A),
                   response_utils.slice items (pagination.start_index st)
                     (pagination.end_index st)
                   = page A items).
  { unfold pagination.dispatch in Hst.
    destruct (pagination.int_param page_param 1) as [p|]; [|discriminate].
    destruct (pagination.int_param limit_param default_limit) as [l|]; [|discriminate].
    subst page. injection Hst as <-. intros A items. cbn. apply slice_window; nia. }
  subst brokers topics info. clearbody page.
  unfold api.fetch_broker_details, DatasetService.fetch_broker_details,
    api.fetch_topic_details, DatasetService.fetch_topic_details. cbn.
  fault_step; rewrite ?filter_everything.
  all: destruct (broker_details_rows db) as [|b brokers];
    destruct (topic_details_rows db) as [|t topics]; cbn.
  all: unfold response_utils.standard_response, paginated_get; cbn.
  all: rewrite ?Hslice, ?length_map; repeat split; reflexivity.
Qed.

Lemma registry_listing_page_witness :
  fst (api.fetch_broker_details (paginated_get (pagination.mkState 2 1 1 2))
         (request telemetry_twice [] 0 quiet_kafka))
  = inr (response_utils.mkResponse 200 "Broker Details."
           (response_utils.DList
              [BrokerResponse.mk 2 "broker-2" (IPv4Address 167772162) 9092 101])
           (Some (response_utils.mkPageInfo 2 1 2))).
Proof.
  pose proof (registry_listing_page telemetry_twice [] 0 quiet_kafka 10
                (pagination.Int 2) (pagination.Int 1) (pagination.mkState 2 1 1 2) eq_refl)
    as H.
  cbv zeta in H. destruct H as (_ & _ & H & _). exact H.
Defined.

(** ** The broker registration route *)

Lemma strip_prefix_append (p s : string) :
  api.strip_prefix p (p ++ s)%string = Some s.
Proof.
  unfold String.append.
  induction p as [|a p IH]; cbn; [reflexivity|].
  now rewrite Ascii.eqb_refl.
Qed.

Lemma leading_digits_uint (d : Decimal.uint) (c : Ascii.ascii) (rest : string) :
  api.is_digit c = false ->
  api.leading_digits (NilEmpty.string_of_uint d ++ String c rest)%string
  = NilEmpty.string_of_uint d.
Proof.
  intros Hc. unfold String.append.
  induction d; cbn; rewrite ?Hc; try reflexivity.
  all: match goal with
       | |- context [api.is_digit (Ascii.Ascii ?a ?b ?c ?d ?e ?f ?g ?h)] =>
           change (api.is_digit (Ascii.Ascii a b c d e f g h)) with true
       end.
  all: cbv iota; f_equal; exact IHd.
Qed.

Lemma leading_digits_str (z : Z) (c : Ascii.ascii) (rest : string) :
  0 <= z -> api.is_digit c = false ->
  api.leading_digits (str z ++ String c rest)%string = str z /\ str z <> "".
Proof.
  intros Hz Hc. unfold str, NilZero.string_of_int.
  destruct z as [|p|p]; [| |lia].
  - cbn. unfold String.append. cbn. rewrite Hc. split; [reflexivity|discriminate].
  - cbn [Z.to_int]. unfold NilZero.string_of_uint.
    destruct (Pos.to_uint p) eqn:Hd.
    1: { unfold String.append. cbn. rewrite Hc. split; [reflexivity|discriminate]. }
    all: split; [apply leading_digits_uint; exact Hc|discriminate].
Qed.

Lemma search_id_at_start (label rest found : string) :
  api.leading_digits rest = found -> found <> "" ->
  api.search_id label (label ++ rest)%string = Some found.
Proof.
  intros Hd Hne.
  destruct (label ++ rest)%string as [|a s] eqn:Hs; cbn.
  - rewrite <- Hs, strip_prefix_append, Hd. destruct found; [contradiction|reflexivity].
  - rewrite <- Hs, strip_prefix_append, Hd. destruct found; [contradiction|reflexivity].
Qed.

Lemma search_broker_id (z : Z) :
  0 <= z ->
  api.search_id "Broker id " ("Broker id " ++ str z ++ " already exists.")%string
  = Some (str z).
Proof.
  intros Hz.
  destruct (leading_digits_str z (Ascii.Ascii false false false false false true false false) "already exists." Hz eq_refl) as [Hd Hne].
  apply search_id_at_start; assumption.
Qed.

(** X9.  [POST /datasets/broker] with no database failure.  A name that
    no broker has is answered 201 with the new broker, and the store
    gains exactly that row.  A name that one broker has is answered 409,
    nothing is written, and, the identity of that broker not being
    negative, the detail carries the service's message, the original
    error, and as [broker_id] the decimal identity of the existing
    broker, which the route recovers from the message with the pattern
    [Broker id (\d+)].  Were the name held by several rows, the answer
    would be 500 with nothing written. *)
Theorem dataset_broker_register_created_or_conflict db now k data :
  let out := api.dataset_broker_register data (request db [] now k) in
  match filter (named (BrokerBase.name data)) (broker_details_rows db) with
  | [] =>
      fst out = inr (Some (response_utils.mkResponse 201 "Broker created successfully."
                             (response_utils.DModel
                                (BrokerResponse.from_orm (new_broker_row db data now)))
                             None))
      /\ committed (snd out)
         = set_broker_details (broker_details_rows db ++ [new_broker_row db data now]) db
  | [b] =>
      committed (snd out) = db
      /\ (0 <= BrokerDetails.id b ->
          fst out = inl (api.mkHTTPException 409
                           (api.Conflict
                              ("Broker id " ++ str (BrokerDetails.id b)
                               ++ " already exists.")%string
                              (DBIntegrityError "unique_broker_per_dataset")
                              (Some (str (BrokerDetails.id b))))))
  | _ :: _ :: _ =>
      fst out = inl (api.mkHTTPException 500
                       (api.TextStr "Internal Exception: " MultipleResultsFound))
      /\ committed (snd out) = db
  end.
Proof.
  intros out. subst out. unfold api.dataset_broker_register.
  destruct (filter (named (BrokerBase.name data)) (broker_details_rows db))
    as [|b [|b' rows]] eqn:Hf.
  - destruct (register_broker_fresh db now k data (filter_nil_existsb _ _ Hf)) as [Hr Hc].
    destruct (DatasetService.register_broker data (request db [] now k)) as [r w'].
    cbn in Hr, Hc. subst r. cbn. rewrite Hc. split; reflexivity.
  - destruct (register_broker_conflict db now k data b Hf) as [Hr Hc].
    destruct (DatasetService.register_broker data (request db [] now k)) as [r w'].
    cbn in Hr, Hc. subst r. cbn. split; [|intros Hid; rewrite (search_broker_id _ Hid)].
    + destruct (api.search_id _ _); exact Hc.
    + reflexivity.
  - pose proof (filter_cons_existsb _ _ _ _ Hf) as Hex.
    unfold DatasetService.register_broker, named in *. cbn.
    unfold insert_broker. cbn. rewrite Hex. cbn. rewrite Hf. cbn.
    split; reflexivity.
Qed.

Lemma dataset_broker_register_created_or_conflict_witness :
  fst (api.dataset_broker_register
         (BrokerBase.mk "broker-2" (IPv4Address 167772162) 9092)
         (request telemetry_twice [] 0 quiet_kafka))
  = inl (api.mkHTTPException 409
           (api.Conflict "Broker id 2 already exists."
              (DBIntegrityError "unique_broker_per_dataset") (Some "2"))).
Proof.
  pose proof (dataset_broker_register_created_or_conflict telemetry_twice 0 quiet_kafka
                (BrokerBase.mk "broker-2" (IPv4Address 167772162) 9092)) as H.
  cbv zeta in H. cbn in H. destruct H as [_ H]. apply H. lia.
Defined.

(** ** The view of a dataset with its broker and topic *)

Lemma next_id_not_in {R} (pk : R -> Z) (rows : list R) (r : R) :
  In r rows -> pk r <> next_id (map pk rows).
Proof.
  intros Hin Heq.
  assert (H : In r (filter (fun x => pk x =? next_id (map pk rows)) rows))
    by (apply filter_In; split; [exact Hin|now apply Z.eqb_eq]).
  now rewrite next_id_fresh in H.
Qed.

Lemma filter_none {R} (p : R -> bool) (rows : list R) :
  (forall x, In x rows -> p x = false) -> filter p rows = [].
Proof.
  intros H. induction rows as [|r rows IH]; cbn; [reflexivity|].
  rewrite (H r (or_introl eq_refl)). apply IH. intros x Hx. apply H. now right.
Qed.

Lemma filter_every {R} (p : R -> bool) (rows : list R) :
  (forall x, In x rows -> p x = true) -> filter p rows = rows.
Proof.
  intros H. induction rows as [|r rows IH]; cbn; [reflexivity|].
  rewrite (H r (or_introl eq_refl)). f_equal. apply IH. intros x Hx. apply H. now right.
Qed.

(** Rows whose foreign key points into [rows] do not point at the
    identity that [rows] hands out next. *)
Lemma foreign_key_not_next {R S} (pk : R -> Z) (fk : S -> Z) (rows : list R)
    (others : list S) :
  (forall x, In x others -> exists r, In r rows /\ pk r = fk x) ->
  forall x, In x others -> (fk x =? next_id (map pk rows)) = false.
Proof.
  intros Hfk x Hx. destruct (Hfk x Hx) as (r & Hr & Heq).
  apply Z.eqb_neq. rewrite <- Heq. now apply next_id_not_in.
Qed.

Lemma drop_appended_row {R} (pk : R -> Z) (rows : list R) (r : R) :
  pk r = next_id (map pk rows) ->
  filter (fun x => negb (pk x =? pk r)) (rows ++ [r]) = rows.
Proof.
  intros Hr. rewrite filter_app. cbn. rewrite Z.eqb_refl. cbn. rewrite app_nil_r.
  apply filter_every. intros x Hx. apply negb_true_iff, Z.eqb_neq. rewrite Hr.
  now apply next_id_not_in.
Qed.

Lemma find_appended_row {R} (pk : R -> Z) (rows : list R) (r : R) :
  pk r = next_id (map pk rows) ->
  filter (fun x => pk x =? pk r) (rows ++ [r]) = [r].
Proof.
  intros Hr. rewrite filter_app. cbn. rewrite Z.eqb_refl.
  rewrite filter_none; [reflexivity|].
  intros x Hx. apply Z.eqb_neq. rewrite Hr. now apply next_id_not_in.
Qed.

Lemma join_dataset_broker_topic_resolved db dataset_id d l t b :
  filter (fun d => DatasetInfo.id d =? dataset_id) (dataset_info_rows db) = [d] ->
  filter (fun l => DatasetInfo.id d =? DatasetTopicDetails.dataset_id l)
    (dataset_topic_details_rows db) = [l] ->
  filter (fun t => DatasetTopicDetails.topic_id l =? TopicDetails.id t)
    (topic_details_rows db) = [t] ->
  filter (fun b => TopicDetails.broker_id t =? BrokerDetails.id b)
    (broker_details_rows db) = [b] ->
  DatasetService.join_dataset_broker_topic dataset_id db = [(d, b, t)].
Proof.
  intros Hd Hl Ht Hb. unfold DatasetService.join_dataset_broker_topic.
  rewrite Hd. cbn [flat_map]. rewrite Hl. cbn [flat_map]. rewrite Ht. cbn [flat_map].
  rewrite Hb. reflexivity.
Qed.

Lemma join_dataset_broker_topic_unlinked db dataset_id :
  filter (fun l => DatasetTopicDetails.dataset_id l =? dataset_id)
    (dataset_topic_details_rows db) = [] ->
  DatasetService.join_dataset_broker_topic dataset_id db = [].
Proof.
  intros Hl. unfold DatasetService.join_dataset_broker_topic.
  assert (H : forall d,
             In d (filter (fun d => DatasetInfo.id d =? dataset_id) (dataset_info_rows db)) ->
             filter (fun l => DatasetInfo.id d =? DatasetTopicDetails.dataset_id l)
               (dataset_topic_details_rows db) = []).
  { intros d Hin. apply filter_In in Hin. destruct Hin as [_ Hid].
    apply Z.eqb_eq in Hid. rewrite <- Hl. apply filter_ext.
    intros l'. rewrite Hid. apply Z.eqb_sym. }
  induction (filter (fun d => DatasetInfo.id d =? dataset_id) (dataset_info_rows db))
    as [|d ds IH]; [reflexivity|].
  cbn [flat_map]. rewrite (H d (or_introl eq_refl)). cbn [flat_map app].
  apply IH. intros d' Hd'. apply H. now right.
Qed.

Lemma fetch_dataset_message_details_resolved db now k dataset_id d l t b :
  filter (fun d => DatasetInfo.id d =? dataset_id) (dataset_info_rows db) = [d] ->
  filter (fun l => DatasetInfo.id d =? DatasetTopicDetails.dataset_id l)
    (dataset_topic_details_rows db) = [l] ->
  filter (fun t => DatasetTopicDetails.topic_id l =? TopicDetails.id t)
    (topic_details_rows db) = [t] ->
  filter (fun b => TopicDetails.broker_id t =? BrokerDetails.id b)
    (broker_details_rows db) = [b] ->
  fst (DatasetService.fetch_dataset_message_details dataset_id (request db [] now k))
  = Ok (DatasetService.dataset_message_response (DatasetService.dataset_attrs d)
          (BrokerResponse.from_orm b) (TopicResponse.from_orm t)).
Proof.
  intros Hd Hl Ht Hb. unfold DatasetService.fetch_dataset_message_details. cbn.
  rewrite (join_dataset_broker_topic_resolved _ _ _ _ _ _ Hd Hl Ht Hb). reflexivity.
Qed.

Lemma fetch_dataset_message_details_unlinked db now k dataset_id :
  filter (fun l => DatasetTopicDetails.dataset_id l =? dataset_id)
    (dataset_topic_details_rows db) = [] ->
  fst (DatasetService.fetch_dataset_message_details dataset_id (request db [] now k))
  = Raise (NoResultFound ("Dataset not found for the id " ++ str dataset_id)%string).
Proof.
  intros Hl. unfold DatasetService.fetch_dataset_message_details. cbn.
  rewrite (join_dataset_broker_topic_unlinked _ _ Hl). reflexivity.
Qed.

(** X10.  [fetch_dataset_message_details] never changes the committed
    store.  With no database failure: when no link references the
    dataset identity (the dataset does not exist, or it is not sourced
    from a broker) the service raises [NoResultFound], and
    [GET /datasets/{id}/message/details] with an identity above 0 answers
    404; when the dataset, its link, the topic of the link and the broker
    hosting that topic each resolve to one row, the service returns the
    view made of that dataset, that topic and the broker that hosts the
    topic, and the route with an identity above 0 answers 200 with it. *)
Theorem fetch_dataset_message_details_view db fs now k req dataset_id :
  let out := DatasetService.fetch_dataset_message_details dataset_id (request db fs now k) in
  let served := api.fetch_dataset_message_details req dataset_id (request db fs now k) in
  committed (snd out) = db
  /\ (fs = [] ->
      filter (fun l => DatasetTopicDetails.dataset_id l =? dataset_id)
        (dataset_topic_details_rows db) = [] ->
      let not_found :=
        NoResultFound ("Dataset not found for the id " ++ str dataset_id)%string in
      fst out = Raise not_found
      /\ (0 < dataset_id ->
          fst served = inl (api.mkHTTPException 404 (api.TextStr "" not_found))))
  /\ (fs = [] ->
      forall d l t b,
        filter (fun d => DatasetInfo.id d =? dataset_id) (dataset_info_rows db) = [d] ->
        filter (fun l => DatasetInfo.id d =? DatasetTopicDetails.dataset_id l)
          (dataset_topic_details_rows db) = [l] ->
        filter (fun t => DatasetTopicDetails.topic_id l =? TopicDetails.id t)
          (topic_details_rows db) = [t] ->
        filter (fun b => TopicDetails.broker_id t =? BrokerDetails.id b)
          (broker_details_rows db) = [b] ->
        let view :=
          DatasetService.dataset_message_response (DatasetService.dataset_attrs d)
            (BrokerResponse.from_orm b) (TopicResponse.from_orm t) in
        fst out = Ok view
        /\ (0 < dataset_id ->
            fst served = inr (response_utils.mkResponse 200 "Dataset message details."
                                (response_utils.DModel view) None))).
Proof.
  intros out served. subst out served. unfold api.fetch_dataset_message_details.
  split; [|split].
  - unfold DatasetService.fetch_dataset_message_details. cbn. fault_step; try reflexivity.
    all: destruct (DatasetService.unique_entities
                     (DatasetService.join_dataset_broker_topic dataset_id db))
           as [|[[r0 r1] r2] [|? ?]]; reflexivity.
  - intros -> Hl. cbv zeta. set (not_found := NoResultFound _).
    pose proof (fetch_dataset_message_details_unlinked db now k dataset_id Hl) as H.
    fold not_found in H.
    split; [exact H|]. intros Hid. rewrite (validated_gt _ _ _ Hid).
    destruct (DatasetService.fetch_dataset_message_details dataset_id (request db [] now k))
      as [r w']. cbn in H. subst r. reflexivity.
  - intros -> d l t b Hd Hl Ht Hb. cbv zeta.
    pose proof (fetch_dataset_message_details_resolved db now k dataset_id d l t b
                  Hd Hl Ht Hb) as H.
    split; [exact H|]. intros Hid. rewrite (validated_gt _ _ _ Hid).
    destruct (DatasetService.fetch_dataset_message_details dataset_id (request db [] now k))
      as [r w']. cbn in H. subst r. reflexivity.
Qed.

Lemma fetch_dataset_message_details_view_witness :
  fst (api.fetch_dataset_message_details (paginated_get (pagination.mkState 1 10 0 10)) 4
         (request linked_db [] 0 quiet_kafka))
  = inl (api.mkHTTPException 404
           (api.TextStr "" (NoResultFound "Dataset not found for the id 4"))).
Proof.
  pose proof (fetch_dataset_message_details_view linked_db [] 0 quiet_kafka
                (paginated_get (pagination.mkState 1 10 0 10)) 4) as H.
  cbv zeta in H. destruct H as (_ & H & _). apply (proj2 (H eq_refl eq_refl)). reflexivity.
Defined.

Lemma register_dataset_message_details_success db now k data b t :
  filter (fun b => BrokerDetails.id b =? DatasetBrokerTopicBase.broker_id data)
    (broker_details_rows db) = [b] ->
  filter (fun t => TopicDetails.id t =? DatasetBrokerTopicBase.topic_id data)
    (topic_details_rows db) = [t] ->
  let out := DatasetService.register_dataset_message_details data (request db [] now k) in
  fst out = Ok (DatasetService.dataset_message_response
                  (DatasetService.dataset_attrs (new_dataset_row db data now))
                  (BrokerResponse.from_orm b) (TopicResponse.from_orm t))
  /\ committed (snd out)
     = with_dataset_and_link db (new_dataset_row db data now) (new_link_row db data now).
Proof.
  intros Hb Ht out. subst out.
  destruct (filter_singleton_In _ _ _ Hb) as [_ Hbid]. apply Z.eqb_eq in Hbid.
  destruct (filter_singleton_In _ _ _ Ht) as [_ Htid]. apply Z.eqb_eq in Htid.
  pose proof (filter_cons_existsb _ _ _ _ Ht) as Htex.
  unfold DatasetService.register_dataset_message_details.
  repeat (progress (cbn; unfold insert_dataset, insert_link; cbn;
    rewrite ?Hbid, ?Htid, ?Hb, ?Ht, ?in_0_1_2_enum, ?Htex, ?existsb_app, ?filter_app,
      ?next_id_fresh, ?Z.eqb_refl, ?orb_true_r)).
  split; reflexivity.
Qed.

(** The new dataset is read back through its one link, the topic of the
    link and the broker that hosts the topic. *)
Lemma fetch_registered_dataset db now now' k' data t owner :
  filter (fun t => TopicDetails.id t =? DatasetBrokerTopicBase.topic_id data)
    (topic_details_rows db) = [t] ->
  filter (fun b => TopicDetails.broker_id t =? BrokerDetails.id b)
    (broker_details_rows db) = [owner] ->
  no_orphan_link db ->
  let d := new_dataset_row db data now in
  fst (DatasetService.fetch_dataset_message_details (DatasetInfo.id d)
         (request (with_dataset_and_link db d (new_link_row db data now)) [] now' k'))
  = Ok (DatasetService.dataset_message_response (DatasetService.dataset_attrs d)
          (BrokerResponse.from_orm owner) (TopicResponse.from_orm t)).
Proof.
  intros Ht Ho Hfk d.
  apply (fetch_dataset_message_details_resolved _ now' k' _ d (new_link_row db data now)).
  - cbn. rewrite filter_app. unfold d at 1, new_dataset_row. cbn.
    rewrite next_id_fresh, Z.eqb_refl. reflexivity.
  - cbn. rewrite filter_app. cbn. rewrite Z.eqb_refl.
    replace (filter _ (dataset_topic_details_rows db)) with (@nil DatasetTopicDetails.t);
      [reflexivity|].
    symmetry. apply existsb_false_filter. apply not_true_is_false. intros E.
    apply existsb_exists in E. destruct E as (l' & Hin & Heq). apply Z.eqb_eq in Heq.
    destruct (Hfk l' Hin) as (d' & Hd' & Hid).
    pose proof (next_id_fresh DatasetInfo.id (dataset_info_rows db)) as Hfresh.
    assert (Hin' : In d' (filter (fun x => DatasetInfo.id x
                                          =? next_id (map DatasetInfo.id (dataset_info_rows db)))
                            (dataset_info_rows db))).
    { apply filter_In. split; [exact Hd'|]. apply Z.eqb_eq. rewrite Hid, <- Heq.
      reflexivity. }
    rewrite Hfresh in Hin'. exact Hin'.
  - cbn. rewrite <- Ht. apply filter_ext. intros t'. apply Z.eqb_sym.
  - exact Ho.
Qed.

(** The broker that hosts a topic is the broker given exactly when the
    topic names it. *)
Lemma owner_is_given db broker_id b t owner :
  filter (fun b => BrokerDetails.id b =? broker_id) (broker_details_rows db) = [b] ->
  filter (fun b => TopicDetails.broker_id t =? BrokerDetails.id b)
    (broker_details_rows db) = [owner] ->
  BrokerDetails.id owner = TopicDetails.broker_id t
  /\ BrokerDetails.id b = broker_id
  /\ (TopicDetails.broker_id t = broker_id -> owner = b).
Proof.
  intros Hb Ho.
  destruct (filter_singleton_In _ _ _ Hb) as [_ Hbid]. apply Z.eqb_eq in Hbid.
  destruct (filter_singleton_In _ _ _ Ho) as [_ Hoid]. apply Z.eqb_eq in Hoid.
  split; [now symmetry|]. split; [exact Hbid|].
  intros Hsame. rewrite Hsame, <- Hbid in Ho.
  assert (Hbb : filter (fun b0 => BrokerDetails.id b =? BrokerDetails.id b0)
                  (broker_details_rows db) = [b]).
  { rewrite <- Hb. apply filter_ext. intros b0. rewrite Hbid. apply Z.eqb_sym. }
  rewrite Hbb in Ho. now injection Ho.
Qed.

(** X11.  Registering a dataset on a broker and a topic and reading it
    back.  With broker and topic resolving, the topic hosted by one
    broker of the store, every link of the store pointing at a dataset of
    the store, and no database failure:
    [register_dataset_message_details] returns the view with the broker
    that was given, and [fetch_dataset_message_details] on the new
    dataset returns the view with the broker that hosts the topic; the two
    views are the same when the topic is hosted by the broker given. *)
Theorem register_then_fetch_dataset_message_details db now k now' k' data b t owner :
  filter (fun b => BrokerDetails.id b =? DatasetBrokerTopicBase.broker_id data)
    (broker_details_rows db) = [b] ->
  filter (fun t => TopicDetails.id t =? DatasetBrokerTopicBase.topic_id data)
    (topic_details_rows db) = [t] ->
  filter (fun b => TopicDetails.broker_id t =? BrokerDetails.id b)
    (broker_details_rows db) = [owner] ->
  no_orphan_link db ->
  let registered :=
    DatasetService.register_dataset_message_details data (request db [] now k) in
  let d := new_dataset_row db data now in
  let fetched :=
    DatasetService.fetch_dataset_message_details (DatasetInfo.id d)
      (request (committed (snd registered)) [] now' k') in
  fst registered = Ok (DatasetService.dataset_message_response
                         (DatasetService.dataset_attrs d)
                         (BrokerResponse.from_orm b) (TopicResponse.from_orm t))
  /\ fst fetched = Ok (DatasetService.dataset_message_response
                         (DatasetService.dataset_attrs d)
                         (BrokerResponse.from_orm owner) (TopicResponse.from_orm t))
  /\ (TopicDetails.broker_id t = DatasetBrokerTopicBase.broker_id data ->
      fst fetched = fst registered).
Proof.
  intros Hb Ht Ho Hfk registered d fetched.
  destruct (register_dataset_message_details_success db now k data b t Hb Ht) as [Hr Hc].
  fold registered in Hr, Hc. fold d in Hr, Hc.
  assert (Hf : fst fetched = Ok (DatasetService.dataset_message_response
                         (DatasetService.dataset_attrs d)
                         (BrokerResponse.from_orm owner) (TopicResponse.from_orm t))).
  { subst fetched. rewrite Hc. exact (fetch_registered_dataset db now now' k' data t owner
                                        Ht Ho Hfk). }
  split; [exact Hr|]. split; [exact Hf|].
  intros Hsame. rewrite Hf, Hr.
  destruct (owner_is_given db _ b t owner Hb Ho) as (_ & _ & Heq).
  rewrite (Heq Hsame). reflexivity.
Qed.

Lemma register_then_fetch_dataset_message_details_witness :
  fst (DatasetService.fetch_dataset_message_details 1
         (request
            (committed
               (snd (DatasetService.register_dataset_message_details mismatched_registration
                       (request telemetry_twice [] 5 quiet_kafka))))
            [] 6 quiet_kafka))
  = Ok (DatasetService.dataset_message_response
          (DatasetService.dataset_attrs (new_dataset_row telemetry_twice mismatched_registration 5))
          (BrokerResponse.from_orm (BrokerDetails.mk 1 "broker-1" (IPv4Address 2130706433) 9092 100))
          (TopicResponse.from_orm (TopicDetails.mk 1 "telemetry" "{}" 1 102))).
Proof.
  refine (proj1 (proj2 (register_then_fetch_dataset_message_details telemetry_twice 5 quiet_kafka
            6 quiet_kafka mismatched_registration _ _ _ _ _ _ _))).
  - reflexivity.
  - reflexivity.
  - reflexivity.
  - intros l [].
Defined.

(** C10.  [register_dataset_message_details] does not compare the topic's
    broker with the given broker.  For every store, and every payload
    whose broker and topic each resolve to one row, the topic being
    hosted by a broker of the store other than the one given, every link
    of the store pointing at a dataset of the store, and no database
    failure: registration succeeds; the committed store is the old one
    with exactly one dataset row and one link row more, under identities
    that no dataset and no link of the old store has, and no link of the
    old store references the new dataset; the new link holds the topic
    and the new dataset and nothing of a broker; the view returned at
    registration shows the broker that was given, and
    [fetch_dataset_message_details] on the dataset just created succeeds
    and shows the broker that hosts the topic: the same dataset and the
    same topic in both views, different brokers. *)
Theorem register_dataset_message_details_ignores_topic_owner
    db now k now' k' data b t owner :
  filter (fun b => BrokerDetails.id b =? DatasetBrokerTopicBase.broker_id data)
    (broker_details_rows db) = [b] ->
  filter (fun t => TopicDetails.id t =? DatasetBrokerTopicBase.topic_id data)
    (topic_details_rows db) = [t] ->
  filter (fun b => TopicDetails.broker_id t =? BrokerDetails.id b)
    (broker_details_rows db) = [owner] ->
  no_orphan_link db ->
  TopicDetails.broker_id t <> DatasetBrokerTopicBase.broker_id data ->
  let registered :=
    DatasetService.register_dataset_message_details data (request db [] now k) in
  let d := new_dataset_row db data now in
  let l := new_link_row db data now in
  let fetched :=
    DatasetService.fetch_dataset_message_details (DatasetInfo.id d)
      (request (committed (snd registered)) [] now' k') in
  exists resp1 resp2,
    fst registered = Ok resp1
    /\ fst fetched = Ok resp2
    /\ committed (snd registered) = with_dataset_and_link db d l
    /\ (forall d0, In d0 (dataset_info_rows db) -> DatasetInfo.id d0 <> DatasetInfo.id d)
    /\ (forall l0, In l0 (dataset_topic_details_rows db) ->
          DatasetTopicDetails.id l0 <> DatasetTopicDetails.id l
          /\ DatasetTopicDetails.dataset_id l0 <> DatasetInfo.id d)
    /\ l = DatasetTopicDetails.mk (DatasetTopicDetails.id l) (TopicDetails.id t)
             (DatasetInfo.id d) now
    /\ resp1 = DatasetService.dataset_message_response (DatasetService.dataset_attrs d)
                 (BrokerResponse.from_orm b) (TopicResponse.from_orm t)
    /\ resp2 = DatasetService.dataset_message_response (DatasetService.dataset_attrs d)
                 (BrokerResponse.from_orm owner) (TopicResponse.from_orm t)
    /\ DatasetInfoDetails.id (DatasetBrokerTopicResponse.dataset resp1)
       = Some (DatasetInfo.id d)
    /\ DatasetInfoDetails.id (DatasetBrokerTopicResponse.dataset resp2)
       = Some (DatasetInfo.id d)
    /\ BrokerResponse.id (DatasetBrokerTopicResponse.broker_details resp1)
       = DatasetBrokerTopicBase.broker_id data
    /\ BrokerResponse.id (DatasetBrokerTopicResponse.broker_details resp2)
       = TopicDetails.broker_id t
    /\ DatasetBrokerTopicResponse.topic_details resp1
       = DatasetBrokerTopicResponse.topic_details resp2
    /\ TopicResponse.id (DatasetBrokerTopicResponse.topic_details resp1)
       = DatasetBrokerTopicBase.topic_id data
    /\ DatasetBrokerTopicResponse.broker_details resp1
       <> DatasetBrokerTopicResponse.broker_details resp2.
Proof.
  intros Hb Ht Ho Hfk Hmis registered d l fetched.
  destruct (register_dataset_message_details_success db now k data b t Hb Ht) as [Hr Hc].
  fold registered in Hr, Hc. fold d in Hr, Hc. fold l in Hc.
  pose proof (fetch_registered_dataset db now now' k' data t owner Ht Ho Hfk) as Hf.
  cbv zeta in Hf. fold d l in Hf. rewrite <- Hc in Hf. fold fetched in Hf.
  destruct (owner_is_given db _ b t owner Hb Ho) as (Hoid & Hbid & _).
  destruct (filter_singleton_In _ _ _ Ht) as [_ Htid]. apply Z.eqb_eq in Htid.
  eexists. eexists.
  split; [exact Hr|]. split; [exact Hf|]. split; [exact Hc|].
  split.
  { intros d0 Hd0. exact (next_id_not_in DatasetInfo.id _ d0 Hd0). }
  split.
  { intros l0 Hl0. split.
    - exact (next_id_not_in DatasetTopicDetails.id _ l0 Hl0).
    - apply Z.eqb_neq.
      exact (foreign_key_not_next DatasetInfo.id DatasetTopicDetails.dataset_id
               (dataset_info_rows db) (dataset_topic_details_rows db) Hfk l0 Hl0). }
  split; [subst l; unfold new_link_row; cbn; now rewrite Htid|].
  split; [reflexivity|]. split; [reflexivity|].
  split; [reflexivity|]. split; [reflexivity|].
  split; [exact Hbid|]. split; [exact Hoid|].
  split; [reflexivity|]. split; [exact Htid|].
  cbn. intros Heq. apply Hmis. rewrite <- Hoid, <- Hbid.
  now injection Heq as ->.
Qed.

Lemma register_dataset_message_details_ignores_topic_owner_witness :
  exists resp1 resp2,
    fst (DatasetService.register_dataset_message_details mismatched_registration
           (request telemetry_twice [] 104 quiet_kafka)) = Ok resp1
    /\ fst (DatasetService.fetch_dataset_message_details 1
              (request
                 (committed
                    (snd (DatasetService.register_dataset_message_details
                            mismatched_registration
                            (request telemetry_twice [] 104 quiet_kafka))))
                 [] 105 quiet_kafka)) = Ok resp2
    /\ BrokerResponse.id (DatasetBrokerTopicResponse.broker_details resp1) = 2
    /\ BrokerResponse.id (DatasetBrokerTopicResponse.broker_details resp2) = 1.
Proof.
  assert (Horphan : no_orphan_link telemetry_twice) by (intros l0 []).
  assert (Hmis : TopicDetails.broker_id (TopicDetails.mk 1 "telemetry" "{}" 1 102)
                 <> DatasetBrokerTopicBase.broker_id mismatched_registration)
    by (cbn; discriminate).
  destruct (register_dataset_message_details_ignores_topic_owner telemetry_twice 104
              quiet_kafka 105 quiet_kafka mismatched_registration _ _ _
              eq_refl eq_refl eq_refl Horphan Hmis)
    as (resp1 & resp2 & H1 & H2 & _ & _ & _ & _ & _ & _ & _ & _ & Hb1 & Hb2 & _).
  exists resp1, resp2. split; [exact H1|]. split; [exact H2|]. split; [exact Hb1|exact Hb2].
Defined.

(** ** Registering and removing again *)

(** X12.  [register_broker] followed by [broker_deregister] of the new
    broker restores the store: for a name that no broker has, in a store
    in which every topic belongs to a broker of the store, and with no
    database failure, both calls succeed and the committed store after
    the second is the store before the first. *)
Theorem register_broker_then_deregister db now k now' k' data :
  existsb (named (BrokerBase.name data)) (broker_details_rows db) = false ->
  no_orphan_topic db ->
  let registered := DatasetService.register_broker data (request db [] now k) in
  let removed :=
    DatasetService.broker_deregister (BrokerDetails.id (new_broker_row db data now))
      (request (committed (snd registered)) [] now' k') in
  fst registered = Ok (BrokerResponse.from_orm (new_broker_row db data now))
  /\ fst removed = Ok tt
  /\ committed (snd removed) = db.
Proof.
  intros Hfresh Hfk registered removed.
  destruct (register_broker_fresh db now k data Hfresh) as [Hr Hc].
  fold registered in Hr, Hc. split; [exact Hr|].
  subst removed. rewrite Hc. clear Hr Hc registered.
  set (row := new_broker_row db data now).
  assert (Hid : BrokerDetails.id row = next_id (map BrokerDetails.id (broker_details_rows db)))
    by reflexivity.
  clearbody row.
  unfold DatasetService.broker_deregister. cbn.
  rewrite (find_appended_row BrokerDetails.id _ row Hid). cbn.
  split; [reflexivity|].
  unfold delete_broker. cbn.
  rewrite (drop_appended_row BrokerDetails.id _ row Hid).
  rewrite filter_none.
  - destruct db; reflexivity.
  - intros t Ht. rewrite Hid.
    apply (foreign_key_not_next BrokerDetails.id TopicDetails.broker_id
             (broker_details_rows db) (topic_details_rows db)); [exact Hfk|exact Ht].
Qed.

Lemma register_broker_then_deregister_witness :
  committed
    (snd (DatasetService.broker_deregister 3
            (request
               (committed
                  (snd (DatasetService.register_broker
                          (BrokerBase.mk "broker-3" (IPv4Address 167772163) 9092)
                          (request telemetry_twice [] 104 quiet_kafka))))
               [] 105 quiet_kafka)))
  = telemetry_twice.
Proof.
  refine (proj2 (proj2 (register_broker_then_deregister telemetry_twice 104 quiet_kafka
                          105 quiet_kafka
                          (BrokerBase.mk "broker-3" (IPv4Address 167772163) 9092) eq_refl _))).
  intros t [<-|[<-|[]]];
    first [ eexists; split; [left; reflexivity|reflexivity]
          | eexists; split; [right; left; reflexivity|reflexivity] ].
Defined.

(** X13.  [register_topic] followed by [topic_deregister] of the new topic
    restores the store: for an existing broker and a name none of its
    topics has, in a store in which every link points at a topic of the
    store, and with no database failure, both calls succeed and the
    committed store after the second is the store before the first. *)
Theorem register_topic_then_deregister db now k now' k' broker_id data b :
  filter (fun b => BrokerDetails.id b =? broker_id) (broker_details_rows db) = [b] ->
  existsb (same_topic (TopicBase.name data) broker_id) (topic_details_rows db) = false ->
  no_dangling_link db ->
  let registered := DatasetService.register_topic broker_id data (request db [] now k) in
  let removed :=
    DatasetService.topic_deregister (TopicDetails.id (new_topic_row db broker_id data now))
      (request (committed (snd registered)) [] now' k') in
  fst registered = Ok (TopicResponse.from_orm (new_topic_row db broker_id data now))
  /\ fst removed = Ok tt
  /\ committed (snd removed) = db.
Proof.
  intros Hb Hfresh Hfk registered removed.
  pose proof (filter_cons_existsb _ _ _ _ Hb) as Hbex.
  assert (Hrun : fst registered = Ok (TopicResponse.from_orm (new_topic_row db broker_id data now))
                 /\ committed (snd registered)
                    = set_topic_details
                        (topic_details_rows db ++ [new_topic_row db broker_id data now]) db).
  { subst registered.
    unfold DatasetService.register_topic, same_topic, new_topic_row in *. cbn.
    rewrite Hb. cbn. unfold insert_topic. cbn. rewrite Hfresh, Hbex. cbn.
    rewrite filter_app, next_id_fresh. cbn. rewrite Z.eqb_refl. cbn.
    split; reflexivity. }
  destruct Hrun as [Hr Hc]. split; [exact Hr|].
  subst removed. rewrite Hc. clear Hr Hc registered.
  set (row := new_topic_row db broker_id data now).
  assert (Hid : TopicDetails.id row = next_id (map TopicDetails.id (topic_details_rows db)))
    by reflexivity.
  clearbody row.
  unfold DatasetService.topic_deregister. cbn.
  rewrite (find_appended_row TopicDetails.id _ row Hid). cbn.
  split; [reflexivity|].
  unfold delete_topic. cbn.
  rewrite (drop_appended_row TopicDetails.id _ row Hid).
  rewrite filter_every.
  - destruct db; reflexivity.
  - intros l Hl. apply negb_true_iff. rewrite Hid.
    apply (foreign_key_not_next TopicDetails.id DatasetTopicDetails.topic_id
             (topic_details_rows db) (dataset_topic_details_rows db)); [exact Hfk|exact Hl].
Qed.

Lemma register_topic_then_deregister_witness :
  committed
    (snd (DatasetService.topic_deregister 3
            (request
               (committed
                  (snd (DatasetService.register_topic 1 (TopicBase.mk "metrics" "{}")
                          (request telemetry_twice [] 104 quiet_kafka))))
               [] 105 quiet_kafka)))
  = telemetry_twice.
Proof.
  refine (proj2 (proj2 (register_topic_then_deregister telemetry_twice 104 quiet_kafka
                          105 quiet_kafka 1 (TopicBase.mk "metrics" "{}") _
                          eq_refl eq_refl _))).
  intros l [].
Defined.

(** X14.  [register_dataset_message_details] followed by
    [dataset_message_deregister] of the new dataset restores the store:
    with broker and topic resolving, every link of the store pointing at
    a dataset of the store, and no database failure, the second call
    succeeds and the committed store after it is the store before the
    first: the dataset row and the link row are both gone again. *)
Theorem register_dataset_message_then_deregister db now k now' k' data b t :
  filter (fun b => BrokerDetails.id b =? DatasetBrokerTopicBase.broker_id data)
    (broker_details_rows db) = [b] ->
  filter (fun t => TopicDetails.id t =? DatasetBrokerTopicBase.topic_id data)
    (topic_details_rows db) = [t] ->
  no_orphan_link db ->
  let registered :=
    DatasetService.register_dataset_message_details data (request db [] now k) in
  let removed :=
    DatasetService.dataset_message_deregister
      (DatasetInfo.id (new_dataset_row db data now))
      (request (committed (snd registered)) [] now' k') in
  fst removed = Ok tt
  /\ committed (snd removed) = db.
Proof.
  intros Hb Ht Hfk registered removed.
  destruct (register_dataset_message_details_success db now k data b t Hb Ht) as [_ Hc].
  fold registered in Hc. subst removed. rewrite Hc. clear Hc registered.
  set (l := new_link_row db data now).
  set (d := new_dataset_row db data now).
  assert (Hd : DatasetInfo.id d = next_id (map DatasetInfo.id (dataset_info_rows db)))
    by reflexivity.
  assert (Hsrc : DatasetInfo.data_source_type d = const.BROKER_DATA_SOURCE_TYPE)
    by reflexivity.
  assert (Hl : DatasetTopicDetails.id l
               = next_id (map DatasetTopicDetails.id (dataset_topic_details_rows db)))
    by reflexivity.
  assert (Hld : DatasetTopicDetails.dataset_id l = DatasetInfo.id d) by reflexivity.
  clearbody l d.
  assert (Hnone : forall x, In x (dataset_topic_details_rows db) ->
                    (DatasetTopicDetails.dataset_id x =? DatasetInfo.id d) = false).
  { rewrite Hd. apply (foreign_key_not_next DatasetInfo.id DatasetTopicDetails.dataset_id).
    exact Hfk. }
  assert (Hfind : filter (fun x => (DatasetInfo.id x =? DatasetInfo.id d)
                            && (DatasetInfo.data_source_type x =? const.BROKER_DATA_SOURCE_TYPE))
                    (dataset_info_rows db ++ [d]) = [d]).
  { rewrite filter_app. cbn. rewrite Z.eqb_refl, Hsrc. cbn.
    rewrite filter_none; [reflexivity|].
    intros x Hx. apply andb_false_iff. left. apply Z.eqb_neq. rewrite Hd.
    now apply next_id_not_in. }
  assert (Hlink : filter (fun x => DatasetTopicDetails.dataset_id x =? DatasetInfo.id d)
                    (dataset_topic_details_rows db ++ [l]) = [l]).
  { rewrite filter_app. cbn. rewrite Hld, Z.eqb_refl.
    rewrite (filter_none _ _ Hnone). reflexivity. }
  unfold DatasetService.dataset_message_deregister. cbn.
  rewrite Hfind. cbn. rewrite Hlink. cbn.
  split; [reflexivity|].
  unfold delete_dataset, delete_link. cbn.
  rewrite (drop_appended_row DatasetTopicDetails.id _ l Hl).
  rewrite (drop_appended_row DatasetInfo.id _ d Hd).
  rewrite filter_every.
  - destruct db; reflexivity.
  - intros x Hx. apply negb_true_iff. now apply Hnone.
Qed.

Lemma register_dataset_message_then_deregister_witness :
  committed
    (snd (DatasetService.dataset_message_deregister 1
            (request
               (committed
                  (snd (DatasetService.register_dataset_message_details matched_registration
                          (request telemetry_twice [] 5 quiet_kafka))))
               [] 6 quiet_kafka)))
  = telemetry_twice.
Proof.
  refine (proj2 (register_dataset_message_then_deregister telemetry_twice 5 quiet_kafka
                   6 quiet_kafka matched_registration _ _ eq_refl eq_refl _)).
  intros l [].
Defined.

(** ** What a read of the stream returns *)

Lemma In_firstn {A} (x : A) (n : nat) (l : list A) : In x (firstn n l) -> In x l.
Proof.
  intros H. rewrite <- (firstn_skipn n l). apply in_or_app. now left.
Qed.

Lemma valid_parameters (id : Z) (no_of_records : option Z) :
  0 < id -> positive_if_given no_of_records ->
  Path_gt 0 "id" id ++ Query_gt 0 "no_of_records" no_of_records = [].
Proof.
  intros Hid Hn. unfold Path_gt, Query_gt.
  apply Z.ltb_lt in Hid. rewrite Hid.
  destruct no_of_records as [n|]; [|reflexivity].
  cbn in Hn. apply Z.ltb_lt in Hn. now rewrite Hn.
Qed.

Lemma get_topic_and_broker_details_unresolved db now k dataset_id :
  filter (fun l => DatasetTopicDetails.dataset_id l =? dataset_id)
    (dataset_topic_details_rows db) = []
  \/ (exists l,
        filter (fun l => DatasetTopicDetails.dataset_id l =? dataset_id)
          (dataset_topic_details_rows db) = [l]
        /\ (filter (fun t => TopicDetails.id t =? DatasetTopicDetails.topic_id l)
              (topic_details_rows db) = []
            \/ exists t,
                 filter (fun t => TopicDetails.id t =? DatasetTopicDetails.topic_id l)
                   (topic_details_rows db) = [t]
                 /\ filter (fun b => BrokerDetails.id b =? TopicDetails.broker_id t)
                      (broker_details_rows db) = [])) ->
  exists msg,
    DatasetService._get_topic_and_broker_details dataset_id (request db [] now k)
    = (Raise (NoResultFound msg), request db [] now k).
Proof.
  unfold DatasetService._get_topic_and_broker_details.
  intros [Hl|(l & Hl & [Ht|(t & Ht & Hb)])]; cbn; rewrite Hl; cbn.
  - eexists; reflexivity.
  - rewrite Ht. cbn. eexists; reflexivity.
  - rewrite Ht. cbn. rewrite Hb. cbn. eexists; reflexivity.
Qed.

(** The lookups leave the committed store alone. *)
Lemma get_topic_and_broker_details_committed dataset_id w :
  committed (snd (DatasetService._get_topic_and_broker_details dataset_id w)) = committed w.
Proof.
  destruct w as [c [tx os di de [|]] fs clk k log];
    unfold DatasetService._get_topic_and_broker_details; cbn; [|reflexivity].
  repeat (first [fault_step | filter_step]); reflexivity.
Qed.

Section StreamReads.

Variable Json : Type.
Variable value_deserializer : string -> option Json.

Lemma deserialize_all_decoded (decode : string -> Json) tp payloads :
  (forall x, In x payloads -> value_deserializer x = Some (decode x)) ->
  deserialize_all Json value_deserializer tp payloads
  = Some (map (fun x => mkConsumerRecord Json tp (decode x)) payloads).
Proof.
  induction payloads as [|x payloads IH]; intros H; cbn; [reflexivity|].
  rewrite (H x (or_introl eq_refl)), IH; [reflexivity|].
  intros y Hy. apply H. now right.
Qed.

Lemma deserialize_all_undecodable tp payloads x :
  In x payloads -> value_deserializer x = None ->
  deserialize_all Json value_deserializer tp payloads = None.
Proof.
  intros Hin Hx. induction payloads as [|y payloads IH]; cbn in *; [contradiction|].
  destruct Hin as [->|Hin].
  - now rewrite Hx.
  - rewrite (IH Hin). now destruct (value_deserializer y).
Qed.

(** When every waiting payload decodes, one poll hands out the payloads
    in arrival order, up to its cap. *)
Lemma fetched_records_decoded (decode : string -> Json) parts : forall remaining,
  (forall x, In x (flat_map snd parts) -> value_deserializer x = Some (decode x)) ->
  exists messages,
    fetched_records Json value_deserializer remaining parts = Some messages
    /\ flat_map (fun pm => map value (snd pm)) messages
       = map decode (firstn remaining (flat_map snd parts))
    /\ (messages = [] -> firstn remaining (flat_map snd parts) = []).
Proof.
  induction parts as [|[tp payloads] parts IH]; intros remaining H; cbn.
  - exists []. rewrite firstn_nil. auto.
  - destruct remaining as [|n]; [exists []; auto|].
    cbn in H. rewrite (deserialize_all_decoded decode tp payloads).
    2: { intros x Hx. apply H, in_or_app. now left. }
    assert (Hrest : forall x, In x (flat_map snd parts) ->
                      value_deserializer x = Some (decode x)).
    { intros x Hx. apply H, in_or_app. now right. }
    rewrite firstn_map, firstn_app.
    destruct (firstn (S n) payloads) as [|y ys] eqn:E.
    + destruct payloads; [|discriminate]. cbn [map app List.length].
      rewrite Nat.sub_0_r. exact (IH (S n) Hrest).
    + pose proof (length_firstn (S n) payloads) as Hlen. rewrite E in Hlen.
      cbn [List.length] in Hlen. cbn [map]. rewrite length_map.
      replace (S n - List.length payloads)%nat with (S n - S (List.length ys))%nat by lia.
      destruct (IH (S n - S (List.length ys))%nat Hrest) as (drained & -> & Hflat & _).
      eexists. split; [reflexivity|]. split; [|discriminate].
      cbn [flat_map snd]. rewrite Hflat, map_app. cbn. now rewrite map_map.
Qed.

(** A payload within the cap that does not decode fails the poll. *)
Lemma fetched_records_undecodable parts x : forall remaining,
  In x (firstn remaining (flat_map snd parts)) -> value_deserializer x = None ->
  fetched_records Json value_deserializer remaining parts = None.
Proof.
  induction parts as [|[tp payloads] parts IH]; intros remaining Hin Hx; cbn in *.
  - rewrite firstn_nil in Hin. contradiction.
  - destruct remaining as [|n]; [contradiction|].
    destruct (deserialize_all Json value_deserializer tp payloads) as [unpacked|] eqn:D;
      [|reflexivity].
    rewrite firstn_app in Hin. apply in_app_or in Hin. destruct Hin as [Hin|Hin].
    + apply In_firstn in Hin.
      rewrite (deserialize_all_undecodable tp payloads x Hin Hx) in D. discriminate.
    + pose proof (deserialize_all_length _ _ _ _ _ D) as Hlen.
      destruct (Nat.le_gt_cases (S n) (List.length payloads)) as [Hle|Hgt].
      { replace (S n - List.length payloads)%nat with 0%nat in Hin by lia.
        contradiction. }
      rewrite (firstn_all2 (n := S n)) by lia.
      destruct unpacked as [|r rs].
      * destruct payloads; [|discriminate]. cbn [List.length] in Hin.
        rewrite Nat.sub_0_r in Hin. exact (IH _ Hin Hx).
      * cbn [List.length] in Hlen. rewrite <- Hlen in Hin. now rewrite (IH _ Hin Hx).
Qed.

(** X15.  What a successful read returns.  For a dataset whose link,
    topic and broker resolve, a reachable broker, fetches that are
    answered, a positive cap (the requested number of records, or the
    client's [max_poll_records] when none is requested), at least one
    waiting payload, waiting payloads that all decode (the client
    decodes a batch whole, also beyond the cap), and no database
    failure: [fetch_dataset_topic_data] returns the decoded payloads of
    the topic in arrival order across partitions, cut off at the cap,
    with [record_count] their number, the dataset identity and the
    name of the topic. *)
Theorem fetch_dataset_topic_data_first_records
    db now k dataset_id no_of_records offset l t b (decode : string -> Json) :
  filter (fun l => DatasetTopicDetails.dataset_id l =? dataset_id)
    (dataset_topic_details_rows db) = [l] ->
  filter (fun t => TopicDetails.id t =? DatasetTopicDetails.topic_id l)
    (topic_details_rows db) = [t] ->
  filter (fun b => BrokerDetails.id b =? TopicDetails.broker_id t)
    (broker_details_rows db) = [b] ->
  bootstrap_ok k = true ->
  fetch_ok k = true ->
  0 < poll_cap k no_of_records ->
  let pending := flat_map snd (arrivals k (TopicDetails.topic_name t) offset) in
  let window := firstn (Z.to_nat (poll_cap k no_of_records)) pending in
  (forall x, In x pending -> value_deserializer x = Some (decode x)) ->
  pending <> [] ->
  fst (fetch_dataset_topic_data Json value_deserializer dataset_id no_of_records offset
         (request db [] now k))
  = Ok (mkDatasetTopicData Json dataset_id (map decode window)
          (Z.of_nat (List.length window)) (TopicDetails.topic_name t)).
Proof.
  intros Hl Ht Hb Hboot Hfetch Hcap pending window Hdec Hne.
  unfold fetch_dataset_topic_data, try_except, bind.
  rewrite (get_topic_and_broker_details_resolved db now k dataset_id l t b Hl Ht Hb).
  unfold __fetch_stream_data, KafkaConsumer_init, poll, close, poll_cap in *. cbn.
  rewrite Hboot. cbn. rewrite Hfetch.
  pose proof Hcap as Hpos. apply Z.ltb_lt in Hpos. rewrite Hpos. cbn.
  set (cap := match no_of_records with Some n => n | None => max_poll_records k end) in *.
  destruct (fetched_records_decoded decode
              (arrivals k (TopicDetails.topic_name t) offset) (Z.to_nat cap) Hdec)
    as (messages & Hm & Hflat & Hnil).
  rewrite Hm. fold pending in Hflat, Hnil. fold window in Hflat, Hnil.
  destruct messages as [|m messages].
  - exfalso. specialize (Hnil eq_refl). subst window.
    destruct pending; [now apply Hne|].
    destruct (Z.to_nat cap) eqn:Hc; [lia|discriminate].
  - cbn. cbn in Hflat. rewrite Hflat, length_map. reflexivity.
Qed.

(** X16.  One undecodable payload fails the whole read.  Under the
    conditions of a successful read, if a payload among those within
    the cap does not decode, [fetch_dataset_topic_data] raises the
    decoding error, returns no partial list, and the consumer session
    has been opened, polled once and closed. *)
Theorem fetch_dataset_topic_data_undecodable
    db now k dataset_id no_of_records offset l t b x :
  filter (fun l => DatasetTopicDetails.dataset_id l =? dataset_id)
    (dataset_topic_details_rows db) = [l] ->
  filter (fun t => TopicDetails.id t =? DatasetTopicDetails.topic_id l)
    (topic_details_rows db) = [t] ->
  filter (fun b => BrokerDetails.id b =? TopicDetails.broker_id t)
    (broker_details_rows db) = [b] ->
  bootstrap_ok k = true ->
  fetch_ok k = true ->
  0 < poll_cap k no_of_records ->
  In x (firstn (Z.to_nat (poll_cap k no_of_records))
          (flat_map snd (arrivals k (TopicDetails.topic_name t) offset))) ->
  value_deserializer x = None ->
  let out :=
    fetch_dataset_topic_data Json value_deserializer dataset_id no_of_records offset
      (request db [] now k) in
  fst out = Raise DeserializeError
  /\ kafka_log (snd out)
     = [Opened (TopicDetails.topic_name t) (BrokerDetails.broker_ip b)
          (BrokerDetails.broker_port b) offset;
        Polled const.STREAM_TIMEOUT no_of_records;
        Closed].
Proof.
  intros Hl Ht Hb Hboot Hfetch Hcap Hin Hx out. subst out.
  unfold fetch_dataset_topic_data, try_except, bind.
  rewrite (get_topic_and_broker_details_resolved db now k dataset_id l t b Hl Ht Hb).
  unfold __fetch_stream_data, KafkaConsumer_init, poll, close, poll_cap in *. cbn.
  rewrite Hboot. cbn. rewrite Hfetch.
  apply Z.ltb_lt in Hcap. rewrite Hcap. cbn.
  rewrite (fetched_records_undecodable _ x _ Hin Hx). cbn.
  split; reflexivity.
Qed.

(** X17.  [GET /datasets/{id}/topic/data] with valid parameters (an
    identity above 0 and a count of records that is left out or above
    0) for a dataset whose stream configuration does not resolve (no
    link references the dataset, or the topic of the link is missing,
    or the broker of the topic is missing), with no database failure:
    the service raises [NoResultFound] "Dataset not found for ID <id>",
    the route answers 404 "Dataset not found.", no consumer session is
    opened and the committed store is unchanged. *)
Theorem fetch_datasets_topic_data_unresolved db now k id no_of_records offset_reset :
  filter (fun l => DatasetTopicDetails.dataset_id l =? id)
    (dataset_topic_details_rows db) = []
  \/ (exists l,
        filter (fun l => DatasetTopicDetails.dataset_id l =? id)
          (dataset_topic_details_rows db) = [l]
        /\ (filter (fun t => TopicDetails.id t =? DatasetTopicDetails.topic_id l)
              (topic_details_rows db) = []
            \/ exists t,
                 filter (fun t => TopicDetails.id t =? DatasetTopicDetails.topic_id l)
                   (topic_details_rows db) = [t]
                 /\ filter (fun b => BrokerDetails.id b =? TopicDetails.broker_id t)
                      (broker_details_rows db) = [])) ->
  0 < id ->
  positive_if_given no_of_records ->
  let offset :=
    OffsetReset_value (match offset_reset with None => latest | Some o => o end) in
  let served :=
    fetch_dataset_topic_data Json value_deserializer id no_of_records offset
      (request db [] now k) in
  let out :=
    fetch_datasets_topic_data Json value_deserializer id no_of_records offset_reset
      (request db [] now k) in
  fst served = Raise (NoResultFound ("Dataset not found for ID " ++ str id)%string)
  /\ fst out = inl (HTTP_404_NOT_FOUND "Dataset not found.")
  /\ kafka_log (snd out) = []
  /\ committed (snd out) = db.
Proof.
  intros Hun Hid Hn offset served out.
  destruct (get_topic_and_broker_details_unresolved db now k id Hun) as [msg Hrun].
  assert (Hs : served = (Raise (NoResultFound ("Dataset not found for ID " ++ str id)%string),
                         request db [] now k)).
  { subst served. unfold fetch_dataset_topic_data, try_except, bind. rewrite Hrun.
    reflexivity. }
  subst out. unfold fetch_datasets_topic_data.
  rewrite (valid_parameters id no_of_records Hid Hn). fold offset. fold served.
  rewrite Hs. cbn. repeat split; reflexivity.
Qed.

(** X18.  [GET /datasets/{id}/topic/data] with valid parameters when
    the stream cannot be read, for a dataset whose configuration
    resolves and no database failure.  If the bootstrap server does not
    answer, the route answers 500 with [NoBrokersAvailable] and no
    consumer session was opened.  If the broker answers but the fetches
    are not, the client reports nothing, the poll comes back empty and
    the route answers 404 "No messages in stream topic: <topic>", the
    session that was opened having been closed. *)
Theorem fetch_datasets_topic_data_transport_failure
    db now k id no_of_records offset_reset l t b :
  filter (fun l => DatasetTopicDetails.dataset_id l =? id)
    (dataset_topic_details_rows db) = [l] ->
  filter (fun t => TopicDetails.id t =? DatasetTopicDetails.topic_id l)
    (topic_details_rows db) = [t] ->
  filter (fun b => BrokerDetails.id b =? TopicDetails.broker_id t)
    (broker_details_rows db) = [b] ->
  0 < id ->
  positive_if_given no_of_records ->
  let offset :=
    OffsetReset_value (match offset_reset with None => latest | Some o => o end) in
  let out :=
    fetch_datasets_topic_data Json value_deserializer id no_of_records offset_reset
      (request db [] now k) in
  (bootstrap_ok k = false ->
   fst out = inl (HTTP_500_INTERNAL_SERVER_ERROR NoBrokersAvailable)
   /\ kafka_log (snd out) = [])
  /\ (bootstrap_ok k = true -> 0 < poll_cap k no_of_records -> fetch_ok k = false ->
      fst out = inl (HTTP_404_NOT_FOUND
                       ("No messages in stream topic: " ++ TopicDetails.topic_name t)%string)
      /\ kafka_log (snd out)
         = [Opened (TopicDetails.topic_name t) (BrokerDetails.broker_ip b)
              (BrokerDetails.broker_port b) offset;
            Polled const.STREAM_TIMEOUT no_of_records;
            Closed]).
Proof.
  intros Hl Ht Hb Hid Hn offset out. subst out.
  unfold fetch_datasets_topic_data.
  rewrite (valid_parameters id no_of_records Hid Hn). fold offset.
  unfold fetch_dataset_topic_data, try_except, bind.
  rewrite (get_topic_and_broker_details_resolved db now k id l t b Hl Ht Hb).
  unfold __fetch_stream_data, KafkaConsumer_init, poll, close, poll_cap in *. cbn.
  split.
  - intros Hboot. rewrite Hboot. cbn. split; reflexivity.
  - intros Hboot Hcap Hfetch. rewrite Hboot. cbn. rewrite Hfetch.
    apply Z.ltb_lt in Hcap. rewrite Hcap. cbn. split; reflexivity.
Qed.

Lemma fetch_stream_data_committed td offset arg w :
  committed (snd (__fetch_stream_data Json value_deserializer td offset arg w))
  = committed w.
Proof.
  destruct w as [c s fs clk k log].
  unfold __fetch_stream_data, KafkaConsumer_init, poll, close. cbn.
  destruct (bootstrap_ok k); cbn; [|reflexivity].
  repeat match goal with
         | |- context [if ?b then _ else _] => destruct b; cbn
         | |- context [match fetched_records ?a ?b ?c ?d with _ => _ end] =>
             destruct (fetched_records a b c d) as [[|? ?]|]; cbn
         end; reflexivity.
Qed.

(** X19.  [GET /datasets/{id}/topic/data] never writes: from every state
    of the world, whatever the parameters, the database failures and the
    behaviour of the broker, the committed store after the request is
    the committed store before it. *)
Theorem fetch_datasets_topic_data_read_only id no_of_records offset_reset w :
  committed
    (snd (fetch_datasets_topic_data Json value_deserializer id no_of_records
            offset_reset w))
  = committed w.
Proof.
  unfold fetch_datasets_topic_data.
  destruct (Path_gt 0 "id" id ++ Query_gt 0 "no_of_records" no_of_records);
    [|reflexivity].
  unfold fetch_dataset_topic_data. cbn.
  pose proof (get_topic_and_broker_details_committed id w) as Hc.
  destruct (DatasetService._get_topic_and_broker_details id w) as [[td|e] w1]; cbn in *.
  - rewrite <- Hc.
    set (offset := OffsetReset_value _).
    pose proof (fetch_stream_data_committed td offset (Some no_of_records) w1) as Hs.
    destruct (__fetch_stream_data Json value_deserializer td offset
                (Some no_of_records) w1) as [[rs|e] w2]; cbn in *; [exact Hs|].
    destruct (is_NoRowFound e), (is_NoMessagesFound e); cbn;
      repeat match goal with
             | |- context [if ?b then _ else _] => destruct b; cbn
             | |- context [match ?x with _ => _ end] => is_var x; destruct x; cbn
             end; exact Hs.
  - destruct (is_NoRowFound e), (is_NoMessagesFound e); cbn;
      repeat match goal with
             | |- context [if ?b then _ else _] => destruct b; cbn
             | |- context [match ?x with _ => _ end] => is_var x; destruct x; cbn
             end; exact Hc.
Qed.

(** X20.  [__fetch_stream_data] called without its third argument uses
    the default of its signature: the poll it issues carries
    [max_records = DEFAULT_STREAM_DATA_COUNT], and a successful call
    returns a non-empty list of at most that many records, after a
    session that was opened, polled once and closed. *)
Theorem fetch_stream_data_default_count td offset w rs :
  fst (__fetch_stream_data Json value_deserializer td offset None w) = Ok rs ->
  rs <> []
  /\ Z.of_nat (List.length rs) <= const.DEFAULT_STREAM_DATA_COUNT
  /\ kafka_log (snd (__fetch_stream_data Json value_deserializer td offset None w))
     = kafka_log w
       ++ [Opened (BrokerTopicDetails.topic_name td) (BrokerTopicDetails.broker_ip td)
             (BrokerTopicDetails.broker_port td) offset;
           Polled const.STREAM_TIMEOUT (Some const.DEFAULT_STREAM_DATA_COUNT);
           Closed].
Proof.
  intros Hok.
  change (__fetch_stream_data Json value_deserializer td offset None w)
    with (__fetch_stream_data Json value_deserializer td offset
            (Some (Some const.DEFAULT_STREAM_DATA_COUNT)) w) in *.
  destruct (fetch_stream_data_records Json value_deserializer td offset
              (Some const.DEFAULT_STREAM_DATA_COUNT) w rs Hok) as [Hne Hcap].
  split; [exact Hne|]. split; [exact Hcap|].
  destruct w as [c s fs clk k log].
  unfold __fetch_stream_data, KafkaConsumer_init, poll, close in *. cbn in *.
  destruct (bootstrap_ok k); cbn in *; [|discriminate].
  rewrite <- !app_assoc. cbn.
  repeat match goal with
         | H : context [if ?b then _ else _] |- _ => destruct b; cbn in *
         | H : context [match fetched_records ?a ?b ?c ?d with _ => _ end] |- _ =>
             destruct (fetched_records a b c d) as [[|? ?]|]; cbn in *
         end; try discriminate; rewrite <- ?app_assoc; reflexivity.
Qed.

(** X21.  Every response of [GET /datasets/{id}/topic/data] that is not
    an error, from any state of the world, has status 200, a non-empty
    list of records, a [record_count] equal to the length of that list,
    and no more records than the cap of the poll (the requested number,
    or the client's [max_poll_records] when none is requested). *)
Theorem fetch_datasets_topic_data_ok_window id no_of_records offset_reset w resp :
  fst (fetch_datasets_topic_data Json value_deserializer id no_of_records offset_reset w)
    = inr resp ->
  status_code resp = 200
  /\ records (data resp) <> []
  /\ record_count (data resp) = Z.of_nat (List.length (records (data resp)))
  /\ record_count (data resp) <= poll_cap (kafka w) no_of_records.
Proof.
  unfold fetch_datasets_topic_data.
  destruct (Path_gt 0 "id" id ++ Query_gt 0 "no_of_records" no_of_records);
    [|discriminate].
  set (offset := OffsetReset_value _).
  pose proof (fetch_dataset_topic_data_window Json value_deserializer id no_of_records
                offset w) as Hw.
  destruct (fetch_dataset_topic_data Json value_deserializer id no_of_records offset w)
    as [[result|e] w1]; cbn in *.
  - intros [= <-]. cbn. split; [reflexivity|]. exact (Hw result eq_refl).
  - destruct (is_NoResultFound e); [discriminate|]. destruct e; discriminate.
Qed.

End StreamReads.

Lemma fetch_dataset_topic_data_first_records_witness :
  fst (fetch_dataset_topic_data string raw_payload 5 (Some 2) const.EARLIEST
         (request linked_db [] 200 busy_kafka))
  = Ok (mkDatasetTopicData string 5 ["{}"; "{}"] 2 "telemetry").
Proof.
  assert (Hcap : 0 < poll_cap busy_kafka (Some 2)) by (cbn; lia).
  refine (fetch_dataset_topic_data_first_records string raw_payload linked_db 200 busy_kafka
            5 (Some 2) const.EARLIEST _ _ _ (fun x => x) eq_refl eq_refl eq_refl eq_refl
            eq_refl Hcap _ _).
  - intros x _. reflexivity.
  - discriminate.
Defined.

Lemma fetch_dataset_topic_data_undecodable_witness :
  fst (fetch_dataset_topic_data string malformed_payload 5 (Some 2) const.EARLIEST
         (request linked_db [] 200 busy_kafka))
  = Raise DeserializeError.
Proof.
  assert (Hcap : 0 < poll_cap busy_kafka (Some 2)) by (cbn; lia).
  refine (proj1 (fetch_dataset_topic_data_undecodable string malformed_payload linked_db 200
                   busy_kafka 5 (Some 2) const.EARLIEST _ _ _ "{}" eq_refl eq_refl eq_refl
                   eq_refl eq_refl Hcap _ eq_refl)).
  left. reflexivity.
Defined.

Lemma fetch_datasets_topic_data_unresolved_witness :
  fst (fetch_datasets_topic_data string raw_payload 4 None None
         (request linked_db [] 200 busy_kafka))
  = inl (HTTP_404_NOT_FOUND "Dataset not found.").
Proof.
  refine (proj1 (proj2 (fetch_datasets_topic_data_unresolved string raw_payload linked_db 200
                          busy_kafka 4 None None _ eq_refl I))).
  left. reflexivity.
Defined.

Lemma fetch_datasets_topic_data_transport_failure_witness :
  fst (fetch_datasets_topic_data string raw_payload 5 None None
         (request linked_db [] 200 unreachable_kafka))
  = inl (HTTP_500_INTERNAL_SERVER_ERROR NoBrokersAvailable).
Proof.
  refine (proj1 (proj1 (fetch_datasets_topic_data_transport_failure string raw_payload
                          linked_db 200 unreachable_kafka 5 None None _ _ _
                          eq_refl eq_refl eq_refl eq_refl I) eq_refl)).
Defined.

Lemma fetch_stream_data_default_count_witness :
  Z.of_nat (List.length (repeat "{}" 200)) <= const.DEFAULT_STREAM_DATA_COUNT.
Proof.
  refine (proj1 (proj2 (fetch_stream_data_default_count string raw_payload
                          (BrokerTopicDetails.mk "telemetry" (IPv4Address 2130706433) 9092)
                          const.LATEST (request linked_db [] 200 busy_kafka)
                          (repeat "{}" 200) _))).
  vm_compute. reflexivity.
Defined.

Lemma fetch_datasets_topic_data_ok_window_witness :
  record_count
    (data (mkStandardResponse string 200 "Topic Data"
             (mkDatasetTopicData string 5 ["{}"; "{}"] 2 "telemetry")))
  <= poll_cap busy_kafka (Some 2).
Proof.
  refine (proj2 (proj2 (proj2 (fetch_datasets_topic_data_ok_window string raw_payload 5
                                 (Some 2) (Some earliest)
                                 (request linked_db [] 200 busy_kafka) _ _)))).
  vm_compute. reflexivity.
Defined.

(** ** The delete routes *)

(** X22.  The delete routes, with an identity above 0 and no database
    failure.  [DELETE /datasets/broker/{id}] and
    [DELETE /datasets/topic/{id}] answer 404 and write nothing when no
    row has the identity, succeed when one has, the committed store then
    being the old one without the row and without what the delete
    cascades to, and would answer 500 and write nothing if several rows
    had it.  [DELETE /datasets/message/{id}] answers 404 and writes
    nothing when no dataset has that identity and source type broker, be
    it that no dataset has the identity or that the dataset is a file or
    table dataset. *)
Theorem delete_routes_status db now k id :
  0 < id ->
  let broker := api.delete_broker id (request db [] now k) in
  let topic := api.delete_topic id (request db [] now k) in
  let message := api.delete_dataset_message id (request db [] now k) in
  match filter (fun b => BrokerDetails.id b =? id) (broker_details_rows db) with
  | [] =>
      fst broker = inl (api.mkHTTPException 404
                          (api.Text ("Broker not found for the id " ++ str id)%string))
      /\ committed (snd broker) = db
  | [_] => fst broker = inr tt /\ committed (snd broker) = delete_broker id db
  | _ =>
      fst broker
      = inl (api.mkHTTPException 500
               (api.TextStr ("Internal Exception occurred while retrieving broker for the id "
                             ++ str id ++ " : ")%string MultipleResultsFound))
      /\ committed (snd broker) = db
  end
  /\ match filter (fun t => TopicDetails.id t =? id) (topic_details_rows db) with
     | [] =>
         fst topic = inl (api.mkHTTPException 404
                            (api.Text ("Topic not found for the id " ++ str id)%string))
         /\ committed (snd topic) = db
     | [_] => fst topic = inr tt /\ committed (snd topic) = delete_topic id db
     | _ =>
         fst topic
         = inl (api.mkHTTPException 500
                  (api.TextStr ("Internal Exception occurred while retrieving topic for the id "
                                ++ str id ++ " : ")%string MultipleResultsFound))
         /\ committed (snd topic) = db
     end
  /\ (filter (broker_sourced id) (dataset_info_rows db) = [] ->
      fst message = inl (api.mkHTTPException 404
                           (api.Text ("Dataset not found for the id " ++ str id)%string))
      /\ committed (snd message) = db).
Proof.
  intros Hpos broker topic message. subst broker topic message.
  unfold api.delete_broker, api.delete_topic, api.delete_dataset_message.
  rewrite !(validated_gt _ _ _ Hpos).
  unfold DatasetService.broker_deregister, DatasetService.topic_deregister,
    DatasetService.dataset_message_deregister.
  change (fun d => (DatasetInfo.id d =? id)
                   && (DatasetInfo.data_source_type d =? const.BROKER_DATA_SOURCE_TYPE))
    with (broker_sourced id).
  split; [|split].
  - destruct (filter _ (broker_details_rows db)) as [|b [|b' bs]] eqn:Hb; cbn; rewrite Hb; cbn.
    + split; reflexivity.
    + destruct (filter_singleton_In _ _ _ Hb) as [_ Hid]. apply Z.eqb_eq in Hid.
      rewrite Hid. split; reflexivity.
    + split; reflexivity.
  - destruct (filter _ (topic_details_rows db)) as [|t [|t' ts]] eqn:Ht; cbn; rewrite Ht; cbn.
    + split; reflexivity.
    + destruct (filter_singleton_In _ _ _ Ht) as [_ Hid]. apply Z.eqb_eq in Hid.
      rewrite Hid. split; reflexivity.
    + split; reflexivity.
  - intros Hd. cbn. rewrite Hd. cbn. split; reflexivity.
Qed.

Lemma delete_routes_status_witness :
  fst (api.delete_dataset_message 4 (request linked_db [] 200 quiet_kafka))
  = inl (api.mkHTTPException 404 (api.Text "Dataset not found for the id 4")).
Proof.
  pose proof (delete_routes_status linked_db 200 quiet_kafka 4 eq_refl) as H.
  cbv zeta in H. destruct H as (_ & _ & H). exact (proj1 (H eq_refl)).
Defined.

(** X23.  Parameters are validated before a route runs.  With an identity
    of 0 or below, [PATCH /datasets/broker/{id}],
    [GET /datasets/{id}/message/details], the three delete routes and
    [GET /datasets/{id}/topic/data] answer 422 with the error of the path
    parameter [id] (for the last route followed by the error of
    [no_of_records] when that is given and not above 0), and the world is
    as before: no query has run and no consumer session was opened.
    [GET /datasets/{id}/topic/data] with an identity above 0 and a given
    [no_of_records] of 0 or below answers 422 with the error of that
    query parameter, the world again as before. *)
Theorem routes_validate_parameters id no_of_records offset_reset patch req w
    (Json : Type) (value_deserializer : string -> option Json) :
  let invalid_id := not_gt ["path"; "id"] 0 in
  let unprocessable {A} : (api.HTTPException + A) * World :=
    (inl (api.mkHTTPException 422 (api.Invalid [invalid_id])), w) in
  (id <= 0 ->
   api.dataset_broker_update patch id w = unprocessable
   /\ api.fetch_dataset_message_details req id w = unprocessable
   /\ api.delete_broker id w = unprocessable
   /\ api.delete_topic id w = unprocessable
   /\ api.delete_dataset_message id w = unprocessable
   /\ fetch_datasets_topic_data Json value_deserializer id no_of_records offset_reset w
      = (inl (HTTP_422_UNPROCESSABLE_ENTITY
                (invalid_id :: Query_gt 0 "no_of_records" no_of_records)), w))
  /\ (0 < id ->
      forall n, no_of_records = Some n -> n <= 0 ->
      fetch_datasets_topic_data Json value_deserializer id no_of_records offset_reset w
      = (inl (HTTP_422_UNPROCESSABLE_ENTITY [not_gt ["query"; "no_of_records"] 0]), w)).
Proof.
  intros invalid_id unprocessable. split.
  - intros Hid. apply Z.ltb_ge in Hid.
    unfold api.dataset_broker_update, api.fetch_dataset_message_details, api.delete_broker,
      api.delete_topic, api.delete_dataset_message, fetch_datasets_topic_data,
      api.validated, Path_gt.
    rewrite Hid. cbn [app]. repeat split; reflexivity.
  - intros Hid n -> Hn. apply Z.ltb_lt in Hid. apply Z.ltb_ge in Hn.
    unfold fetch_datasets_topic_data, Path_gt, Query_gt. rewrite Hid, Hn. reflexivity.
Qed.

Lemma routes_validate_parameters_witness :
  fetch_datasets_topic_data string raw_payload (-1) (Some 0) None
    (request linked_db [] 200 busy_kafka)
  = (inl (HTTP_422_UNPROCESSABLE_ENTITY
            [not_gt ["path"; "id"] 0; not_gt ["query"; "no_of_records"] 0]),
     request linked_db [] 200 busy_kafka).
Proof.
  destruct (routes_validate_parameters (-1) (Some 0) None (BrokerUpdate.mk None None None)
              (paginated_get (pagination.mkState 1 10 0 10))
              (request linked_db [] 200 busy_kafka) string raw_payload) as [H _].
  exact (proj2 (proj2 (proj2 (proj2 (proj2 (H ltac:(discriminate))))))).
Defined.
